(** * days-in-office: the record normalisation and matching pipeline

    A shallow embedding of [main.go].  Go values are modelled as follows:
    - [string] is Rocq's [string], a sequence of bytes, as in Go;
    - [float64] is the primitive binary64 type [float];
    - [int] is [Z] (the 64-bit range is a side condition where it matters);
    - [(T, error)] results are pairs with an [option error];
    - a run-time panic is an explicit [outcome];
    - the [dayMap] (a Go [map[string]bool]) is a [gmap string bool], threaded
      through the code as explicit state since Go mutates it in place.

    Functions of Go's standard library and of [paulmach/orb] that the program
    calls are either modelled in the modules [strings] and [time] below, or
    taken as variables of the section [Program]. *)

From Stdlib Require Import ZArith Lia List Ascii String.
From Stdlib Require Import DecimalString DecimalN DecimalPos.
From Stdlib Require Import PrimFloat Uint63 SpecFloat FloatOps.
From stdpp Require Import gmap strings list.

Local Open Scope string_scope.
Local Open Scope list_scope.
Local Open Scope Z_scope.

(** ** Go run-time outcomes *)

(** The run-time panics the program can raise. *)
Inductive panic : Type :=
| IndexOutOfRange (index len : nat).

(** The outcome of running a Go function: it returns, or it panics. *)
Inductive outcome (A : Type) : Type :=
| Returned (a : A)
| Panicked (p : panic).
Arguments Returned {A} a.
Arguments Panicked {A} p.

Definition bind {A B : Type} (o : outcome A) (k : A -> outcome B) : outcome B :=
  match o with
  | Returned a => k a
  | Panicked p => Panicked p
  end.

Notation "x <- c1 ;; c2" := (bind c1 (fun x => c2))
  (at level 100, c1 at next level, right associativity).

(** [for _, x := range xs { acc = body(acc, x) }] where the body may panic. *)
Fixpoint forRange {A S : Type} (body : S -> A -> outcome S) (xs : list A) (acc : S)
  : outcome S :=
  match xs with
  | [] => Returned acc
  | x :: xs' => acc' <- body acc x ;; forRange body xs' acc'
  end.

(** [s[i]] on a slice: panics when [i] is out of range. *)
Definition index {A : Type} (s : list A) (i : nat) : outcome A :=
  match s !! i with
  | Some x => Returned x
  | None => Panicked (IndexOutOfRange i (length s))
  end.

(** Go's [error] interface values, as far as the program builds them. *)
Inductive error : Type :=
| errorString (msg : string)
| wrapError (msg : string) (err : error).

(** ** Package [strings] (for a non-empty [old] and [sep]) *)
Module strings.

(** [replaceFrom skip s old new] scans [s] from the left; [skip] counts the
    bytes of a match that are still to be dropped. *)
Fixpoint replaceFrom (skip : nat) (s old new : string) : string :=
  match s with
  | EmptyString => EmptyString
  | String c s' =>
      match skip with
      | S k => replaceFrom k s' old new
      | O =>
          if String.prefix old s
          then (new ++ replaceFrom (String.length old - 1) s' old new)%string
          else String c (replaceFrom 0 s' old new)
      end
  end.

(** [strings.ReplaceAll(s, old, new)]: every non-overlapping instance of
    [old], leftmost first, is replaced by [new]. *)
Definition ReplaceAll (s old new : string) : string := replaceFrom 0 s old new.

(** [splitFrom skip cur s sep]: [cur] is the piece read so far. *)
Fixpoint splitFrom (skip : nat) (cur s sep : string) : list string :=
  match s with
  | EmptyString => [cur]
  | String c s' =>
      match skip with
      | S k => splitFrom k cur s' sep
      | O =>
          if String.prefix sep s
          then cur :: splitFrom (String.length sep - 1) EmptyString s' sep
          else splitFrom 0 (cur ++ String c EmptyString)%string s' sep
      end
  end.

(** [strings.Split(s, sep)]: the substrings between the non-overlapping
    instances of [sep]; a string without [sep] gives the one-element slice
    holding [s]. *)
Definition Split (s sep : string) : list string := splitFrom 0 EmptyString s sep.

(** [strings.Contains(s, substr)]; the program does not call it, the
    statements about [Split] do. *)
Fixpoint Contains (s substr : string) : bool :=
  match s with
  | EmptyString => String.prefix substr EmptyString
  | String _ s' => String.prefix substr s || Contains s' substr
  end.

End strings.

(** The degree sign U+00B0, two bytes in UTF-8. *)
Definition degree : string :=
  String (ascii_of_nat 194) (String (ascii_of_nat 176) EmptyString).

Section PointParser.

(** [strconv.ParseFloat(s, bitSize)]. *)
Variable ParseFloat : string -> Z -> float * option error.

(** [parsePoint] of main.go: [coords[1]] is read without a length check. *)
Definition parsePoint (value : string) : outcome (float * float) :=
  let coords := strings.Split (strings.ReplaceAll value degree "") ", " in
  c0 <- index coords 0 ;;
  let '(lat, _) := ParseFloat c0 64 in
  c1 <- index coords 1 ;;
  let '(long, _) := ParseFloat c1 64 in
  Returned (lat, long).

End PointParser.

(** ** Package [time]

    A [Time] is an instant (seconds and nanoseconds since the Unix epoch) and
    a [Location].  Times decoded from JSON carry no monotonic clock reading,
    so comparisons use the wall clock.  The calendar is the proleptic
    Gregorian one. *)
Module time.

Inductive Weekday : Type :=
| Sunday | Monday | Tuesday | Wednesday | Thursday | Friday | Saturday.

Definition Weekday_eqb (a b : Weekday) : bool :=
  match a, b with
  | Sunday, Sunday | Monday, Monday | Tuesday, Tuesday | Wednesday, Wednesday
  | Thursday, Thursday | Friday, Friday | Saturday, Saturday => true
  | _, _ => false
  end.

(** [UTC], the process-wide [Local], or a zone of fixed offset (seconds
    east of UTC), as [time.Parse] fabricates for an offset that is not the
    local one. *)
Inductive Location : Type :=
| UTC
| Local
| FixedZone (name : string) (offset : Z).

Record Time : Type := mkTime {
  unixSec : Z;
  nsec : Z;
  loc : Location
}.

(** [t.Before(u)] and [t.After(u)] compare instants; locations play no role. *)
Definition Time_Before (t u : Time) : bool :=
  (unixSec t <? unixSec u) || ((unixSec t =? unixSec u) && (nsec t <? nsec u)).

Definition Time_After (t u : Time) : bool :=
  (unixSec u <? unixSec t) || ((unixSec t =? unixSec u) && (nsec u <? nsec t)).

(** [t.Local()]: the same instant, with the location set to [Local]. *)
Definition Time_Local (t : Time) : Time :=
  {| unixSec := unixSec t; nsec := nsec t; loc := Local |}.

(** Nanoseconds since the Unix epoch. *)
Definition Time_UnixNano (t : Time) : Z := unixSec t * 1000000000 + nsec t.

(** Year, month and day of the day that lies [z] days after 1970-01-01. *)
Definition civilFromDays (z : Z) : Z * Z * Z :=
  let z := z + 719468 in
  let era := z / 146097 in
  let doe := z - era * 146097 in
  let yoe := (doe - doe / 1460 + doe / 36524 - doe / 146096) / 365 in
  let doy := doe - (365 * yoe + yoe / 4 - yoe / 100) in
  let mp := (5 * doy + 2) / 153 in
  let d := doy - (153 * mp + 2) / 5 + 1 in
  let m := if mp <? 10 then mp + 3 else mp - 9 in
  let y := yoe + era * 400 in
  (if m <=? 2 then y + 1 else y, m, d).

(** The inverse: the day number of a civil date. *)
Definition daysFromCivil (y m d : Z) : Z :=
  let y := if m <=? 2 then y - 1 else y in
  let era := y / 400 in
  let yoe := y - era * 400 in
  let mp := if 2 <? m then m - 3 else m + 9 in
  let doy := (153 * mp + 2) / 5 + d - 1 in
  let doe := yoe * 365 + yoe / 4 - yoe / 100 + doy in
  era * 146097 + doe - 719468.

Definition weekdayOfIndex (i : Z) : Weekday :=
  match i with
  | 0 => Sunday | 1 => Monday | 2 => Tuesday | 3 => Wednesday
  | 4 => Thursday | 5 => Friday | _ => Saturday
  end.

(** The decimal digits of [x], with a sign for a negative [x] and zeros
    up to [width] digits. *)
Definition intField (x : Z) (width : nat) : list ascii :=
  let sign := if x <? 0 then ["-"%char] else [] in
  let ds := list_ascii_of_string
              (NilEmpty.string_of_uint (N.to_uint (Z.to_N (Z.abs x)))) in
  sign ++ repeat "0"%char (width - length ds) ++ ds.

(** [appendInt(b, x, width)] of Go's format.go. *)
Definition appendInt (b : list ascii) (x : Z) (width : nat) : list ascii :=
  b ++ intField x width.

(** The layout ["2006-01-02"] applied to a date. *)
Definition formatDate (year month day : Z) : string :=
  let b := appendInt [] year 4 in
  let b := b ++ ["-"%char] in
  let b := appendInt b month 2 in
  let b := b ++ ["-"%char] in
  let b := appendInt b day 2 in
  string_of_list_ascii b.

(** Reading back what [intField] writes; the proofs use it, the program
    does not. *)
Definition readInt (l : list ascii) : option Z :=
  match NilEmpty.uint_of_string (string_of_list_ascii l) with
  | Some u => Some (Z.of_N (N.of_uint u))
  | None =>
      match l with
      | "-"%char :: r =>
          option_map (fun u => - Z.of_N (N.of_uint u))
                     (NilEmpty.uint_of_string (string_of_list_ascii r))
      | _ => None
      end
  end.

Section Zone.

(** The offset, in seconds east of UTC, that the process's [Local]
    location has at a given Unix second. *)
Variable localOffset : Z -> Z.

Definition lookup (l : Location) (sec : Z) : Z :=
  match l with
  | UTC => 0
  | Local => localOffset sec
  | FixedZone _ offset => offset
  end.

(** Seconds on the clock of [t]'s own location. *)
Definition Time_abs (t : Time) : Z := unixSec t + lookup (loc t) (unixSec t).

Definition Time_days (t : Time) : Z := Time_abs t / 86400.

(** [t.Date()]. *)
Definition Time_Date (t : Time) : Z * Z * Z := civilFromDays (Time_days t).

(** [t.Weekday()]: 1970-01-01 was a Thursday. *)
Definition Time_Weekday (t : Time) : Weekday :=
  weekdayOfIndex ((Time_days t + 4) mod 7).

(** [t.Format("2006-01-02")]. *)
Definition Time_Format_date (t : Time) : string :=
  let '(year, month, day) := Time_Date t in formatDate year month day.

End Zone.

End time.

(** ** Package [orb] *)
Module orb.

(** [orb.Point] is a [[2]float64]; the pair holds its two cells in order. *)
Definition Point : Type := float * float.

(** The package reads cell 0 as the longitude and cell 1 as the latitude:
    [func (p Point) Lon() float64 { return p[0] }] and
    [func (p Point) Lat() float64 { return p[1] }]. *)
Definition Lon (p : Point) : float := fst p.
Definition Lat (p : Point) : float := snd p.

(** [orb.EarthRadius], in metres. *)
Definition EarthRadius : float := 6378137.0.

End orb.

#[local] Set Warnings "-inexact-float".

(** ** Package [math]

    The portable implementations of the Go library (sin.go, atan.go,
    atan2.go), which are the ones that run on amd64; products and sums are
    rounded one by one, without fused multiply-add.  A decimal literal denotes
    the nearest [float64], as in Go.  Go evaluates an expression of constants
    exactly and rounds it once, so [4 / Pi], [Pi / 2], [Pi / 4], [3 * Pi / 4]
    and [0.5 * Morebits] appear below as the [float64] nearest to their exact
    value. *)
Module math.

Definition Pi : float := 3.14159265358979323846264338327950288419716939937510582097494459.

(** [4 / Pi], [Pi / 2], [Pi / 4] and [3 * Pi / 4]. *)
Definition fourOverPi : float := 0x1.45f306dc9c883p+0.
Definition halfPi : float := 0x1.921fb54442d18p+0.
Definition quarterPi : float := 0x1.921fb54442d18p-1.
Definition threeQuarterPi : float := 0x1.2d97c7f3321d2p+1.

Definition IsNaN (f : float) : bool := negb (f =? f)%float.

(** [IsInf(f, sign)]: positive infinity for [sign > 0], negative infinity for
    [sign < 0], either for [sign == 0]. *)
Definition IsInf (f : float) (sign : Z) : bool :=
  ((0 <=? sign) && (f =? infinity)%float) || ((sign <=? 0) && (f =? neg_infinity)%float).

Definition Signbit (x : float) : bool := get_sign x.

Definition Copysign (f sign : float) : float :=
  if Signbit sign then (- PrimFloat.abs f)%float else PrimFloat.abs f.

Definition Abs (x : float) : float := PrimFloat.abs x.

Definition Sqrt (x : float) : float := PrimFloat.sqrt x.

(** The conversions [uint64(x)], for a finite [x] that is not negative, and
    [float64(j)]. *)
Definition uint64 (x : float) : Z :=
  match Prim2SF x with
  | S754_finite false m e =>
      if 0 <=? e then Z.shiftl (Z.pos m) e else Z.shiftr (Z.pos m) (- e)
  | _ => 0
  end.

Definition float64 (j : Z) : float := of_uint63 (Uint63.of_Z j).

(** The coefficient tables [_sin] and [_cos]. *)
Definition _sin (i : nat) : float :=
  nth i [ 1.58962301576546568060e-10; -2.50507477628578072866e-8;
          2.75573136213857245213e-6; -1.98412698295895385996e-4;
          8.33333333332211858878e-3; -1.66666666666666307295e-1 ]%float 0%float.

Definition _cos (i : nat) : float :=
  nth i [ -1.13585365213876817300e-11; 2.08757008419747316778e-9;
          -2.75573141792967388112e-7; 2.48015872888517045348e-5;
          -1.38888888888730564116e-3; 4.16666666666665929218e-2 ]%float 0%float.

Definition PI4A : float := 7.85398125648498535156e-1.
Definition PI4B : float := 3.77489470793079817668e-8.
Definition PI4C : float := 2.69515142907905952645e-15.

(** [reduceThreshold = 1 << 29]. *)
Definition reduceThreshold : float := 0x1p29.

Section Trig.

(** [trigReduce], the reduction of an angle of [reduceThreshold] or more by
    the digits of [4 / Pi]; it returns the octant and the reduced angle. *)
Variable trigReduce : float -> Z * float.

(** The block that [sin] and [cos] share: the octant [j] of [x], which is not
    negative, and the angle [z] within it. *)
Definition octant (x : float) : Z * float :=
  if (reduceThreshold <=? x)%float then trigReduce x
  else
    let j := uint64 (x * fourOverPi)%float in
    let y := float64 j in
    let '(j, y) := if Z.land j 1 =? 1 then (j + 1, (y + 1)%float) else (j, y) in
    let j := Z.land j 7 in
    let z := (((x - y * PI4A) - y * PI4B) - y * PI4C)%float in
    (j, z).

(** The two polynomials, in [z] and [zz = z * z]. *)
Definition sinPolynomial (z zz : float) : float :=
  (z + z * zz * ((((((_sin 0 * zz) + _sin 1) * zz + _sin 2) * zz + _sin 3) * zz + _sin 4) * zz
                 + _sin 5))%float.

Definition cosPolynomial (zz : float) : float :=
  (1.0 - 0.5 * zz
   + zz * zz * ((((((_cos 0 * zz) + _cos 1) * zz + _cos 2) * zz + _cos 3) * zz + _cos 4) * zz
                + _cos 5))%float.

Definition Sin (x : float) : float :=
  if (x =? 0)%float || IsNaN x then x
  else if IsInf x 0 then nan
  else
    let '(x, sign) := if (x <? 0)%float then ((- x)%float, true) else (x, false) in
    let '(j, z) := octant x in
    let '(j, sign) := if 3 <? j then (j - 4, negb sign) else (j, sign) in
    let zz := (z * z)%float in
    let y := if (j =? 1) || (j =? 2) then cosPolynomial zz else sinPolynomial z zz in
    if sign then (- y)%float else y.

Definition Cos (x : float) : float :=
  if IsNaN x || IsInf x 0 then nan
  else
    let sign := false in
    let x := Abs x in
    let '(j, z) := octant x in
    let '(j, sign) := if 3 <? j then (j - 4, negb sign) else (j, sign) in
    let sign := if 1 <? j then negb sign else sign in
    let zz := (z * z)%float in
    let y := if (j =? 1) || (j =? 2) then sinPolynomial z zz else cosPolynomial zz in
    if sign then (- y)%float else y.

End Trig.

(** [xatan] evaluates a series valid in the range [0, 0.66]. *)
Definition xatan (x : float) : float :=
  let P0 := (-8.750608600031904122785e-01)%float in
  let P1 := (-1.615753718733365076637e+01)%float in
  let P2 := (-7.500855792314704667340e+01)%float in
  let P3 := (-1.228866684490136173410e+02)%float in
  let P4 := (-6.485021904942025371773e+01)%float in
  let Q0 := (2.485846490142306297962e+01)%float in
  let Q1 := (1.650270098316988542046e+02)%float in
  let Q2 := (4.328810604912902668951e+02)%float in
  let Q3 := (4.853903996359136964868e+02)%float in
  let Q4 := (1.945506571482613964425e+02)%float in
  let z := (x * x)%float in
  let z := (z * ((((P0 * z + P1) * z + P2) * z + P3) * z + P4)
            / (((((z + Q0) * z + Q1) * z + Q2) * z + Q3) * z + Q4))%float in
  (x * z + x)%float.

(** [satan] reduces its argument, known to be positive, to the range
    [0, 0.66] and calls [xatan]. *)
Definition satan (x : float) : float :=
  let Morebits := 6.123233995736765886130e-17%float in
  let halfMorebits := 0x1.1a62633145c07p-55%float in
  let Tan3pio8 := 2.41421356237309504880%float in
  if (x <=? 0.66)%float then xatan x
  else if (Tan3pio8 <? x)%float then (halfPi - xatan (1 / x) + Morebits)%float
  else (quarterPi + xatan ((x - 1) / (x + 1)) + halfMorebits)%float.

Definition Atan (x : float) : float :=
  if (x =? 0)%float then x
  else if (0 <? x)%float then satan x
  else (- satan (- x))%float.

Definition Atan2 (y x : float) : float :=
  if IsNaN x || IsNaN y then nan
  else if (y =? 0)%float then
    if (0 <=? x)%float && negb (Signbit x) then Copysign 0 y else Copysign Pi y
  else if (x =? 0)%float then Copysign halfPi y
  else if IsInf x 0 then
    if IsInf x 1 then
      if IsInf y 0 then Copysign quarterPi y else Copysign 0 y
    else
      if IsInf y 0 then Copysign threeQuarterPi y else Copysign Pi y
  else if IsInf y 0 then Copysign halfPi y
  else
    let q := Atan (y / x) in
    if (x <? 0)%float then
      if (q <=? 0)%float then (q + Pi)%float else (q - Pi)%float
    else q.

End math.

(** ** Package [orb/geo] *)
Module geo.

Definition deg2rad (d : float) : float := (d * math.Pi / 180.0)%float.

(** [geo.DistanceHaversine], in metres: the differences of cell 1 and of
    cell 0 are the differences in latitude and in longitude, and the two
    cosines are those of the latitudes. *)
Definition DistanceHaversine (trigReduce : float -> Z * float) (p1 p2 : orb.Point) : float :=
  let dLat := deg2rad (snd p1 - snd p2) in
  let dLon := deg2rad (fst p1 - fst p2) in
  let dLat2Sin := math.Sin trigReduce (dLat / 2) in
  let dLon2Sin := math.Sin trigReduce (dLon / 2) in
  let a := (dLat2Sin * dLat2Sin
            + math.Cos trigReduce (deg2rad (snd p2)) * math.Cos trigReduce (deg2rad (snd p1))
              * dLon2Sin * dLon2Sin)%float in
  (2.0 * orb.EarthRadius * math.Atan2 (math.Sqrt a) (math.Sqrt (1 - a)))%float.

End geo.

(** ** The data model of main.go *)

Record timelinePoint : Type := {
  Latitude : float;
  Longitude : float;
  Start : time.Time;
  End_ : time.Time
}.

(** The anonymous struct of the field [Location]. *)
Record visitLocation : Type := {
  LatitudeE7 : Z;
  LongitudeE7 : Z;
  Address : string;
  Name : string
}.

(** The anonymous struct of the field [Duration]. *)
Record visitDuration : Type := {
  Duration_Start : time.Time;
  Duration_End : time.Time
}.

Record timelineVisitedPlace : Type := {
  Location : visitLocation;
  Duration : visitDuration;
  VisitConfidence : Z;
  CenterLatE7 : Z;
  CenterLngE7 : Z
}.

(** An element of [TimelinePath]. *)
Record pathPoint : Type := {
  Point : string;
  PointTime : time.Time
}.

Record semanticSegment : Type := {
  StartTime : time.Time;
  EndTime : time.Time;
  TimelinePath : list pathPoint
}.

(** An element of [TimelineObjects]; [None] is the nil pointer. *)
Record timelineObject : Type := {
  PlaceVisit : option timelineVisitedPlace
}.

(** The decoded document.  [SemanticSegments] is [None] for the nil slice
    (key absent or null) and [Some l] for a slice that is not nil, which is
    what the decoder leaves for a JSON array, the empty one included. *)
Record wrapper : Type := {
  TimelineObjects : list timelineObject;
  SemanticSegments : option (list semanticSegment)
}.

(** [float64(x)] for an [int] [x] (64 bits, two's complement). *)
Definition float64_of_int (x : Z) : float :=
  if x =? -9223372036854775808 then (-0x1p63)%float
  else if x <? 0 then (- of_uint63 (Uint63.of_Z (- x)))%float
  else of_uint63 (Uint63.of_Z x).

(** A line handed to the logger. *)
Inductive logLevel : Type := DebugLevel | ErrorLevel.

Record logEntry : Type := {
  entryLevel : logLevel;
  entryFile : string;
  entryMsg : string;
  entryErr : option error;
  entryCounts : option (nat * nat)
}.

(** [type dayMap map[string]bool]: a date text to whether it was a working
    day. *)
Abbreviation dayMap := (gmap string bool).

(** [os.ErrInvalid], which [Read] returns on a nil [*os.File]. *)
Definition ErrInvalid : error := errorString "invalid argument".

Section Program.

(** [strconv.ParseFloat]. *)
Variable ParseFloat : string -> Z -> float * option error.

(** The distance function that the loop calls.  The program passes
    [geo.DistanceHaversine], modelled above; what is proved for every function
    holds for it. *)
Variable DistanceHaversine : orb.Point -> orb.Point -> float.

(** The zone offsets of [time.Local]. *)
Variable localOffset : Z -> Z.

(** Open files, [os.OpenFile(name, os.O_RDONLY, 0)], and what
    [json.NewDecoder(f).Decode(&w)] gives on an open file. *)
Variable File : Type.
Variable OpenFile : string -> File + error.
Variable Decode : File -> wrapper + error.

(** *** The Day Set *)

Definition isWorkingDay (t : time.Time) : bool :=
  negb (time.Weekday_eqb (time.Time_Weekday localOffset t) time.Saturday)
  && negb (time.Weekday_eqb (time.Time_Weekday localOffset t) time.Sunday).

Definition dayMap_Add (d : dayMap) (t : time.Time) : dayMap :=
  let date := time.Time_Format_date localOffset t in
  <[date := isWorkingDay t]> d.

(** The keys, in the order of iteration over the map, which Go leaves
    unspecified; [main] sorts the slice. *)
Definition dayMap_ToSlice (d : dayMap) : list string :=
  (map_to_list d).*1.

Definition dayMap_CountWorkingDays (d : dayMap) : nat :=
  map_fold (fun _ (working : bool) count => if working then S count else count) 0%nat d.

(** [len(d)]. *)
Definition dayMap_len (d : dayMap) : nat := size d.

(** *** The Schema Normalizer *)

(** Decoding from [input]; [None] is the nil [*os.File] that a failed
    [os.OpenFile] leaves behind. *)
Definition decodeInput (input : option File) : wrapper + error :=
  match input with
  | None => inr ErrInvalid
  | Some f => Decode f
  end.

(** The body of the inner loop over [entry.TimelinePath]. *)
Definition appendPathPoint (entry : semanticSegment)
    (result : list timelinePoint) (point : pathPoint) : outcome (list timelinePoint) :=
  p <- parsePoint ParseFloat (Point point) ;;
  Returned (result ++ [ {| Latitude := fst p; Longitude := snd p;
                           Start := StartTime entry; End_ := EndTime entry |} ]).

(** The loop over [w.SemanticSegments]. *)
Definition parseSemanticSegments (segments : list semanticSegment)
  : outcome (list timelinePoint) :=
  forRange (fun result entry => forRange (appendPathPoint entry) (TimelinePath entry) result)
           segments [].

(** The two assignments under [CenterLatE7 == 0 || CenterLngE7 == 0]. *)
Definition useLocation (place : timelineVisitedPlace) : timelineVisitedPlace :=
  {| Location := Location place; Duration := Duration place;
     VisitConfidence := VisitConfidence place;
     CenterLatE7 := LatitudeE7 (Location place);
     CenterLngE7 := LongitudeE7 (Location place) |}.

(** The body of the loop over [w.TimelineObjects]. *)
Definition appendPlaceVisit (result : list timelinePoint) (entry : timelineObject)
  : list timelinePoint :=
  match PlaceVisit entry with
  | None => result
  | Some visit =>
      let place :=
        if (CenterLatE7 visit =? 0) || (CenterLngE7 visit =? 0)
        then useLocation visit else visit in
      result ++ [ {| Latitude := (float64_of_int (CenterLatE7 place) / 1e7)%float;
                     Longitude := (float64_of_int (CenterLngE7 place) / 1e7)%float;
                     Start := Duration_Start (Duration place);
                     End_ := Duration_End (Duration place) |} ]
  end.

Definition parseTimelineObjects (objects : list timelineObject) : list timelinePoint :=
  fold_left appendPlaceVisit objects [].

Definition ParseTimelineInput (input : option File)
  : outcome (list timelinePoint * option error) :=
  match decodeInput input with
  | inr e => Returned ([], Some (wrapError "decoding JSON: " e))
  | inl w =>
      match SemanticSegments w with
      | Some segments =>
          result <- parseSemanticSegments segments ;;
          Returned (result, None)
      | None => Returned (parseTimelineObjects (TimelineObjects w), None)
      end
  end.

(** *** The Matching Pipeline *)

Section ProcessFile.

Variables (startDate endDate : time.Time).
Variables (officeLocation : orb.Point) (tolerance : float).

(** The [continue] test of the loop. *)
Definition skipped (place : timelinePoint) : bool :=
  time.Time_Before (End_ place) startDate || time.Time_After (Start place) endDate.

Definition withinTolerance (place : timelinePoint) : bool :=
  let loc : orb.Point := (Latitude place, Longitude place) in
  let distance := DistanceHaversine officeLocation loc in
  (distance <=? tolerance)%float.

(** The test under which the loop body reaches the call of [Add]: the record
    is not skipped and the distance that the library returns for the two
    points is at most the tolerance. *)
Definition matches (place : timelinePoint) : bool :=
  negb (skipped place)
  && (DistanceHaversine officeLocation (Latitude place, Longitude place) <=? tolerance)%float.

(** One iteration over [places]; the state is the Day Set and
    [placesProcessed]. *)
Definition processPlace (st : dayMap * nat) (place : timelinePoint) : dayMap * nat :=
  if skipped place then st
  else
    let days := if withinTolerance place
                then dayMap_Add (fst st) (Start place) else fst st in
    (days, S (snd st)).

Definition processFile (fileName : string)
    (st : dayMap * list logEntry) : outcome (dayMap * list logEntry) :=
  let '(daysInTheOffice, logs) := st in
  let '(file, logs) :=
    match OpenFile fileName with
    | inl f => (Some f, logs)
    | inr e => (None, logs ++ [ {| entryLevel := ErrorLevel; entryFile := fileName;
                                   entryMsg := "Could not open file"; entryErr := Some e;
                                   entryCounts := None |} ])
    end in
  r <- ParseTimelineInput file ;;
  let places := fst r in
  let logs :=
    match snd r with
    | None => logs
    | Some e => logs ++ [ {| entryLevel := ErrorLevel; entryFile := fileName;
                             entryMsg := "Could not parse file"; entryErr := Some e;
                             entryCounts := None |} ]
    end in
  let '(days, placesProcessed) := fold_left processPlace places (daysInTheOffice, 0%nat) in
  Returned (days,
            logs ++ [ {| entryLevel := DebugLevel; entryFile := fileName;
                         entryMsg := "Found %d visits to places in file of which %d have been (partially) within the given time range";
                         entryErr := None;
                         entryCounts := Some (length places, placesProcessed) |} ]).

(** The loop of [main] over [fileNames]. *)
Definition processFiles (fileNames : list string)
    (st : dayMap * list logEntry) : outcome (dayMap * list logEntry) :=
  forRange (fun st fileName => processFile fileName st) fileNames st.

End ProcessFile.

End Program.

Arguments decodeInput {File} Decode input.
Arguments ParseTimelineInput ParseFloat {File} Decode input.
Arguments processFile ParseFloat DistanceHaversine localOffset {File} OpenFile Decode
  startDate endDate officeLocation tolerance fileName st.
Arguments processFiles ParseFloat DistanceHaversine localOffset {File} OpenFile Decode
  startDate endDate officeLocation tolerance fileNames st.

(** ** Records that the statements below speak of *)

(** The record of a place visit whose coordinates are [latE7] and [lngE7]. *)
Definition recordOf (latE7 lngE7 : Z) (visit : timelineVisitedPlace) : timelinePoint :=
  {| Latitude := (float64_of_int latE7 / 1e7)%float;
     Longitude := (float64_of_int lngE7 / 1e7)%float;
     Start := Duration_Start (Duration visit);
     End_ := Duration_End (Duration visit) |}.

Definition recordFromCenter (visit : timelineVisitedPlace) : timelinePoint :=
  recordOf (CenterLatE7 visit) (CenterLngE7 visit) visit.

Definition recordFromLocation (visit : timelineVisitedPlace) : timelinePoint :=
  recordOf (LatitudeE7 (Location visit)) (LongitudeE7 (Location visit)) visit.

(** The fallback rule in the words of the specification: the location
    sub-object is used when both centre fields are zero (an absent field
    decodes to zero). *)
Definition recordOfVisit_spec (visit : timelineVisitedPlace) : timelinePoint :=
  if (CenterLatE7 visit =? 0) && (CenterLngE7 visit =? 0)
  then recordFromLocation visit else recordFromCenter visit.

(** The fallback rule of the code: one zero centre field is enough. *)
Definition recordOfVisit (visit : timelineVisitedPlace) : timelinePoint :=
  if (CenterLatE7 visit =? 0) || (CenterLngE7 visit =? 0)
  then recordFromLocation visit else recordFromCenter visit.

(** The place visits of a document, in source order. *)
Definition placeVisits (objects : list timelineObject) : list timelineVisitedPlace :=
  omap PlaceVisit objects.

(** The pieces of a coordinate text that [parsePoint] indexes. *)
Definition coordsOf (value : string) : list string :=
  strings.Split (strings.ReplaceAll value degree "") ", ".

(** A coordinate text with the comma+space separator. *)
Definition validPoint (value : string) : bool :=
  strings.Contains (strings.ReplaceAll value degree "") ", ".

Definition validSegment (segment : semanticSegment) : bool :=
  forallb (fun point => validPoint (Point point)) (TimelinePath segment).

(** The record of one path point of a segment. *)
Definition recordOfPathPoint (ParseFloat : string -> Z -> float * option error)
    (segment : semanticSegment) (point : pathPoint) : timelinePoint :=
  let coords := coordsOf (Point point) in
  {| Latitude := fst (ParseFloat (nth 0 coords "") 64);
     Longitude := fst (ParseFloat (nth 1 coords "") 64);
     Start := StartTime segment;
     End_ := EndTime segment |}.

Definition recordsOfSegment (ParseFloat : string -> Z -> float * option error)
    (segment : semanticSegment) : list timelinePoint :=
  map (recordOfPathPoint ParseFloat segment) (TimelinePath segment).

(** ** A small file system for the examples

    A file is its decoded document, or [None] when its bytes are not JSON. *)

(** [time.Date(y, m, d, 0, 0, 0, 0, time.UTC)]. *)
Definition dateUTC (y m d : Z) : time.Time :=
  time.mkTime (time.daysFromCivil y m d * 86400) 0 time.UTC.

Definition exampleVisit : timelineVisitedPlace :=
  {| Location := {| LatitudeE7 := 481794000; LongitudeE7 := 115858000;
                    Address := "Munich"; Name := "Office" |};
     Duration := {| Duration_Start := dateUTC 2022 1 3; Duration_End := dateUTC 2022 1 3 |};
     VisitConfidence := 90;
     CenterLatE7 := 481794935;
     CenterLngE7 := 115858037 |}.

(** A visit whose centre latitude alone is zero. *)
Definition equatorVisit : timelineVisitedPlace :=
  {| Location := {| LatitudeE7 := 100; LongitudeE7 := 115858000;
                    Address := ""; Name := "" |};
     Duration := {| Duration_Start := dateUTC 2022 1 3; Duration_End := dateUTC 2022 1 3 |};
     VisitConfidence := 90;
     CenterLatE7 := 0;
     CenterLngE7 := 115858037 |}.

Definition exampleSegment : semanticSegment :=
  {| StartTime := dateUTC 2022 1 4;
     EndTime := dateUTC 2022 1 4;
     TimelinePath :=
       [ {| Point := "48.1794935" ++ degree ++ ", 11.5858037" ++ degree;
            PointTime := dateUTC 2022 1 4 |} ]%string |}.

Definition variantB : wrapper :=
  {| TimelineObjects := [ {| PlaceVisit := None |}; {| PlaceVisit := Some exampleVisit |} ];
     SemanticSegments := None |}.

Definition variantA : wrapper :=
  {| TimelineObjects := [ {| PlaceVisit := Some exampleVisit |} ];
     SemanticSegments := Some [ exampleSegment ] |}.

(** Variant A key present as the empty array, next to a legacy entry. *)
Definition variantAEmpty : wrapper :=
  {| TimelineObjects := [ {| PlaceVisit := Some exampleVisit |} ];
     SemanticSegments := Some [] |}.

(** The document [{}]. *)
Definition emptyObject : wrapper :=
  {| TimelineObjects := []; SemanticSegments := None |}.

Definition exampleFile : Type := option wrapper.

Definition exampleDecode (f : exampleFile) : wrapper + error :=
  match f with
  | Some w => inl w
  | None => inr (errorString "invalid character")
  end.

Definition exampleOpenFile (name : string) : exampleFile + error :=
  if String.eqb name "a.json" then inl (Some variantA)
  else if String.eqb name "b.json" then inl (Some variantB)
  else if String.eqb name "empty.json" then inl (Some emptyObject)
  else if String.eqb name "broken.json" then inl None
  else inr (errorString "no such file or directory").

(** A stand-in parser for the examples: it knows two coordinate texts. *)
Definition exampleParseFloat (s : string) (bitSize : Z) : float * option error :=
  if String.eqb s "48.1794935" then (0x1.816f9a49c2c1bp+5%float, None)
  else if String.eqb s "11.5858037" then (0x1.72bee766ac068p+3%float, None)
  else (0%float, Some (errorString "invalid syntax")).

(** A stand-in distance for the examples in which the distance is not the
    matter: zero between equal points, 2000 between any others. *)
Definition exampleDistance (a b : orb.Point) : float :=
  if (PrimFloat.eqb (fst a) (fst b) && PrimFloat.eqb (snd a) (snd b))%bool
  then 0%float else 2000%float.

(** The nanosecond field of a [Time] lies within one second. *)
Definition Time_valid (t : time.Time) : Prop := 0 <= time.nsec t < 1000000000.

(** A record whose interval is [2022-01-01, 2022-01-03], at the office of
    the README's example. *)
Definition exampleRecord : timelinePoint :=
  {| Latitude := 0x1.816f9a49c2c1bp+5%float;
     Longitude := 0x1.72bee766ac068p+3%float;
     Start := dateUTC 2022 1 1;
     End_ := dateUTC 2022 1 3 |}.

(** The same interval, at another place. *)
Definition farRecord : timelinePoint :=
  {| Latitude := 0x1.816f9a49c2c1bp+5%float;
     Longitude := 12%float;
     Start := dateUTC 2022 1 1;
     End_ := dateUTC 2022 1 3 |}.

Definition exampleOffice : orb.Point :=
  (0x1.816f9a49c2c1bp+5%float, 0x1.72bee766ac068p+3%float).

(** The Day Sets that the program can build: [make(dayMap)] and [Add]. *)
Inductive reachable (localOffset : Z -> Z) : dayMap -> Prop :=
| reachable_empty : reachable localOffset ∅
| reachable_Add (d : dayMap) (t : time.Time) :
    reachable localOffset d -> reachable localOffset (dayMap_Add localOffset d t).

(** 2022-01-02T23:30:00Z, a Sunday evening in UTC; half past midnight on
    Monday in a zone one hour east. *)
Definition sundayEvening : time.Time := time.mkTime 1641166200 0 time.UTC.

(** 2022-01-03T09:00:00Z and 2022-01-03T17:00:00Z, the same Monday. *)
Definition mondayMorning : time.Time := time.mkTime 1641200400 0 time.UTC.
Definition mondayAfternoon : time.Time := time.mkTime 1641229200 0 time.UTC.

(** *** The distance of the Matching Pipeline, as the spec words it *)

(** The haversine great-circle distance in metres between two positions given
    by latitude and longitude in degrees, on a sphere of the given radius. *)
Definition haversineMeters (trigReduce : float -> Z * float) (radius : float)
    (latitude1 longitude1 latitude2 longitude2 : float) : float :=
  let dLat := geo.deg2rad (latitude1 - latitude2) in
  let dLon := geo.deg2rad (longitude1 - longitude2) in
  let dLat2Sin := math.Sin trigReduce (dLat / 2) in
  let dLon2Sin := math.Sin trigReduce (dLon / 2) in
  let a := (dLat2Sin * dLat2Sin
            + math.Cos trigReduce (geo.deg2rad latitude2)
              * math.Cos trigReduce (geo.deg2rad latitude1)
              * dLon2Sin * dLon2Sin)%float in
  (2.0 * radius * math.Atan2 (math.Sqrt a) (math.Sqrt (1 - a)))%float.

(** The mean radius that the spec names; the library has [orb.EarthRadius]. *)
Definition meanEarthRadius : float := 6371008.8.

(** The test of the spec: the haversine distance from the record's coordinate
    to the reference point is at most the tolerance. *)
Definition withinTolerance_spec (trigReduce : float -> Z * float) (radius : float)
    (officeLatitude officeLongitude tolerance : float) (place : timelinePoint) : bool :=
  (haversineMeters trigReduce radius (Latitude place) (Longitude place)
                   officeLatitude officeLongitude <=? tolerance)%float.

(** Two visits near the office of the README's example, at latitude
    48.1794935 and longitude 11.5858037: one 70 m to the east of it, on Monday
    2022-01-03, and one 101 m to the north of it, on Tuesday 2022-01-04. *)
Definition eastVisit : timelineVisitedPlace :=
  {| Location := {| LatitudeE7 := 481794935; LongitudeE7 := 115867468;
                    Address := ""; Name := "" |};
     Duration := {| Duration_Start := dateUTC 2022 1 3; Duration_End := dateUTC 2022 1 3 |};
     VisitConfidence := 90;
     CenterLatE7 := 481794935;
     CenterLngE7 := 115867468 |}.

Definition northVisit : timelineVisitedPlace :=
  {| Location := {| LatitudeE7 := 481804017; LongitudeE7 := 115858037;
                    Address := ""; Name := "" |};
     Duration := {| Duration_Start := dateUTC 2022 1 4; Duration_End := dateUTC 2022 1 4 |};
     VisitConfidence := 90;
     CenterLatE7 := 481804017;
     CenterLngE7 := 115858037 |}.

(** The records that [ParseTimelineInput] makes of them. *)
Definition eastRecord : timelinePoint :=
  {| Latitude := (float64_of_int 481794935 / 1e7)%float;
     Longitude := (float64_of_int 115867468 / 1e7)%float;
     Start := dateUTC 2022 1 3;
     End_ := dateUTC 2022 1 3 |}.

Definition northRecord : timelinePoint :=
  {| Latitude := (float64_of_int 481804017 / 1e7)%float;
     Longitude := (float64_of_int 115858037 / 1e7)%float;
     Start := dateUTC 2022 1 4;
     End_ := dateUTC 2022 1 4 |}.

(** A record 2000 m to the north of the office. *)
Definition distantRecord : timelinePoint :=
  {| Latitude := (float64_of_int 481974598 / 1e7)%float;
     Longitude := (float64_of_int 115858037 / 1e7)%float;
     Start := dateUTC 2022 1 5;
     End_ := dateUTC 2022 1 5 |}.

(** The angles of the examples are far below [math.reduceThreshold]: where
    an example needs a closed term, this stands for the reduction of larger
    angles, which it never reaches. *)
Definition exampleTrigReduce (x : float) : Z * float := (0, x).

(** A Variant B document with the two visits, and a file that holds it. *)
Definition nearbyDocument : wrapper :=
  {| TimelineObjects := [ {| PlaceVisit := Some eastVisit |};
                          {| PlaceVisit := Some northVisit |} ];
     SemanticSegments := None |}.

Definition nearbyOpenFile (name : string) : exampleFile + error :=
  if String.eqb name "takeout/nearby.json" then inl (Some nearbyDocument)
  else inr (errorString "no such file or directory").


(** ** The rest of main.go: the directory walk, the report and [main] *)

From Stdlib Require Import SpecFloat FloatOps FloatAxioms Permutation.
From stdpp Require Import sorting.

Local Open Scope Z_scope.

(** [err.Error()]. *)
Fixpoint Error (err : error) : string :=
  match err with
  | errorString msg => msg
  | wrapError msg err => (msg ++ Error err)%string
  end.

(** [&fs.PathError{Op: op, Path: path, Err: err}]: its text is
    [op + " " + path + ": " + err.Error()], and it unwraps to [err]. *)
Definition PathError (op path : string) (err : error) : error :=
  wrapError (op ++ " " ++ path ++ ": ")%string err.

(** [syscall.ENOTDIR]. *)
Definition ENOTDIR : error := errorString "not a directory".

(** What a path denotes: a regular file, a directory with its entries as
    [os.ReadDir] lists them, or a directory that [os.ReadDir] cannot read,
    with the error number of the failed call ([syscall.EACCES],
    [syscall.ENOENT], ...).  [os.ReadDir] does not follow symbolic links, so
    the walk is over a tree. *)
#[local] Set Warnings "-register-all".
Inductive fsNode : Type :=
| RegularFile
| Directory (entries : list (string * fsNode))
| Unreadable (errno : error).

(** [entry.IsDir()]. *)
Definition IsDir (node : fsNode) : bool :=
  match node with
  | RegularFile => false
  | Directory _ | Unreadable _ => true
  end.

(** [os.ReadDir(name)] on what [name] denotes.  It opens [name] as a
    directory, and a failure is the [*fs.PathError] of that [open]. *)
Definition ReadDir (name : string) (node : fsNode) : list (string * fsNode) + error :=
  match node with
  | RegularFile => inr (PathError "open" name ENOTDIR)
  | Directory entries => inl entries
  | Unreadable errno => inr (PathError "open" name errno)
  end.

(** [fmt.Errorf("could not read directory %s: %w", inputDir, err)]. *)
Definition readDirError (inputDir : string) (err : error) : error :=
  wrapError ("could not read directory " ++ inputDir ++ ": ")%string err.

Section Walk.

(** [path.Join] of a directory and an entry name. *)
Variable Join : string -> string -> string.

(** The closure [readDir] of [listFilesRecursively]; [files] is the
    variable [list] it appends to, which keeps what was appended when an
    error cuts the walk short. *)
Fixpoint readDir (node : fsNode) (inputDir : string) (files : list string)
  : list string * option error :=
  match ReadDir inputDir node with
  | inr err => (files, Some (readDirError inputDir err))
  | inl _ =>
      match node with
      | Directory entries =>
          (fix range (entries : list (string * fsNode)) (files : list string)
             : list string * option error :=
             match entries with
             | [] => (files, None)
             | (name, entry) :: entries' =>
                 let fullPath := Join inputDir name in
                 if IsDir entry then
                   match readDir entry fullPath files with
                   | (files', Some err) => (files', Some err)
                   | (files', None) => range entries' files'
                   end
                 else range entries' (files ++ [fullPath])
             end) entries files
      | _ => (files, None)
      end
  end.

Definition listFilesRecursively (inputDir : string) (root : fsNode)
  : list string * option error :=
  match readDir root inputDir [] with
  | (_, Some err) => ([], Some err)
  | (files, None) => (files, None)
  end.

(** The regular files under a directory, as paths, depth first in the order
    of the entries. *)
Fixpoint filesUnder (node : fsNode) (inputDir : string) : list string :=
  match node with
  | Directory entries =>
      (fix range (entries : list (string * fsNode)) : list string :=
         match entries with
         | [] => []
         | (name, entry) :: entries' =>
             (if IsDir entry then filesUnder entry (Join inputDir name)
              else [Join inputDir name]) ++ range entries'
         end) entries
  | _ => []
  end.

End Walk.

(** The directories that the walk reads, with their paths and in the order in
    which it reaches them when nothing stops it: the root, then, entry by
    entry, the directories below. *)
Fixpoint directories (Join : string -> string -> string) (node : fsNode) (inputDir : string)
  : list (string * fsNode) :=
  (inputDir, node)
  :: match node with
     | Directory entries =>
         (fix range (entries : list (string * fsNode)) : list (string * fsNode) :=
            match entries with
            | [] => []
            | (name, entry) :: entries' =>
                (if IsDir entry then directories Join entry (Join inputDir name) else [])
                ++ range entries'
            end) entries
     | _ => []
     end.

(** The first of a list of directories that [os.ReadDir] fails on, with its
    path and the error. *)
Fixpoint firstFailure (dirs : list (string * fsNode)) : option (string * error) :=
  match dirs with
  | [] => None
  | (name, node) :: dirs' =>
      match ReadDir name node with
      | inr err => Some (name, err)
      | inl _ => firstFailure dirs'
      end
  end.

(** Whether every directory of the tree can be read. *)
Fixpoint readable (node : fsNode) : bool :=
  match node with
  | RegularFile => true
  | Directory entries =>
      (fix all (entries : list (string * fsNode)) : bool :=
         match entries with
         | [] => true
         | (_, entry) :: entries' => readable entry && all entries'
         end) entries
  | Unreadable _ => false
  end.

(** ** Package [sort] *)
Module sort.

(** [sort.Strings]: increasing order of the bytes. *)
Definition Strings (x : list string) : list string := merge_sort String.le x.

End sort.

(** One iteration of the loop of [main] over the sorted dates: what it
    prints for [date]. *)
Definition dateLine (daysInTheOffice : dayMap) (date : string) : string :=
  (date
   ++ (if negb (default false (daysInTheOffice !! date)) then " (weekend)" else "")
   ++ String (ascii_of_nat 10) "")%string.

(** The lines that [main] prints under [-print-dates], for a slice
    of the keys in the order in which the map was iterated. *)
Definition printDates (daysInTheOffice : dayMap) (slice : list string) : list string :=
  map (dateLine daysInTheOffice) (sort.Strings slice).

(** The flags of [main], as [flag.Parse] leaves them. *)
Record flags : Type := {
  inputDirFlag : string;
  startDateFlag : string;
  endDateFlag : string;
  latitudeFlag : string;
  longitudeFlag : string;
  toleranceFlag : string;
  verboseFlag : bool;
  printDatesFlag : bool
}.

(** Whether the logger writes an entry: [main] sets its level to
    [log.InfoLevel], and to [log.DebugLevel] under [-verbose]. *)
Definition enabled (verbose : bool) (entry : logEntry) : bool :=
  match entryLevel entry with
  | DebugLevel => verbose
  | ErrorLevel => true
  end.

(** The entries that the logger writes, of those handed to it. *)
Definition written (verbose : bool) (logs : list logEntry) : list logEntry :=
  List.filter (enabled verbose) logs.

(** What a run leaves behind: the lines that the logger writes before the
    summary, the two numbers of the summary line, and standard output. *)
Record report : Type := {
  logged : list logEntry;
  daysTotal : nat;
  daysWorking : nat;
  stdout : list string
}.

(** [time.RFC3339]. *)
Definition RFC3339 : string := "2006-01-02T15:04:05Z07:00".

Definition flagError (what : string) (err : option error) : list logEntry :=
  match err with
  | None => []
  | Some e => [ {| entryLevel := ErrorLevel; entryFile := ""; entryMsg := what;
                   entryErr := Some e; entryCounts := None |} ]
  end.

Section Main.

Variable ParseFloat : string -> Z -> float * option error.
Variable DistanceHaversine : orb.Point -> orb.Point -> float.
Variable localOffset : Z -> Z.
Variable File : Type.
Variable OpenFile : string -> File + error.
Variable Decode : File -> wrapper + error.
Variable Join : string -> string -> string.

(** [time.ParseInLocation(layout, value, time.Local)]. *)
Variable ParseInLocation : string -> string -> time.Time * option error.

(** What a path denotes in the file system. *)
Variable fileSystem : string -> fsNode.

(** [main], after [flag.Parse].  Every value is used as its parser returned
    it, error or not.  The entries are collected as they are handed to the
    logger, and the report keeps those that the level lets through. *)
Definition main (f : flags) : outcome report :=
  let '(latitude, err) := ParseFloat (latitudeFlag f) 64 in
  let logs := flagError "Could not parse latitude" err in
  let '(longitude, err) := ParseFloat (longitudeFlag f) 64 in
  let logs := logs ++ flagError "Could not parse longitude" err in
  let '(tolerance, err) := ParseFloat (toleranceFlag f) 64 in
  let logs := logs ++ flagError "Could not parse tolerance" err in
  let '(startDate, err) := ParseInLocation RFC3339 (startDateFlag f) in
  let logs := logs ++ flagError "Could not parse start date" err in
  let '(endDate, err) := ParseInLocation RFC3339 (endDateFlag f) in
  let logs := logs ++ flagError "Could not parse end date" err in
  let '(fileNames, err) :=
    listFilesRecursively Join (inputDirFlag f) (fileSystem (inputDirFlag f)) in
  let logs := logs ++ flagError "Could not list files" err in
  let officeLocation : orb.Point := (latitude, longitude) in
  st <- processFiles ParseFloat DistanceHaversine localOffset OpenFile Decode
          startDate endDate officeLocation tolerance fileNames (∅, logs) ;;
  let daysInTheOffice := fst st in
  Returned {| logged := written (verboseFlag f) (snd st);
              daysTotal := dayMap_len daysInTheOffice;
              daysWorking := dayMap_CountWorkingDays daysInTheOffice;
              stdout := if printDatesFlag f
                        then printDates daysInTheOffice (dayMap_ToSlice daysInTheOffice)
                        else [] |}.

End Main.

Arguments main ParseFloat DistanceHaversine localOffset {File} OpenFile Decode Join
  ParseInLocation fileSystem f.

(** Where a string has the byte [c]. *)
Fixpoint hasByte (c : ascii) (s : string) : bool :=
  match s with
  | EmptyString => false
  | String x s' => Ascii.eqb x c || hasByte c s'
  end.

(** A piece of coordinate text: no comma, and no first byte of a degree
    sign. *)
Definition plainPiece (s : string) : bool :=
  negb (hasByte ","%char s) && negb (hasByte (ascii_of_nat 194) s).

(** The start timestamps that a file adds to the Day Set, in order. *)
Definition matchingStarts (DistanceHaversine : orb.Point -> orb.Point -> float)
    (startDate endDate : time.Time) (officeLocation : orb.Point) (tolerance : float)
    (places : list timelinePoint) : list time.Time :=
  map Start (List.filter (matches DistanceHaversine startDate endDate officeLocation tolerance)
                         places).

(** A small tree for the examples: two files, one of them in a
    sub-directory, and a tree with a directory that cannot be read. *)
Definition exampleTree : fsNode :=
  Directory [ ("2022", Directory [ ("b.json", RegularFile) ]); ("a.json", RegularFile) ].

Definition brokenTree : fsNode :=
  Directory [ ("a.json", RegularFile);
              ("private", Unreadable (errorString "permission denied")) ].

(** A directory with the file of the two visits near the office. *)
Definition nearbyTree : fsNode := Directory [ ("nearby.json", RegularFile) ].

Definition exampleJoin (dir name : string) : string := (dir ++ "/" ++ name)%string.

Section Starts.

Variable ParseFloat : string -> Z -> float * option error.
Variable DistanceHaversine : orb.Point -> orb.Point -> float.
Variable File : Type.
Variable OpenFile : string -> File + error.
Variable Decode : File -> wrapper + error.
Variables (startDate endDate : time.Time).
Variables (officeLocation : orb.Point) (tolerance : float).

(** The variable [file] of [processFile] after [os.OpenFile]: [None] is the
    nil pointer of a failed call. *)
Definition openedFile (fileName : string) : option File :=
  match OpenFile fileName with
  | inl f => Some f
  | inr _ => None
  end.

(** The places that [processFile] reads from a file. *)
Definition filePlaces (fileName : string) : outcome (list timelinePoint) :=
  r <- ParseTimelineInput ParseFloat Decode (openedFile fileName) ;;
  Returned (fst r).

(** The start timestamps that [processFile] adds for a file. *)
Definition fileStarts (fileName : string) : outcome (list time.Time) :=
  places <- filePlaces fileName ;;
  Returned (matchingStarts DistanceHaversine startDate endDate officeLocation tolerance
                           places).

(** The files return one by one, each with its start timestamps. *)
Definition filesReturn (fileNames : list string) (tss : list (list time.Time)) : Prop :=
  Forall2 (fun fileName ts => fileStarts fileName = Returned ts) fileNames tss.

End Starts.

Arguments openedFile {File} OpenFile fileName.
Arguments filePlaces ParseFloat {File} OpenFile Decode fileName.
Arguments fileStarts ParseFloat DistanceHaversine {File} OpenFile Decode
  startDate endDate officeLocation tolerance fileName.
Arguments filesReturn ParseFloat DistanceHaversine {File} OpenFile Decode
  startDate endDate officeLocation tolerance fileNames tss.

(** A Variant A document with a coordinate text that lacks the space. *)
Definition malformedSegment : semanticSegment :=
  {| StartTime := dateUTC 2022 1 4;
     EndTime := dateUTC 2022 1 4;
     TimelinePath := [ {| Point := "48.1794935,11.5858037"; PointTime := dateUTC 2022 1 4 |} ] |}.

Definition malformedDocument : wrapper :=
  {| TimelineObjects := []; SemanticSegments := Some [ malformedSegment ] |}.

(** The example file system, with one more file. *)
Definition exampleOpenFile2 (name : string) : exampleFile + error :=
  if String.eqb name "malformed.json" then inl (Some malformedDocument)
  else exampleOpenFile name.

(** The line that [processFile] hands to the logger last. *)
Definition debugLine (fileName : string) (found processed : nat) : logEntry :=
  {| entryLevel := DebugLevel; entryFile := fileName;
     entryMsg := "Found %d visits to places in file of which %d have been (partially) within the given time range";
     entryErr := None; entryCounts := Some (found, processed) |}.

(** The flags of an example run over the example tree. *)
Definition exampleFlags : flags :=
  {| inputDirFlag := "takeout";
     startDateFlag := "2022-01-02T00:00:00Z";
     endDateFlag := "2022-12-31T12:59:59Z";
     latitudeFlag := "48.1794935";
     longitudeFlag := "11.5858037";
     toleranceFlag := "100";
     verboseFlag := false;
     printDatesFlag := true |}.

(** A stand-in for [time.ParseInLocation] on the two dates of the example. *)
Definition exampleDate (value : string) : time.Time :=
  if String.eqb value "2022-01-02T00:00:00Z" then dateUTC 2022 1 2
  else time.mkTime (time.daysFromCivil 2022 12 31 * 86400 + 46799) 0 time.UTC.

(** The files of the example tree, and a parser that knows the tolerance. *)
Definition exampleOpenFile3 (name : string) : exampleFile + error :=
  if String.eqb name "takeout/a.json" then inl (Some variantA)
  else if String.eqb name "takeout/2022/b.json" then inl (Some variantB)
  else inr (errorString "no such file or directory").

Definition exampleParseFloat3 (s : string) (bitSize : Z) : float * option error :=
  if String.eqb s "100" then (100%float, None) else exampleParseFloat s bitSize.

(** What the example run leaves behind. *)
Definition exampleReport : report :=
  {| logged := [];
     daysTotal := 2;
     daysWorking := 2;
     stdout := [ ("2022-01-03" ++ String (ascii_of_nat 10) "")%string;
                 ("2022-01-04" ++ String (ascii_of_nat 10) "")%string ] |}.

(** The decimal digit [n] as a byte. *)
Definition digit (n : Z) : ascii := ascii_of_N (48 + Z.to_N n).

(** A date as one number: year, then month, then day. *)
Definition dateKey (date : Z * Z * Z) : Z :=
  let '(year, month, day) := date in year * 10000 + month * 100 + day.

(** The decimal numeral that starts with the digit [a]; the proofs about the
    layout use it. *)
Definition consDigit (a : Z) (u : Decimal.uint) : Decimal.uint :=
  match a with
  | 0 => Decimal.D0 u | 1 => Decimal.D1 u | 2 => Decimal.D2 u | 3 => Decimal.D3 u
  | 4 => Decimal.D4 u | 5 => Decimal.D5 u | 6 => Decimal.D6 u | 7 => Decimal.D7 u
  | 8 => Decimal.D8 u | _ => Decimal.D9 u
  end.
(** * Properties *)

(** ** Package [strings] *)

Example Split_example :
  strings.Split (strings.ReplaceAll ("51.6503959" ++ degree ++ ", 5.0492413" ++ degree)%string degree "") ", "
  = ["51.6503959"; "5.0492413"].
Proof. reflexivity. Qed.

Example Split_no_sep : strings.Split "51.6503959,5.0492413" ", " = ["51.6503959,5.0492413"].
Proof. reflexivity. Qed.

Lemma string_app_nil_r (s : string) : (s ++ "")%string = s.
Proof.
  induction s as [|c s IH]; [reflexivity|].
  change (String c (s ++ "")%string = String c s). now rewrite IH.
Qed.

Lemma string_app_assoc (a b c : string) : ((a ++ b) ++ c)%string = (a ++ (b ++ c))%string.
Proof.
  induction a as [|x a IH]; [reflexivity|].
  change (String x ((a ++ b) ++ c)%string = String x (a ++ (b ++ c))%string).
  now rewrite IH.
Qed.

Lemma splitFrom_nonempty (s : string) :
  forall skip cur sep, (1 <= length (strings.splitFrom skip cur s sep))%nat.
Proof.
  induction s as [|c s IH]; intros skip cur sep; cbn [strings.splitFrom].
  - simpl. lia.
  - destruct skip as [|k]; [|apply IH].
    destruct (String.prefix sep (String c s)); [cbn [length]; lia | apply IH].
Qed.

(** Without an instance of [sep], [Split] returns the one piece. *)
Lemma splitFrom_no_sep (s : string) :
  forall cur sep, strings.Contains s sep = false ->
    strings.splitFrom 0 cur s sep = [(cur ++ s)%string].
Proof.
  induction s as [|c s IH]; intros cur sep H;
    cbn [strings.splitFrom strings.Contains] in *.
  - now rewrite string_app_nil_r.
  - apply orb_false_iff in H as [Hp Hc]. rewrite Hp.
    rewrite (IH _ _ Hc), string_app_assoc. reflexivity.
Qed.

(** With an instance of [sep], [Split] returns two pieces or more. *)
Lemma splitFrom_sep (s : string) :
  forall cur sep, sep <> "" -> strings.Contains s sep = true ->
    (2 <= length (strings.splitFrom 0 cur s sep))%nat.
Proof.
  induction s as [|c s IH]; intros cur sep Hsep H;
    cbn [strings.splitFrom strings.Contains] in *.
  - destruct sep; simpl in *; [congruence | discriminate].
  - destruct (String.prefix sep (String c s)) eqn:Hp.
    + pose proof (splitFrom_nonempty s (String.length sep - 1) "" sep).
      cbn [length]. lia.
    + now apply IH.
Qed.

(** ** The Point Parser *)

Section PointParserFacts.

Variable ParseFloat : string -> Z -> float * option error.

Lemma parsePoint_two_pieces (value c0 c1 : string) (rest : list string) :
  coordsOf value = c0 :: c1 :: rest ->
  parsePoint ParseFloat value
  = Returned (fst (ParseFloat c0 64), fst (ParseFloat c1 64)).
Proof.
  unfold coordsOf, parsePoint. intros ->. simpl.
  destruct (ParseFloat c0 64), (ParseFloat c1 64). reflexivity.
Qed.

Lemma parsePoint_returns (value : string) :
  strings.Contains (strings.ReplaceAll value degree "") ", " = true ->
  exists c0 c1 rest, coordsOf value = c0 :: c1 :: rest
    /\ parsePoint ParseFloat value
       = Returned (fst (ParseFloat c0 64), fst (ParseFloat c1 64)).
Proof.
  intros H. pose proof (splitFrom_sep _ "" ", " ltac:(discriminate) H) as Hlen.
  fold (strings.Split (strings.ReplaceAll value degree "") ", ") in Hlen.
  fold (coordsOf value) in Hlen.
  destruct (coordsOf value) as [|c0 [|c1 rest]] eqn:E; simpl in Hlen; try lia.
  exists c0, c1, rest. split; [reflexivity|]. now apply parsePoint_two_pieces with rest.
Qed.

End PointParserFacts.

(** C1 (the code does not do this).  The claim: parsePoint returns a pair for
    every input string.  The code: when the text, with its degree signs
    removed, holds no comma+space separator, [strings.Split] returns one
    piece and [coords[1]] panics with an index out of range. *)
Theorem parsePoint_panics_without_separator
    (ParseFloat : string -> Z -> float * option error) (value : string) :
  strings.Contains (strings.ReplaceAll value degree "") ", " = false ->
  parsePoint ParseFloat value = Panicked (IndexOutOfRange 1 1).
Proof.
  intros H. unfold parsePoint, strings.Split.
  rewrite (splitFrom_no_sep _ "" _ H). simpl.
  destruct (ParseFloat _ 64). reflexivity.
Qed.

Lemma parsePoint_panics_without_separator_witness :
  strings.Contains (strings.ReplaceAll "51.6503959,5.0492413" degree "") ", " = false
  /\ parsePoint (fun _ _ => (0%float, None)) "51.6503959,5.0492413"
     = Panicked (IndexOutOfRange 1 1).
Proof.
  split; [reflexivity|].
  apply (parsePoint_panics_without_separator (fun _ _ => (0%float, None))).
  reflexivity.
Defined.

(** ** The Schema Normalizer *)

Lemma appendPlaceVisit_visit (result : list timelinePoint) (visit : timelineVisitedPlace) :
  appendPlaceVisit result {| PlaceVisit := Some visit |} = result ++ [recordOfVisit visit].
Proof.
  unfold appendPlaceVisit, recordOfVisit. cbn [PlaceVisit].
  destruct ((CenterLatE7 visit =? 0) || (CenterLngE7 visit =? 0)); reflexivity.
Qed.

(** The loop over the timeline objects appends the records of the place
    visits, in source order. *)
Lemma fold_left_appendPlaceVisit (objects : list timelineObject) :
  forall result,
    fold_left appendPlaceVisit objects result
    = result ++ map recordOfVisit (placeVisits objects).
Proof.
  induction objects as [|[[visit|]] objects IH]; intros result; cbn [fold_left].
  - cbn. now rewrite app_nil_r.
  - rewrite appendPlaceVisit_visit, IH. cbn. now rewrite <- app_assoc.
  - unfold appendPlaceVisit at 2. cbn [PlaceVisit]. rewrite IH. reflexivity.
Qed.

Lemma parseTimelineObjects_records (objects : list timelineObject) :
  parseTimelineObjects objects = map recordOfVisit (placeVisits objects).
Proof. unfold parseTimelineObjects. now rewrite fold_left_appendPlaceVisit. Qed.

Section NormalizerFacts.

Variable ParseFloat : string -> Z -> float * option error.
Variable File : Type.
Variable Decode : File -> wrapper + error.

Lemma parsePoint_valid (value : string) :
  validPoint value = true ->
  parsePoint ParseFloat value
  = Returned (fst (ParseFloat (nth 0 (coordsOf value) "") 64),
              fst (ParseFloat (nth 1 (coordsOf value) "") 64)).
Proof.
  intros H. destruct (parsePoint_returns ParseFloat value H) as (c0 & c1 & rest & E & ->).
  now rewrite E.
Qed.

(** The inner loop appends one record per path point of the segment. *)
Lemma forRange_appendPathPoint (segment : semanticSegment) (points : list pathPoint) :
  forall result,
    forallb (fun point => validPoint (Point point)) points = true ->
    forRange (appendPathPoint ParseFloat segment) points result
    = Returned (result ++ map (recordOfPathPoint ParseFloat segment) points).
Proof.
  induction points as [|point points IH]; intros result H; cbn [forRange map].
  - now rewrite app_nil_r.
  - cbn [forallb] in H. apply andb_prop in H as [Hp Hps].
    unfold appendPathPoint at 1. rewrite (parsePoint_valid _ Hp). cbn [bind fst snd].
    rewrite (IH _ Hps), <- app_assoc. reflexivity.
Qed.

(** The outer loop appends the records of the segments, in source order. *)
Lemma forRange_segments (segments : list semanticSegment) :
  forall result,
    forallb validSegment segments = true ->
    forRange (fun result entry =>
                forRange (appendPathPoint ParseFloat entry) (TimelinePath entry) result)
             segments result
    = Returned (result ++ flat_map (recordsOfSegment ParseFloat) segments).
Proof.
  induction segments as [|segment segments IH]; intros result H; cbn [forRange flat_map].
  - now rewrite app_nil_r.
  - cbn [forallb] in H. apply andb_prop in H as [Hs Hss].
    rewrite (forRange_appendPathPoint _ _ _ Hs). cbn [bind].
    rewrite (IH _ Hss), <- app_assoc. reflexivity.
Qed.

Lemma parseSemanticSegments_records (segments : list semanticSegment) :
  forallb validSegment segments = true ->
  parseSemanticSegments ParseFloat segments
  = Returned (flat_map (recordsOfSegment ParseFloat) segments).
Proof. intros H. unfold parseSemanticSegments. now rewrite forRange_segments. Qed.

Lemma ParseTimelineInput_variantA (input : option File) (w : wrapper)
    (segments : list semanticSegment) :
  decodeInput Decode input = inl w ->
  SemanticSegments w = Some segments ->
  ParseTimelineInput ParseFloat Decode input
  = bind (parseSemanticSegments ParseFloat segments) (fun result => Returned (result, None)).
Proof. intros Hd Hs. unfold ParseTimelineInput. now rewrite Hd, Hs. Qed.

Lemma ParseTimelineInput_variantB (input : option File) (w : wrapper) :
  decodeInput Decode input = inl w ->
  SemanticSegments w = None ->
  ParseTimelineInput ParseFloat Decode input
  = Returned (map recordOfVisit (placeVisits (TimelineObjects w)), None).
Proof.
  intros Hd Hs. unfold ParseTimelineInput.
  now rewrite Hd, Hs, parseTimelineObjects_records.
Qed.

Lemma ParseTimelineInput_decode_error (input : option File) (e : error) :
  decodeInput Decode input = inr e ->
  ParseTimelineInput ParseFloat Decode input
  = Returned ([], Some (wrapError "decoding JSON: " e)).
Proof. intros Hd. unfold ParseTimelineInput. now rewrite Hd. Qed.

End NormalizerFacts.

#[local] Set Warnings "-inexact-float".

Example float64_of_int_E7 :
  (float64_of_int 481794935 / 1e7)%float = 48.1794935%float
  /\ (float64_of_int 115858037 / 1e7)%float = 11.5858037%float
  /\ (float64_of_int (-481794935) / 1e7)%float = (-48.1794935)%float.
Proof. repeat split; vm_compute; reflexivity. Qed.

(** C2, as the specification words it, fails on the code: for a visit whose
    centre latitude is zero and whose centre longitude is not, the code takes
    the coordinates of the location sub-object, where the claim keeps the
    centre fields. *)
Lemma fallback_both_zero_counterexample :
  appendPlaceVisit [] {| PlaceVisit := Some equatorVisit |} = [recordFromLocation equatorVisit]
  /\ recordOfVisit_spec equatorVisit = recordFromCenter equatorVisit
  /\ PrimFloat.eqb (Latitude (recordFromLocation equatorVisit))
                   (Latitude (recordFromCenter equatorVisit)) = false
  /\ appendPlaceVisit [] {| PlaceVisit := Some equatorVisit |}
     <> [recordOfVisit_spec equatorVisit].
Proof.
  split; [reflexivity|]. split; [reflexivity|]. split; [reflexivity|].
  intros H.
  apply (f_equal (fun records =>
                    match records with
                    | [record] => PrimFloat.eqb (Latitude record) 0
                    | _ => false
                    end)) in H.
  vm_compute in H. discriminate H.
Qed.

(** C2, amended.  For every place visit, the record takes the E7 fields of
    the nested location sub-object exactly when at least one of centerLatE7
    and centerLngE7 is zero (an absent field decodes to zero); otherwise it
    takes the centre fields. *)
Theorem fallback_when_a_center_field_is_zero
    (result : list timelinePoint) (visit : timelineVisitedPlace) :
  (CenterLatE7 visit = 0 \/ CenterLngE7 visit = 0 ->
   appendPlaceVisit result {| PlaceVisit := Some visit |}
   = result ++ [recordFromLocation visit])
  /\ (CenterLatE7 visit <> 0 /\ CenterLngE7 visit <> 0 ->
      appendPlaceVisit result {| PlaceVisit := Some visit |}
      = result ++ [recordFromCenter visit]).
Proof.
  rewrite appendPlaceVisit_visit. unfold recordOfVisit. split.
  - intros [H|H]; rewrite H; [reflexivity|].
    now rewrite orb_true_r.
  - intros [Hlat Hlng].
    apply Z.eqb_neq in Hlat, Hlng. now rewrite Hlat, Hlng.
Qed.

Lemma fallback_when_a_center_field_is_zero_witness :
  (CenterLatE7 equatorVisit = 0 \/ CenterLngE7 equatorVisit = 0)
  /\ appendPlaceVisit [] {| PlaceVisit := Some equatorVisit |}
     = [] ++ [recordFromLocation equatorVisit]
  /\ (CenterLatE7 exampleVisit <> 0 /\ CenterLngE7 exampleVisit <> 0)
  /\ appendPlaceVisit [] {| PlaceVisit := Some exampleVisit |}
     = [] ++ [recordFromCenter exampleVisit].
Proof.
  assert (H1 : CenterLatE7 equatorVisit = 0 \/ CenterLngE7 equatorVisit = 0)
    by (left; reflexivity).
  assert (H2 : CenterLatE7 exampleVisit <> 0 /\ CenterLngE7 exampleVisit <> 0)
    by (split; discriminate).
  split; [exact H1|]. split.
  - exact (proj1 (fallback_when_a_center_field_is_zero [] equatorVisit) H1).
  - split; [exact H2|].
    exact (proj2 (fallback_when_a_center_field_is_zero [] exampleVisit) H2).
Defined.

(** C5.  When the decoded document has a semanticSegments slice that is not
    nil, the empty one included, the result is that of the Variant A loop
    alone: the timeline objects contribute nothing, so two documents with the
    same segments give the same result.  Otherwise the records are those of
    the place visits (Variant B). *)
Theorem variant_selection
    (ParseFloat : string -> Z -> float * option error)
    (File : Type) (Decode : File -> wrapper + error)
    (input : option File) (w : wrapper) :
  decodeInput Decode input = inl w ->
  (forall segments, SemanticSegments w = Some segments ->
     ParseTimelineInput ParseFloat Decode input
     = bind (parseSemanticSegments ParseFloat segments)
            (fun result => Returned (result, None))
     /\ (forall input' w',
           decodeInput Decode input' = inl w' ->
           SemanticSegments w' = Some segments ->
           ParseTimelineInput ParseFloat Decode input'
           = ParseTimelineInput ParseFloat Decode input)
     /\ (segments = [] ->
         ParseTimelineInput ParseFloat Decode input = Returned ([], None)))
  /\ (SemanticSegments w = None ->
      ParseTimelineInput ParseFloat Decode input
      = Returned (map recordOfVisit (placeVisits (TimelineObjects w)), None)).
Proof.
  intros Hd. split.
  - intros segments Hs.
    pose proof (ParseTimelineInput_variantA ParseFloat File Decode input w segments Hd Hs)
      as HA.
    split; [exact HA|]. split.
    + intros input' w' Hd' Hs'.
      now rewrite HA, (ParseTimelineInput_variantA ParseFloat File Decode input' w' segments).
    + intros ->. exact HA.
  - intros Hs. now apply ParseTimelineInput_variantB.
Qed.

Lemma variant_selection_witness :
  decodeInput exampleDecode (Some (Some variantAEmpty)) = inl variantAEmpty
  /\ SemanticSegments variantAEmpty = Some []
  /\ TimelineObjects variantAEmpty = [ {| PlaceVisit := Some exampleVisit |} ]
  /\ ParseTimelineInput exampleParseFloat exampleDecode (Some (Some variantAEmpty))
     = Returned ([], None)
  /\ SemanticSegments variantB = None
  /\ ParseTimelineInput exampleParseFloat exampleDecode (Some (Some variantB))
     = Returned (map recordOfVisit (placeVisits (TimelineObjects variantB)), None).
Proof.
  pose proof (variant_selection exampleParseFloat exampleFile exampleDecode
                (Some (Some variantAEmpty)) variantAEmpty eq_refl) as [HA _].
  pose proof (variant_selection exampleParseFloat exampleFile exampleDecode
                (Some (Some variantB)) variantB eq_refl) as [_ HB].
  split; [reflexivity|]. split; [reflexivity|]. split; [reflexivity|].
  split; [exact (proj2 (proj2 (HA [] eq_refl)) eq_refl)|].
  split; [reflexivity|].
  exact (HB eq_refl).
Defined.

Lemma length_flat_map_records
    (ParseFloat : string -> Z -> float * option error) (segments : list semanticSegment) :
  length (flat_map (recordsOfSegment ParseFloat) segments)
  = list_sum (map (fun segment => length (TimelinePath segment)) segments).
Proof.
  induction segments as [|segment segments IH]; [reflexivity|].
  cbn [flat_map map list_sum]. rewrite length_app, IH.
  unfold recordsOfSegment. now rewrite length_map.
Qed.

(** C6.  For a document that decodes, the records are: in Variant A, when
    every coordinate text holds the separator, one record per path point, in
    source order, each with the start and end of its segment; in Variant B,
    one record per place visit that is not nil, in source order, with
    coordinates that are an E7 integer of the visit divided by 1e7.  The
    centre fields 481794935 and 115858037 give 48.1794935 and 11.5858037. *)
Theorem normalize_one_record_per_entry
    (ParseFloat : string -> Z -> float * option error)
    (File : Type) (Decode : File -> wrapper + error)
    (input : option File) (w : wrapper) :
  decodeInput Decode input = inl w ->
  (forall segments,
     SemanticSegments w = Some segments ->
     forallb validSegment segments = true ->
     let records :=
       flat_map (fun segment =>
                   map (recordOfPathPoint ParseFloat segment) (TimelinePath segment))
                segments in
     ParseTimelineInput ParseFloat Decode input = Returned (records, None)
     /\ length records
        = list_sum (map (fun segment => length (TimelinePath segment)) segments)
     /\ (forall segment point,
           Start (recordOfPathPoint ParseFloat segment point) = StartTime segment
           /\ End_ (recordOfPathPoint ParseFloat segment point) = EndTime segment))
  /\ (SemanticSegments w = None ->
      let visits := placeVisits (TimelineObjects w) in
      let records := map recordOfVisit visits in
      ParseTimelineInput ParseFloat Decode input = Returned (records, None)
      /\ length records = length visits
      /\ (forall visit,
            exists latE7 lngE7,
              Latitude (recordOfVisit visit) = (float64_of_int latE7 / 1e7)%float
              /\ Longitude (recordOfVisit visit) = (float64_of_int lngE7 / 1e7)%float
              /\ ((latE7 = CenterLatE7 visit /\ lngE7 = CenterLngE7 visit)
                  \/ (latE7 = LatitudeE7 (Location visit)
                      /\ lngE7 = LongitudeE7 (Location visit)))))
  /\ (CenterLatE7 exampleVisit = 481794935
      /\ CenterLngE7 exampleVisit = 115858037
      /\ Latitude (recordOfVisit exampleVisit) = 48.1794935%float
      /\ Longitude (recordOfVisit exampleVisit) = 11.5858037%float).
Proof.
  intros Hd. split; [|split].
  - intros segments Hs Hvalid records. split; [|split].
    + rewrite (ParseTimelineInput_variantA ParseFloat File Decode input w segments Hd Hs).
      rewrite (parseSemanticSegments_records ParseFloat segments Hvalid). reflexivity.
    + apply length_flat_map_records.
    + intros segment point. split; reflexivity.
  - intros Hs visits records. split; [|split].
    + now apply ParseTimelineInput_variantB.
    + apply length_map.
    + intros visit. unfold recordOfVisit.
      destruct ((CenterLatE7 visit =? 0) || (CenterLngE7 visit =? 0)).
      * exists (LatitudeE7 (Location visit)), (LongitudeE7 (Location visit)).
        split; [reflexivity|]. split; [reflexivity|]. right. split; reflexivity.
      * exists (CenterLatE7 visit), (CenterLngE7 visit).
        split; [reflexivity|]. split; [reflexivity|]. left. split; reflexivity.
  - split; [reflexivity|]. split; [reflexivity|]. split; vm_compute; reflexivity.
Qed.

Lemma normalize_one_record_per_entry_witness :
  decodeInput exampleDecode (Some (Some variantA)) = inl variantA
  /\ SemanticSegments variantA = Some [exampleSegment]
  /\ forallb validSegment [exampleSegment] = true
  /\ ParseTimelineInput exampleParseFloat exampleDecode (Some (Some variantA))
     = Returned ([ {| Latitude := 48.1794935%float; Longitude := 11.5858037%float;
                      Start := dateUTC 2022 1 4; End_ := dateUTC 2022 1 4 |} ], None)
  /\ decodeInput exampleDecode (Some (Some variantB)) = inl variantB
  /\ SemanticSegments variantB = None
  /\ ParseTimelineInput exampleParseFloat exampleDecode (Some (Some variantB))
     = Returned ([ {| Latitude := 48.1794935%float; Longitude := 11.5858037%float;
                      Start := dateUTC 2022 1 3; End_ := dateUTC 2022 1 3 |} ], None).
Proof.
  pose proof (normalize_one_record_per_entry exampleParseFloat exampleFile exampleDecode
                (Some (Some variantA)) variantA eq_refl) as [HA _].
  pose proof (normalize_one_record_per_entry exampleParseFloat exampleFile exampleDecode
                (Some (Some variantB)) variantB eq_refl) as [_ [HB _]].
  split; [reflexivity|]. split; [reflexivity|]. split; [reflexivity|].
  split; [exact (proj1 (HA [exampleSegment] eq_refl eq_refl))|].
  split; [reflexivity|]. split; [reflexivity|].
  exact (proj1 (HB eq_refl)).
Defined.

(** C10.  A document that decodes, has no semanticSegments slice and no
    timeline object with a place visit (the object [{}] is one) gives the
    empty record sequence and no error. *)
Theorem normalize_without_schema_keys
    (ParseFloat : string -> Z -> float * option error)
    (File : Type) (Decode : File -> wrapper + error)
    (input : option File) (w : wrapper) :
  decodeInput Decode input = inl w ->
  SemanticSegments w = None ->
  Forall (fun entry => PlaceVisit entry = None) (TimelineObjects w) ->
  ParseTimelineInput ParseFloat Decode input = Returned ([], None).
Proof.
  intros Hd Hs Hnone.
  rewrite (ParseTimelineInput_variantB ParseFloat File Decode input w Hd Hs).
  replace (placeVisits (TimelineObjects w)) with (@nil timelineVisitedPlace); [reflexivity|].
  unfold placeVisits. induction Hnone as [|entry objects Hentry _ IH]; [reflexivity|].
  simpl. rewrite Hentry. exact IH.
Qed.

Lemma normalize_without_schema_keys_witness :
  decodeInput exampleDecode (Some (Some emptyObject)) = inl emptyObject
  /\ SemanticSegments emptyObject = None
  /\ Forall (fun entry => PlaceVisit entry = None) (TimelineObjects emptyObject)
  /\ ParseTimelineInput exampleParseFloat exampleDecode (Some (Some emptyObject))
     = Returned ([], None).
Proof.
  assert (H : Forall (fun entry => PlaceVisit entry = None) (TimelineObjects emptyObject))
    by constructor.
  split; [reflexivity|]. split; [reflexivity|]. split; [exact H|].
  exact (normalize_without_schema_keys exampleParseFloat exampleFile exampleDecode
           (Some (Some emptyObject)) emptyObject eq_refl eq_refl H).
Defined.

(** ** The Matching Pipeline *)

Lemma Time_Before_lt (t u : time.Time) :
  Time_valid t -> Time_valid u ->
  time.Time_Before t u = true <-> time.Time_UnixNano t < time.Time_UnixNano u.
Proof.
  unfold Time_valid, time.Time_Before, time.Time_UnixNano. intros Ht Hu.
  rewrite orb_true_iff, andb_true_iff, !Z.ltb_lt, Z.eqb_eq. lia.
Qed.

Lemma Time_After_gt (t u : time.Time) :
  Time_valid t -> Time_valid u ->
  time.Time_After t u = true <-> time.Time_UnixNano u < time.Time_UnixNano t.
Proof.
  unfold Time_valid, time.Time_After, time.Time_UnixNano. intros Ht Hu.
  rewrite orb_true_iff, andb_true_iff, !Z.ltb_lt, Z.eqb_eq. lia.
Qed.

Section PipelineFacts.

Variable DistanceHaversine : orb.Point -> orb.Point -> float.
Variable localOffset : Z -> Z.
Variables (startDate endDate : time.Time).
Variables (officeLocation : orb.Point) (tolerance : float).

Local Abbreviation step := (processPlace DistanceHaversine localOffset startDate endDate
                               officeLocation tolerance).

Local Abbreviation matching := (matches DistanceHaversine startDate endDate
                                         officeLocation tolerance).

Lemma processPlace_skipped (st : dayMap * nat) (place : timelinePoint) :
  skipped startDate endDate place = true -> step st place = st.
Proof. intros H. unfold processPlace. now rewrite H. Qed.

Lemma processPlace_considered (st : dayMap * nat) (place : timelinePoint) :
  skipped startDate endDate place = false ->
  step st place
  = (if (DistanceHaversine officeLocation (Latitude place, Longitude place) <=? tolerance)%float
     then dayMap_Add localOffset (fst st) (Start place) else fst st,
     S (snd st)).
Proof. intros H. unfold processPlace, withinTolerance. now rewrite H. Qed.

(** The loop over [places]: the Day Set receives the start timestamps of the
    matching records, in order; the counter counts the records not skipped. *)
Lemma fold_left_processPlace (places : list timelinePoint) :
  forall st,
    fold_left step places st
    = (fold_left (dayMap_Add localOffset) (map Start (List.filter matching places)) (fst st),
       (snd st + length (List.filter (fun place => negb (skipped startDate endDate place))
                                     places))%nat).
Proof.
  induction places as [|place places IH]; intros [days n]; cbn [fold_left List.filter map].
  - cbn. f_equal. lia.
  - rewrite IH. unfold matches at 2.
    destruct (skipped startDate endDate place) eqn:Hskip.
    + rewrite (processPlace_skipped _ _ Hskip). reflexivity.
    + rewrite (processPlace_considered _ _ Hskip). cbn [negb andb fst snd].
      destruct (_ <=? _)%float; cbn [map fold_left length]; f_equal; lia.
Qed.

End PipelineFacts.

(** C3.  The loop body leaves its state untouched (the [continue]) exactly
    when the record's interval ends before the range starts or starts after
    the range ends; every other record is counted.  A record with the
    interval [2022-01-01, 2022-01-03] is considered for the range
    [2022-01-02, 2022-01-02] and skipped for [2022-01-04, 2022-01-05]. *)
Theorem skip_iff_outside_range
    (DistanceHaversine : orb.Point -> orb.Point -> float) (localOffset : Z -> Z)
    (startDate endDate : time.Time) (officeLocation : orb.Point) (tolerance : float)
    (st : dayMap * nat) (place : timelinePoint) :
  Time_valid startDate -> Time_valid endDate ->
  Time_valid (Start place) -> Time_valid (End_ place) ->
  (skipped startDate endDate place = true
   <-> (time.Time_UnixNano (End_ place) < time.Time_UnixNano startDate
        \/ time.Time_UnixNano endDate < time.Time_UnixNano (Start place)))
  /\ (processPlace DistanceHaversine localOffset startDate endDate officeLocation
                   tolerance st place = st
      <-> (time.Time_UnixNano (End_ place) < time.Time_UnixNano startDate
           \/ time.Time_UnixNano endDate < time.Time_UnixNano (Start place)))
  /\ skipped (dateUTC 2022 1 2) (dateUTC 2022 1 2) exampleRecord = false
  /\ skipped (dateUTC 2022 1 4) (dateUTC 2022 1 5) exampleRecord = true.
Proof.
  intros Hs He Hps Hpe.
  assert (Hskip : skipped startDate endDate place = true
                  <-> (time.Time_UnixNano (End_ place) < time.Time_UnixNano startDate
                       \/ time.Time_UnixNano endDate < time.Time_UnixNano (Start place))).
  { unfold skipped. rewrite orb_true_iff.
    now rewrite (Time_Before_lt _ _ Hpe Hs), (Time_After_gt _ _ Hps He). }
  split; [exact Hskip|]. split; [|split; reflexivity].
  rewrite <- Hskip. split.
  - destruct (skipped startDate endDate place) eqn:E; [reflexivity|].
    rewrite (processPlace_considered _ _ _ _ _ _ _ _ E). destruct st as [days n].
    cbn [fst snd]. intros H. apply (f_equal snd) in H. cbn [snd] in H. lia.
  - apply processPlace_skipped.
Qed.

Lemma skip_iff_outside_range_witness :
  (Time_valid (dateUTC 2022 1 4) /\ Time_valid (dateUTC 2022 1 5)
   /\ Time_valid (Start exampleRecord) /\ Time_valid (End_ exampleRecord))
  /\ time.Time_UnixNano (End_ exampleRecord) < time.Time_UnixNano (dateUTC 2022 1 4)
  /\ processPlace exampleDistance (fun _ => 0) (dateUTC 2022 1 4) (dateUTC 2022 1 5)
                  exampleOffice 100 (∅, 0%nat) exampleRecord = (∅, 0%nat).
Proof.
  assert (Hv : forall y m d, Time_valid (dateUTC y m d))
    by (intros; unfold Time_valid, dateUTC; cbn [time.nsec]; lia).
  assert (Hlt : time.Time_UnixNano (End_ exampleRecord) < time.Time_UnixNano (dateUTC 2022 1 4))
    by (vm_compute; reflexivity).
  split; [repeat split; apply Hv|]. split; [exact Hlt|].
  apply (skip_iff_outside_range exampleDistance (fun _ => 0) (dateUTC 2022 1 4)
           (dateUTC 2022 1 5) exampleOffice 100 (∅, 0%nat) exampleRecord
           (Hv _ _ _) (Hv _ _ _) (Hv _ _ _) (Hv _ _ _)).
  left. exact Hlt.
Defined.

(** C4.  The loop does not compare the haversine distance from the record's
    coordinate to the reference point.  [geo.DistanceHaversine] is the
    haversine distance of two points that hold the longitude in cell 0 and
    the latitude in cell 1; [main] and [processFile] fill both points with
    the latitude in cell 0 and the longitude in cell 1, so a record that is
    not skipped is added exactly when the distance of the two positions with
    latitude and longitude exchanged is at most the tolerance (boundary
    included).  With the office at (48.1794935, 11.5858037) and tolerance
    100, a record 70 m to the east is within the tolerance, on the library's
    radius and on the spec's, and is not added (the loop compares 104.99 m);
    a record 101 m to the north is outside it and is added (the loop
    compares 99.04 m).  A file with the two visits leaves the Day Set with
    the second day alone, where the claim's rule gives the first day alone,
    and a run of [main] over it prints that second day.  The two examples of
    the claim hold: a record at the office is added, one 2000 m away is
    not. *)
Theorem distance_exchanges_latitude_and_longitude
    (trigReduce : float -> Z * float) (localOffset : Z -> Z) :
  (forall latitude1 longitude1 latitude2 longitude2,
     geo.DistanceHaversine trigReduce (longitude1, latitude1) (longitude2, latitude2)
     = haversineMeters trigReduce orb.EarthRadius latitude1 longitude1 latitude2 longitude2)
  /\ (forall startDate endDate latitude longitude tolerance st place,
        processPlace (geo.DistanceHaversine trigReduce) localOffset startDate endDate
                     (latitude, longitude) tolerance st place
        = if skipped startDate endDate place then st
          else (if (haversineMeters trigReduce orb.EarthRadius
                                    longitude latitude (Longitude place) (Latitude place)
                    <=? tolerance)%float
                then dayMap_Add localOffset (fst st) (Start place)
                else fst st,
                S (snd st)))
  /\ (withinTolerance_spec trigReduce orb.EarthRadius (fst exampleOffice) (snd exampleOffice)
                           100 eastRecord = true
      /\ withinTolerance_spec trigReduce meanEarthRadius (fst exampleOffice) (snd exampleOffice)
                              100 eastRecord = true
      /\ processPlace (geo.DistanceHaversine trigReduce) localOffset
                      (dateUTC 2022 1 1) (dateUTC 2022 12 31) exampleOffice 100
                      (∅, 0%nat) eastRecord
         = (∅, 1%nat))
  /\ (withinTolerance_spec trigReduce orb.EarthRadius (fst exampleOffice) (snd exampleOffice)
                           100 northRecord = false
      /\ withinTolerance_spec trigReduce meanEarthRadius (fst exampleOffice) (snd exampleOffice)
                              100 northRecord = false
      /\ processPlace (geo.DistanceHaversine trigReduce) localOffset
                      (dateUTC 2022 1 1) (dateUTC 2022 12 31) exampleOffice 100
                      (∅, 0%nat) northRecord
         = ({[ "2022-01-04" := true ]}, 1%nat))
  /\ (ParseTimelineInput exampleParseFloat exampleDecode (Some (Some nearbyDocument))
      = Returned ([eastRecord; northRecord], None)
      /\ processFile exampleParseFloat (geo.DistanceHaversine trigReduce) localOffset
                      nearbyOpenFile exampleDecode (dateUTC 2022 1 1) (dateUTC 2022 12 31)
                      exampleOffice 100 "takeout/nearby.json" (∅, [])
         = Returned ({[ "2022-01-04" := true ]}, [ debugLine "takeout/nearby.json" 2 2 ])
      /\ fold_left (dayMap_Add localOffset)
           (map Start
              (List.filter
                 (fun place =>
                    negb (skipped (dateUTC 2022 1 1) (dateUTC 2022 12 31) place)
                    && withinTolerance_spec trigReduce orb.EarthRadius
                                            (fst exampleOffice) (snd exampleOffice) 100 place)
                 [eastRecord; northRecord]))
           ∅
         = {[ "2022-01-03" := true ]}
      /\ main exampleParseFloat3 (geo.DistanceHaversine trigReduce) localOffset
               nearbyOpenFile exampleDecode exampleJoin
               (fun _ value => (exampleDate value, None)) (fun _ => nearbyTree) exampleFlags
         = Returned {| logged := []; daysTotal := 1; daysWorking := 1;
                       stdout := [ ("2022-01-04" ++ String (ascii_of_nat 10) "")%string ] |})
  /\ (processPlace (geo.DistanceHaversine trigReduce) localOffset
                   (dateUTC 2022 1 1) (dateUTC 2022 12 31) exampleOffice 100
                   (∅, 0%nat) exampleRecord
      = ({[ "2022-01-01" := false ]}, 1%nat)
      /\ processPlace (geo.DistanceHaversine trigReduce) localOffset
                      (dateUTC 2022 1 1) (dateUTC 2022 12 31) exampleOffice 100
                      (∅, 0%nat) distantRecord
         = (∅, 1%nat)).
Proof.
  split; [reflexivity|]. split; [reflexivity|].
  repeat split; vm_compute; reflexivity.
Qed.

(** The distances of the two records: as the loop computes them, and from
    the record to the office on the library's radius and on the spec's. *)
Example distances_compared :
  forall trigReduce,
    (geo.DistanceHaversine trigReduce exampleOffice (Latitude eastRecord, Longitude eastRecord)
     = 104.98541176720761%float
     /\ haversineMeters trigReduce orb.EarthRadius (Latitude eastRecord) (Longitude eastRecord)
                        (fst exampleOffice) (snd exampleOffice)
        = 70.004192550690306%float
     /\ (haversineMeters trigReduce meanEarthRadius (Latitude eastRecord) (Longitude eastRecord)
                         (fst exampleOffice) (snd exampleOffice)
         <? 70)%float = true)
    /\ (geo.DistanceHaversine trigReduce exampleOffice
                              (Latitude northRecord, Longitude northRecord)
        = 99.0404458214323%float
        /\ haversineMeters trigReduce orb.EarthRadius
                           (Latitude northRecord) (Longitude northRecord)
                           (fst exampleOffice) (snd exampleOffice)
           = 101.10036153820673%float
        /\ (100.9 <? haversineMeters trigReduce meanEarthRadius
                                     (Latitude northRecord) (Longitude northRecord)
                                     (fst exampleOffice) (snd exampleOffice))%float = true).
Proof. intros trigReduce. repeat split; vm_compute; reflexivity. Qed.

(** C9.  When the file cannot be opened, or is opened and cannot be decoded,
    [processFile] returns with the Day Set it was given, reports zero places,
    and the loop over the file names goes on with the remaining files. *)
Theorem failed_file_contributes_nothing
    (ParseFloat : string -> Z -> float * option error)
    (DistanceHaversine : orb.Point -> orb.Point -> float) (localOffset : Z -> Z)
    (File : Type) (OpenFile : string -> File + error) (Decode : File -> wrapper + error)
    (startDate endDate : time.Time) (officeLocation : orb.Point) (tolerance : float)
    (fileName : string) (rest : list string)
    (days : dayMap) (logs : list logEntry) :
  (exists e, OpenFile fileName = inr e)
  \/ (exists f e, OpenFile fileName = inl f /\ Decode f = inr e) ->
  exists logs' : list logEntry,
    processFile ParseFloat DistanceHaversine localOffset OpenFile Decode
                startDate endDate officeLocation tolerance fileName (days, logs)
    = Returned (days, logs')
    /\ (exists entry, last logs' = Some entry /\ entryCounts entry = Some (0%nat, 0%nat))
    /\ processFiles ParseFloat DistanceHaversine localOffset OpenFile Decode
                    startDate endDate officeLocation tolerance (fileName :: rest) (days, logs)
       = processFiles ParseFloat DistanceHaversine localOffset OpenFile Decode
                      startDate endDate officeLocation tolerance rest (days, logs').
Proof.
  intros H.
  assert (Hfile : exists logs',
             processFile ParseFloat DistanceHaversine localOffset OpenFile Decode
                         startDate endDate officeLocation tolerance fileName (days, logs)
             = Returned (days, logs')
             /\ exists entry, last logs' = Some entry /\ entryCounts entry = Some (0%nat, 0%nat)).
  { unfold processFile.
    destruct H as [[e He] | (f & e & Hf & He)].
    - rewrite He.
      rewrite (ParseTimelineInput_decode_error ParseFloat File Decode None ErrInvalid eq_refl).
      cbn [bind fst snd fold_left length].
      eexists. split; [reflexivity|]. eexists. rewrite last_snoc. split; reflexivity.
    - rewrite Hf.
      rewrite (ParseTimelineInput_decode_error ParseFloat File Decode (Some f) e He).
      cbn [bind fst snd fold_left length].
      eexists. split; [reflexivity|]. eexists. rewrite last_snoc. split; reflexivity. }
  destruct Hfile as (logs' & Hrun & Hlast).
  exists logs'. split; [exact Hrun|]. split; [exact Hlast|].
  unfold processFiles. cbn [forRange]. now rewrite Hrun.
Qed.

Lemma failed_file_contributes_nothing_witness :
  ((exists e, exampleOpenFile "missing.json" = inr e)
   \/ (exists f e, exampleOpenFile "missing.json" = inl f /\ exampleDecode f = inr e))
  /\ ((exists e, exampleOpenFile "broken.json" = inr e)
      \/ (exists f e, exampleOpenFile "broken.json" = inl f /\ exampleDecode f = inr e))
  /\ (exists logs',
        processFile exampleParseFloat exampleDistance (fun _ => 0) exampleOpenFile
                    exampleDecode (dateUTC 2022 1 1) (dateUTC 2022 12 31) exampleOffice 100
                    "missing.json" (∅, [])
        = Returned (∅, logs'))
  /\ (exists logs',
        processFile exampleParseFloat exampleDistance (fun _ => 0) exampleOpenFile
                    exampleDecode (dateUTC 2022 1 1) (dateUTC 2022 12 31) exampleOffice 100
                    "broken.json" (∅, [])
        = Returned (∅, logs')).
Proof.
  assert (Hmissing : (exists e, exampleOpenFile "missing.json" = inr e)
                     \/ (exists f e, exampleOpenFile "missing.json" = inl f
                                     /\ exampleDecode f = inr e))
    by (left; eexists; reflexivity).
  assert (Hbroken : (exists e, exampleOpenFile "broken.json" = inr e)
                    \/ (exists f e, exampleOpenFile "broken.json" = inl f
                                    /\ exampleDecode f = inr e))
    by (right; exists None; eexists; split; reflexivity).
  split; [exact Hmissing|]. split; [exact Hbroken|]. split.
  - destruct (failed_file_contributes_nothing exampleParseFloat exampleDistance (fun _ => 0)
                exampleFile exampleOpenFile exampleDecode (dateUTC 2022 1 1)
                (dateUTC 2022 12 31) exampleOffice 100 "missing.json" [] ∅ [] Hmissing)
      as (logs' & Hrun & _).
    exists logs'. exact Hrun.
  - destruct (failed_file_contributes_nothing exampleParseFloat exampleDistance (fun _ => 0)
                exampleFile exampleOpenFile exampleDecode (dateUTC 2022 1 1)
                (dateUTC 2022 12 31) exampleOffice 100 "broken.json" [] ∅ [] Hbroken)
      as (logs' & Hrun & _).
    exists logs'. exact Hrun.
Defined.

(** ** Package [time]: the calendar *)

Example Format_example :
  time.Time_Format_date (fun _ => 0) sundayEvening = "2022-01-02"
  /\ time.Time_Weekday (fun _ => 0) sundayEvening = time.Sunday
  /\ time.Time_Format_date (fun _ => 3600) (time.Time_Local sundayEvening) = "2022-01-03"
  /\ time.Time_Weekday (fun _ => 3600) (time.Time_Local sundayEvening) = time.Monday
  /\ time.Time_Format_date (fun _ => 0) (time.mkTime (-62135596801) 0 time.UTC) = "0000-12-31".
Proof. repeat split. Qed.

Lemma doe_range (z : Z) : 0 <= z - z / 146097 * 146097 < 146097.
Proof. Z.div_mod_to_equations. lia. Qed.

Lemma yoe_range (doe : Z) :
  0 <= doe < 146097 ->
  0 <= (doe - doe / 1460 + doe / 36524 - doe / 146096) / 365 < 400.
Proof. intros. Z.div_mod_to_equations. lia. Qed.

Lemma doy_range (doe : Z) :
  0 <= doe < 146097 ->
  let yoe := (doe - doe / 1460 + doe / 36524 - doe / 146096) / 365 in
  0 <= doe - (365 * yoe + yoe / 4 - yoe / 100) < 366.
Proof. intros H yoe. subst yoe. Z.div_mod_to_equations. lia. Qed.

(** The day number is recovered from the civil date. *)
Lemma daysFromCivil_civilFromDays (z : Z) :
  let '(y, m, d) := time.civilFromDays z in time.daysFromCivil y m d = z.
Proof.
  unfold time.civilFromDays.
  set (z' := z + 719468).
  set (era := z' / 146097).
  set (doe := z' - era * 146097).
  pose proof (doe_range z') as Hdoe. fold era in Hdoe. fold doe in Hdoe.
  pose proof (yoe_range doe Hdoe) as Hyoe.
  pose proof (doy_range doe Hdoe) as Hdoy. cbv zeta in Hdoy.
  set (yoe := (doe - doe / 1460 + doe / 36524 - doe / 146096) / 365) in *.
  set (doy := doe - (365 * yoe + yoe / 4 - yoe / 100)) in *.
  set (mp := (5 * doy + 2) / 153).
  assert (Hmp : 0 <= mp < 12) by (subst mp; Z.div_mod_to_equations; lia).
  unfold time.daysFromCivil.
  assert (Hera : (yoe + era * 400) / 400 = era) by (Z.div_mod_to_equations; lia).
  destruct (mp <? 10) eqn:E10.
  - apply Z.ltb_lt in E10.
    replace (mp + 3 <=? 2) with false by (symmetry; apply Z.leb_gt; lia).
    replace (2 <? mp + 3) with true by (symmetry; apply Z.ltb_lt; lia).
    rewrite Hera.
    replace (mp + 3 - 3) with mp by lia.
    replace (yoe + era * 400 - era * 400) with yoe by lia.
    subst doy doe z'. lia.
  - apply Z.ltb_ge in E10.
    replace (mp - 9 <=? 2) with true by (symmetry; apply Z.leb_le; lia).
    replace (2 <? mp - 9) with false by (symmetry; apply Z.ltb_ge; lia).
    replace (yoe + era * 400 + 1 - 1) with (yoe + era * 400) by lia.
    rewrite Hera.
    replace (mp - 9 + 9) with mp by lia.
    replace (yoe + era * 400 - era * 400) with yoe by lia.
    subst doy doe z'. lia.
Qed.

(** Months lie in 1..12 and days in 1..31. *)
Lemma civilFromDays_range (z : Z) :
  let '(y, m, d) := time.civilFromDays z in 1 <= m <= 12 /\ 1 <= d <= 31.
Proof.
  unfold time.civilFromDays.
  set (z' := z + 719468).
  set (era := z' / 146097).
  set (doe := z' - era * 146097).
  pose proof (doe_range z') as Hdoe. fold era in Hdoe. fold doe in Hdoe.
  pose proof (doy_range doe Hdoe) as Hdoy. cbv zeta in Hdoy.
  set (yoe := (doe - doe / 1460 + doe / 36524 - doe / 146096) / 365) in *.
  set (doy := doe - (365 * yoe + yoe / 4 - yoe / 100)) in *.
  set (mp := (5 * doy + 2) / 153).
  assert (Hmp : 0 <= mp < 12) by (subst mp; Z.div_mod_to_equations; lia).
  split.
  - destruct (mp <? 10) eqn:E10; [apply Z.ltb_lt in E10 | apply Z.ltb_ge in E10]; lia.
  - subst mp. Z.div_mod_to_equations. lia.
Qed.

Lemma civilFromDays_inj (z1 z2 : Z) :
  time.civilFromDays z1 = time.civilFromDays z2 -> z1 = z2.
Proof.
  intros H. pose proof (daysFromCivil_civilFromDays z1) as H1.
  pose proof (daysFromCivil_civilFromDays z2) as H2.
  rewrite H in H1. destruct (time.civilFromDays z2) as [[y m] d]. congruence.
Qed.

(** ** Package [time]: the layout ["2006-01-02"] *)

Lemma uint_of_string_zeros (k : nat) (s : string) :
  NilEmpty.uint_of_string
    (string_of_list_ascii (repeat "0"%char k ++ list_ascii_of_string s))
  = option_map (Nat.iter k Decimal.D0) (NilEmpty.uint_of_string s).
Proof.
  induction k as [|k IH]; cbn [repeat app Nat.iter].
  - rewrite string_of_list_ascii_of_string. now destruct (NilEmpty.uint_of_string s).
  - cbn [string_of_list_ascii NilEmpty.uint_of_string]. rewrite IH.
    now destruct (NilEmpty.uint_of_string s).
Qed.

Lemma of_uint_zeros (k : nat) (u : Decimal.uint) :
  N.of_uint (Nat.iter k Decimal.D0 u) = N.of_uint u.
Proof. induction k as [|k IH]; [reflexivity|]. cbn [Nat.iter]. exact IH. Qed.

(** [intField] can be read back: it is injective in the number. *)
Lemma readInt_intField (x : Z) (width : nat) :
  time.readInt (time.intField x width) = Some x.
Proof.
  unfold time.intField.
  set (u := N.to_uint (Z.to_N (Z.abs x))).
  set (k := (width - length (list_ascii_of_string (NilEmpty.string_of_uint u)))%nat).
  pose proof (uint_of_string_zeros k (NilEmpty.string_of_uint u)) as Hbody.
  rewrite NilEmpty.usu in Hbody. cbn [option_map] in Hbody.
  assert (Hval : Z.of_N (N.of_uint (Nat.iter k Decimal.D0 u)) = Z.abs x).
  { rewrite of_uint_zeros. subst u. rewrite DecimalN.Unsigned.of_to. lia. }
  destruct (x <? 0) eqn:Hneg.
  - apply Z.ltb_lt in Hneg. unfold time.readInt.
    cbn [app string_of_list_ascii NilEmpty.uint_of_string].
    rewrite Hbody. cbn [uint_of_char option_map]. rewrite Hval. f_equal. lia.
  - apply Z.ltb_ge in Hneg. unfold time.readInt. cbn [app].
    rewrite Hbody, Hval. f_equal. lia.
Qed.

Lemma intField_inj (x y : Z) (width : nat) :
  time.intField x width = time.intField y width -> x = y.
Proof.
  intros H. pose proof (readInt_intField x width) as Hx.
  rewrite H, readInt_intField in Hx. congruence.
Qed.

(** A field of width 2 for a number below 100 has two bytes. *)
Lemma length_intField_2 (x : Z) : 0 <= x < 100 -> length (time.intField x 2) = 2%nat.
Proof.
  assert (Hall : forall n, (n < 100)%nat -> length (time.intField (Z.of_nat n) 2) = 2%nat).
  { intros n Hn. do 100 (destruct n as [|n]; [reflexivity|]). lia. }
  intros H. rewrite <- (Z2Nat.id x) by lia. apply Hall. lia.
Qed.

(** The layout is injective on dates. *)
Lemma formatDate_inj (y1 m1 d1 y2 m2 d2 : Z) :
  0 <= m1 < 100 -> 0 <= d1 < 100 -> 0 <= m2 < 100 -> 0 <= d2 < 100 ->
  time.formatDate y1 m1 d1 = time.formatDate y2 m2 d2 ->
  y1 = y2 /\ m1 = m2 /\ d1 = d2.
Proof.
  intros Hm1 Hd1 Hm2 Hd2 H. unfold time.formatDate, time.appendInt in H.
  apply (f_equal list_ascii_of_string) in H.
  rewrite !list_ascii_of_string_of_list_ascii in H.
  cbn [app] in H. rewrite <- !app_assoc in H. cbn [app] in H.
  pose proof (length_intField_2 m1 Hm1) as Lm1.
  pose proof (length_intField_2 m2 Hm2) as Lm2.
  pose proof (length_intField_2 d1 Hd1) as Ld1.
  pose proof (length_intField_2 d2 Hd2) as Ld2.
  apply app_inj_2 in H as [Hy H]; [|cbn [length]; rewrite !length_app; cbn [length]; lia].
  injection H as H.
  apply app_inj_2 in H as [Hm H]; [|cbn [length]; lia].
  injection H as Hd.
  apply intField_inj in Hy, Hm, Hd. auto.
Qed.

(** ** The Day Set *)

Section DaySetFacts.

Variable localOffset : Z -> Z.

(** Two timestamps with the same date text fall on the same day. *)
Lemma Format_date_inj_days (t u : time.Time) :
  time.Time_Format_date localOffset t = time.Time_Format_date localOffset u ->
  time.Time_days localOffset t = time.Time_days localOffset u.
Proof.
  unfold time.Time_Format_date, time.Time_Date. intros H.
  pose proof (civilFromDays_range (time.Time_days localOffset t)) as Ht.
  pose proof (civilFromDays_range (time.Time_days localOffset u)) as Hu.
  apply civilFromDays_inj.
  destruct (time.civilFromDays (time.Time_days localOffset t)) as [[y1 m1] d1].
  destruct (time.civilFromDays (time.Time_days localOffset u)) as [[y2 m2] d2].
  apply formatDate_inj in H as (-> & -> & ->); [reflexivity|lia..].
Qed.

(** The working-day flag is a function of the date text. *)
Lemma isWorkingDay_of_date (t u : time.Time) :
  time.Time_Format_date localOffset t = time.Time_Format_date localOffset u ->
  isWorkingDay localOffset t = isWorkingDay localOffset u.
Proof.
  intros H. apply Format_date_inj_days in H.
  unfold isWorkingDay, time.Time_Weekday. now rewrite H.
Qed.

(** Every entry of a Day Set the program builds comes from a timestamp. *)
Lemma reachable_lookup (d : dayMap) :
  reachable localOffset d ->
  forall date working, d !! date = Some working ->
    exists t, time.Time_Format_date localOffset t = date
              /\ isWorkingDay localOffset t = working.
Proof.
  induction 1 as [|d t Hd IH]; intros date working Hlookup.
  - now rewrite lookup_empty in Hlookup.
  - unfold dayMap_Add in Hlookup.
    destruct (decide (time.Time_Format_date localOffset t = date)) as [Heq|Hne].
    + rewrite Heq, lookup_insert_eq in Hlookup. exists t. split; congruence.
    + rewrite lookup_insert_ne in Hlookup by exact Hne. now apply IH.
Qed.

Lemma dayMap_Add_present (d : dayMap) (t : time.Time) :
  reachable localOffset d ->
  is_Some (d !! time.Time_Format_date localOffset t) ->
  dayMap_Add localOffset d t = d.
Proof.
  intros Hd [working Hlookup]. unfold dayMap_Add. apply insert_id.
  destruct (reachable_lookup d Hd _ _ Hlookup) as (u & Hdate & Hflag).
  rewrite Hlookup, <- Hflag. f_equal. now apply isWorkingDay_of_date.
Qed.

Lemma dayMap_Add_twice (d : dayMap) (t : time.Time) :
  dayMap_Add localOffset (dayMap_Add localOffset d t) t = dayMap_Add localOffset d t.
Proof. unfold dayMap_Add. apply insert_insert_eq. Qed.

Lemma iter_fixpoint (d : dayMap) (t : time.Time) (n : nat) :
  dayMap_Add localOffset d t = d ->
  Nat.iter n (fun d' => dayMap_Add localOffset d' t) d = d.
Proof.
  intros H. induction n as [|n IH]; [reflexivity|].
  rewrite Nat.iter_succ, IH. exact H.
Qed.

End DaySetFacts.

(** C8.  Inserting a timestamp again, any number of times, after a first
    insertion leaves the Day Set, its size and its count of working days as
    they are; the same holds when the Day Set, built by the program, already
    holds the calendar day of the timestamp through another timestamp. *)
Theorem Add_idempotent (localOffset : Z -> Z) (d : dayMap) (t : time.Time)
    (n : nat) :
  (let d1 := dayMap_Add localOffset d t in
   let dn := Nat.iter n (fun d' => dayMap_Add localOffset d' t) d1 in
   dn = d1 /\ dayMap_len dn = dayMap_len d1
   /\ dayMap_CountWorkingDays dn = dayMap_CountWorkingDays d1)
  /\ (reachable localOffset d ->
      is_Some (d !! time.Time_Format_date localOffset t) ->
      let dn := Nat.iter n (fun d' => dayMap_Add localOffset d' t) d in
      dn = d /\ dayMap_len dn = dayMap_len d
      /\ dayMap_CountWorkingDays dn = dayMap_CountWorkingDays d).
Proof.
  split.
  - intros d1 dn.
    assert (H : dn = d1) by (apply iter_fixpoint, dayMap_Add_twice).
    rewrite H. auto.
  - intros Hd Hin dn.
    assert (H : dn = d) by (apply iter_fixpoint, dayMap_Add_present; assumption).
    rewrite H. auto.
Qed.

Lemma Add_idempotent_witness :
  reachable (fun _ => 0) (dayMap_Add (fun _ => 0) ∅ mondayMorning)
  /\ is_Some (dayMap_Add (fun _ => 0) ∅ mondayMorning
              !! time.Time_Format_date (fun _ => 0) mondayAfternoon)
  /\ Nat.iter 3 (fun d' => dayMap_Add (fun _ => 0) d' mondayAfternoon)
              (dayMap_Add (fun _ => 0) ∅ mondayMorning)
     = dayMap_Add (fun _ => 0) ∅ mondayMorning.
Proof.
  assert (Hd : reachable (fun _ => 0) (dayMap_Add (fun _ => 0) ∅ mondayMorning))
    by (apply reachable_Add, reachable_empty).
  assert (Hin : is_Some (dayMap_Add (fun _ => 0) ∅ mondayMorning
                         !! time.Time_Format_date (fun _ => 0) mondayAfternoon))
    by (exists true; reflexivity).
  split; [exact Hd|]. split; [exact Hin|].
  exact (proj1 (proj2 (Add_idempotent (fun _ => 0) (dayMap_Add (fun _ => 0) ∅ mondayMorning)
                         mondayAfternoon 3) Hd Hin)).
Defined.

(** C7, as the specification words it, fails on the code: for a timestamp
    in UTC on a Sunday evening, in a process whose local zone is one hour
    east, the code records the Sunday (a weekend day) where the local
    calendar has the Monday (a working day). *)
Lemma Add_local_zone_counterexample :
  time.loc sundayEvening = time.UTC
  /\ dayMap_Add (fun _ => 3600) ∅ sundayEvening = {[ "2022-01-02" := false ]}
  /\ dayMap_Add (fun _ => 3600) ∅ (time.Time_Local sundayEvening)
     = {[ "2022-01-03" := true ]}
  /\ dayMap_Add (fun _ => 3600) ∅ sundayEvening !! "2022-01-03" = None
  /\ dayMap_Add (fun _ => 3600) ∅ sundayEvening
     <> dayMap_Add (fun _ => 3600) ∅ (time.Time_Local sundayEvening).
Proof.
  split; [reflexivity|]. split; [reflexivity|]. split; [reflexivity|]. split; [reflexivity|].
  intros H. apply (f_equal (fun d : dayMap => d !! "2022-01-03")) in H.
  vm_compute in H. discriminate H.
Qed.

(** C7, amended.  Day Set insertion derives the calendar date and the
    working-day flag from the timestamp read on the clock of the location
    that the timestamp itself carries: the entry is the one of the UTC time
    shifted by the offset of that location, and the process's local zone
    plays a role only for a timestamp whose location is Local. *)
Theorem Add_uses_the_timestamp_location
    (localOffset : Z -> Z) (d : dayMap) (t : time.Time) :
  dayMap_Add localOffset d t
  = dayMap_Add (fun _ => 0) d
      (time.mkTime (time.unixSec t + time.lookup localOffset (time.loc t) (time.unixSec t))
                   (time.nsec t) time.UTC)
  /\ (time.loc t <> time.Local ->
      forall localOffset', dayMap_Add localOffset' d t = dayMap_Add localOffset d t).
Proof.
  split.
  - unfold dayMap_Add, isWorkingDay, time.Time_Format_date, time.Time_Date,
      time.Time_Weekday, time.Time_days, time.Time_abs.
    cbn [time.unixSec time.loc time.lookup]. now rewrite Z.add_0_r.
  - intros Hloc localOffset'.
    unfold dayMap_Add, isWorkingDay, time.Time_Format_date, time.Time_Date,
      time.Time_Weekday, time.Time_days, time.Time_abs.
    destruct (time.loc t); [reflexivity | congruence | reflexivity].
Qed.

Lemma Add_uses_the_timestamp_location_witness :
  time.loc sundayEvening <> time.Local
  /\ dayMap_Add (fun _ => 3600) ∅ sundayEvening = dayMap_Add (fun _ => 0) ∅ sundayEvening.
Proof.
  assert (H : time.loc sundayEvening <> time.Local) by discriminate.
  split; [exact H|].
  exact (proj2 (Add_uses_the_timestamp_location (fun _ => 0) ∅ sundayEvening) H
           (fun _ => 3600)).
Defined.

(** * Further properties of main.go *)

(** ** The Day Set: counting *)

Lemma CountWorkingDays_empty : dayMap_CountWorkingDays ∅ = 0%nat.
Proof. unfold dayMap_CountWorkingDays. apply map_fold_empty. Qed.

Lemma CountWorkingDays_insert_None (d : dayMap) (date : string) (working : bool) :
  d !! date = None ->
  dayMap_CountWorkingDays (<[date := working]> d)
  = ((if working then 1 else 0) + dayMap_CountWorkingDays d)%nat.
Proof.
  intros H. unfold dayMap_CountWorkingDays.
  rewrite map_fold_insert_L; [now destruct working| |exact H].
  intros j1 j2 z1 z2 y _ _ _. now destruct z1, z2.
Qed.

Lemma CountWorkingDays_filter (d : dayMap) :
  dayMap_CountWorkingDays d = size (filter (fun entry => entry.2 = true) d).
Proof.
  induction d as [|date working d Hnone IH] using map_ind.
  - now rewrite CountWorkingDays_empty, map_filter_empty, map_size_empty.
  - rewrite (CountWorkingDays_insert_None _ _ _ Hnone), IH.
    destruct working.
    + rewrite map_filter_insert_True by reflexivity.
      rewrite map_size_insert_None; [reflexivity|].
      now rewrite map_lookup_filter_None; left.
    + rewrite map_filter_insert_not'; [reflexivity| |].
      * cbn. discriminate.
      * intros y Hy. congruence.
Qed.

(** X1.  The count of working days is the number of entries whose flag is
    true, and never exceeds the number of days. *)
Theorem CountWorkingDays_le_len (d : dayMap) :
  dayMap_CountWorkingDays d = size (filter (fun entry => entry.2 = true) d)
  /\ (dayMap_CountWorkingDays d <= dayMap_len d)%nat.
Proof.
  split; [apply CountWorkingDays_filter|].
  rewrite CountWorkingDays_filter. unfold dayMap_len.
  apply map_subseteq_size, map_filter_subseteq.
Qed.

(** ** The Day Set: contents and order of insertion *)

Section DaySetContents.

Variable localOffset : Z -> Z.

Local Abbreviation Add := (dayMap_Add localOffset).
Local Abbreviation dateOf := (time.Time_Format_date localOffset).

(** Two insertions commute: on the same day they write the same flag. *)
Lemma dayMap_Add_comm (d : dayMap) (t u : time.Time) :
  Add (Add d t) u = Add (Add d u) t.
Proof.
  unfold dayMap_Add.
  destruct (decide (dateOf t = dateOf u)) as [Heq|Hne].
  - rewrite (isWorkingDay_of_date localOffset t u Heq), Heq. reflexivity.
  - apply insert_insert_ne. congruence.
Qed.

Lemma fold_left_Add_snoc (ts : list time.Time) (t : time.Time) (d : dayMap) :
  fold_left Add (ts ++ [t]) d = Add (fold_left Add ts d) t.
Proof. now rewrite fold_left_app. Qed.

Lemma fold_left_Add_lookup (ts : list time.Time) (date : string) (working : bool) :
  fold_left Add ts ∅ !! date = Some working
  <-> exists t, In t ts /\ dateOf t = date /\ isWorkingDay localOffset t = working.
Proof.
  induction ts as [|t ts IH] using rev_ind.
  - cbn. rewrite lookup_empty. split; [discriminate | intros (t & [] & _)].
  - rewrite fold_left_Add_snoc. unfold dayMap_Add at 1. split.
    + intros H. destruct (decide (dateOf t = date)) as [Heq|Hne].
      * rewrite Heq, lookup_insert_eq in H. exists t.
        split; [apply in_or_app; right; now left|]. split; congruence.
      * rewrite lookup_insert_ne in H by exact Hne.
        apply IH in H as (u & Hin & Hu). exists u.
        split; [apply in_or_app; now left | exact Hu].
    + intros (u & Hin & Hdate & Hflag).
      destruct (decide (dateOf t = date)) as [Heq|Hne].
      * rewrite Heq, lookup_insert_eq. f_equal. rewrite <- Hflag.
        apply isWorkingDay_of_date. congruence.
      * rewrite lookup_insert_ne by exact Hne. apply IH.
        apply in_app_or in Hin as [Hin|[->|[]]]; [|congruence].
        exists u. auto.
Qed.

Lemma fold_left_Add_dom (ts : list time.Time) (d : dayMap) :
  dom (fold_left Add ts d) = list_to_set (map dateOf ts) ∪ dom d.
Proof.
  revert d. induction ts as [|t ts IH]; intros d; cbn [fold_left map list_to_set].
  - now rewrite union_empty_l_L.
  - rewrite IH. unfold dayMap_Add. rewrite dom_insert_L.
    rewrite (assoc_L (∪)). f_equal. apply (comm_L (∪)).
Qed.

Lemma reachable_fold_left (ts : list time.Time) (d : dayMap) :
  reachable localOffset d -> reachable localOffset (fold_left Add ts d).
Proof.
  revert d. induction ts as [|t ts IH]; intros d Hd; [exact Hd|].
  cbn [fold_left]. apply IH. now constructor.
Qed.

Lemma fold_left_Add_Permutation (ts ts' : list time.Time) :
  Permutation ts ts' -> forall d, fold_left Add ts d = fold_left Add ts' d.
Proof.
  induction 1 as [|t ts ts' _ IH|t u ts|ts1 ts2 ts3 _ IH1 _ IH2]; intros d;
    cbn [fold_left].
  - reflexivity.
  - apply IH.
  - now rewrite dayMap_Add_comm.
  - now rewrite IH1.
Qed.

End DaySetContents.

(** X2.  After the timestamps [ts] have been inserted into the empty Day Set,
    a date is present with a flag exactly when one of the timestamps falls on
    that date and has that working-day flag; the number of days is the number
    of distinct date texts. *)
Theorem DaySet_contents (localOffset : Z -> Z) (ts : list time.Time) :
  let days := fold_left (dayMap_Add localOffset) ts ∅ in
  (forall date working,
     days !! date = Some working
     <-> exists t, In t ts /\ time.Time_Format_date localOffset t = date
                   /\ isWorkingDay localOffset t = working)
  /\ dayMap_len days
     = length (remove_dups (map (time.Time_Format_date localOffset) ts)).
Proof.
  intros days. split.
  - intros date working. apply fold_left_Add_lookup.
  - unfold dayMap_len, days. rewrite <- size_dom, fold_left_Add_dom, dom_empty_L.
    rewrite union_empty_r_L.
    rewrite <- (size_list_to_set (C := gset string)
                  (remove_dups (map (time.Time_Format_date localOffset) ts)))
      by apply NoDup_remove_dups.
    f_equal. apply set_eq. intros x.
    now rewrite !elem_of_list_to_set, elem_of_remove_dups.
Qed.

(** X3.  The Day Set does not depend on the order of the insertions: two
    sequences of timestamps that are permutations of each other leave the
    same Day Set. *)
Theorem DaySet_order_independent (localOffset : Z -> Z) (ts ts' : list time.Time)
    (d : dayMap) :
  Permutation ts ts' ->
  fold_left (dayMap_Add localOffset) ts d = fold_left (dayMap_Add localOffset) ts' d.
Proof. intros H. now apply fold_left_Add_Permutation. Qed.

Lemma DaySet_order_independent_witness :
  Permutation [sundayEvening; mondayMorning; mondayAfternoon]
              [mondayAfternoon; sundayEvening; mondayMorning]
  /\ fold_left (dayMap_Add (fun _ => 0)) [sundayEvening; mondayMorning; mondayAfternoon] ∅
     = fold_left (dayMap_Add (fun _ => 0)) [mondayAfternoon; sundayEvening; mondayMorning] ∅.
Proof.
  assert (H : Permutation [sundayEvening; mondayMorning; mondayAfternoon]
                          [mondayAfternoon; sundayEvening; mondayMorning]).
  { apply Permutation_sym.
    apply (Permutation_cons_app [sundayEvening; mondayMorning] [] mondayAfternoon).
    rewrite app_nil_r. apply Permutation_refl. }
  split; [exact H|].
  exact (DaySet_order_independent (fun _ => 0) _ _ ∅ H).
Defined.

(** X4.  Inserting a timestamp whose date is not yet in the Day Set adds one
    day, and adds one working day exactly when the timestamp falls on a
    weekday from Monday to Friday. *)
Theorem Add_new_day (localOffset : Z -> Z) (d : dayMap) (t : time.Time) :
  d !! time.Time_Format_date localOffset t = None ->
  dayMap_len (dayMap_Add localOffset d t) = S (dayMap_len d)
  /\ dayMap_CountWorkingDays (dayMap_Add localOffset d t)
     = ((if isWorkingDay localOffset t then 1 else 0) + dayMap_CountWorkingDays d)%nat
  /\ (isWorkingDay localOffset t = true
      <-> time.Time_Weekday localOffset t <> time.Saturday
          /\ time.Time_Weekday localOffset t <> time.Sunday).
Proof.
  intros H. unfold dayMap_Add, dayMap_len. split; [|split].
  - now apply map_size_insert_None.
  - now apply CountWorkingDays_insert_None.
  - unfold isWorkingDay. rewrite andb_true_iff, !negb_true_iff.
    destruct (time.Time_Weekday localOffset t); cbn; intuition congruence.
Qed.

Lemma Add_new_day_witness :
  (dayMap_Add (fun _ => 0) ∅ sundayEvening)
    !! time.Time_Format_date (fun _ => 0) mondayMorning = None
  /\ dayMap_len (dayMap_Add (fun _ => 0) (dayMap_Add (fun _ => 0) ∅ sundayEvening)
                            mondayMorning)
     = S (dayMap_len (dayMap_Add (fun _ => 0) ∅ sundayEvening)).
Proof.
  assert (H : (dayMap_Add (fun _ => 0) ∅ sundayEvening)
                !! time.Time_Format_date (fun _ => 0) mondayMorning = None)
    by reflexivity.
  split; [exact H|].
  exact (proj1 (Add_new_day (fun _ => 0) (dayMap_Add (fun _ => 0) ∅ sundayEvening)
                  mondayMorning H)).
Defined.

(** ** The Point Parser on well-formed text *)

Lemma string_app_cons (c : ascii) (s t : string) :
  (String c s ++ t)%string = String c (s ++ t)%string.
Proof. reflexivity. Qed.

Lemma prefix_cons_ne (c x : ascii) (p s : string) :
  Ascii.eqb x c = false -> String.prefix (String c p) (String x s) = false.
Proof.
  intros H. cbn [String.prefix]. destruct (ascii_dec c x) as [->|Hne]; [|reflexivity].
  now rewrite Ascii.eqb_refl in H.
Qed.

Lemma prefix_nil (s : string) : String.prefix "" s = true.
Proof. now destruct s. Qed.

Lemma prefix_cons_eq (c : ascii) (p s : string) :
  String.prefix (String c p) (String c s) = String.prefix p s.
Proof. cbn [String.prefix]. destruct (ascii_dec c c); [reflexivity | congruence]. Qed.

(** Degree signs are removed behind a piece that holds none. *)
Lemma replaceFrom_plain (a s : string) :
  hasByte (ascii_of_nat 194) a = false ->
  strings.replaceFrom 0 (a ++ s) degree "" = (a ++ strings.replaceFrom 0 s degree "")%string.
Proof.
  induction a as [|x a IH]; intros H; [reflexivity|].
  cbn [hasByte] in H. apply orb_false_iff in H as [Hx Ha].
  rewrite string_app_cons. cbn [strings.replaceFrom].
  unfold degree at 1. rewrite (prefix_cons_ne _ _ _ _ Hx).
  rewrite (IH Ha). reflexivity.
Qed.

Lemma replaceFrom_degree (s : string) :
  strings.replaceFrom 0 (degree ++ s) degree "" = strings.replaceFrom 0 s degree "".
Proof.
  change (degree ++ s)%string with (String (ascii_of_nat 194) (String (ascii_of_nat 176) s)).
  cbn [strings.replaceFrom]. unfold degree at 1.
  rewrite !prefix_cons_eq, prefix_nil. reflexivity.
Qed.

(** The first piece ends at the first separator. *)
Lemma splitFrom_plain (a s cur : string) :
  hasByte ","%char a = false ->
  strings.splitFrom 0 cur (a ++ ", " ++ s) ", "
  = (cur ++ a)%string :: strings.splitFrom 0 "" s ", ".
Proof.
  revert cur. induction a as [|x a IH]; intros cur H.
  - rewrite string_app_nil_r.
    change ("" ++ ", " ++ s)%string with (String ","%char (String " "%char s)).
    cbn [strings.splitFrom]. rewrite !prefix_cons_eq, prefix_nil. reflexivity.
  - cbn [hasByte] in H. apply orb_false_iff in H as [Hx Ha].
    rewrite string_app_cons. cbn [strings.splitFrom].
    rewrite (prefix_cons_ne _ _ _ _ Hx), (IH _ Ha), string_app_assoc. reflexivity.
Qed.

Lemma Contains_plain (b : string) :
  hasByte ","%char b = false -> strings.Contains b ", " = false.
Proof.
  induction b as [|x b IH]; intros H; [reflexivity|].
  cbn [hasByte] in H. apply orb_false_iff in H as [Hx Hb].
  cbn [strings.Contains]. now rewrite (prefix_cons_ne _ _ _ _ Hx), (IH Hb).
Qed.

Lemma coordsOf_two_pieces (value a b : string) :
  hasByte ","%char a = false -> hasByte ","%char b = false ->
  strings.ReplaceAll value degree "" = (a ++ ", " ++ b)%string ->
  coordsOf value = [a; b].
Proof.
  intros Ha Hb Hvalue. unfold coordsOf, strings.Split. rewrite Hvalue.
  rewrite (splitFrom_plain _ _ _ Ha), (splitFrom_no_sep _ _ _ (Contains_plain _ Hb)).
  reflexivity.
Qed.

(** X5.  For a coordinate text made of two pieces around a comma and a
    space, each piece with or without a degree sign behind it, [parsePoint]
    returns what [strconv.ParseFloat] makes of the two pieces, its errors
    dropped.  A piece holds no comma and no first byte of a degree sign. *)
Theorem parsePoint_well_formed
    (ParseFloat : string -> Z -> float * option error) (a b : string) :
  plainPiece a = true -> plainPiece b = true ->
  parsePoint ParseFloat (a ++ degree ++ ", " ++ b ++ degree)
  = Returned (fst (ParseFloat a 64), fst (ParseFloat b 64))
  /\ parsePoint ParseFloat (a ++ ", " ++ b)
     = Returned (fst (ParseFloat a 64), fst (ParseFloat b 64)).
Proof.
  unfold plainPiece. rewrite !andb_true_iff, !negb_true_iff.
  intros [Ha Ha'] [Hb Hb'].
  assert (Hsep : hasByte (ascii_of_nat 194) ", " = false) by reflexivity.
  split; apply parsePoint_two_pieces with (@nil string);
    apply coordsOf_two_pieces; try assumption; unfold strings.ReplaceAll.
  - rewrite (replaceFrom_plain _ _ Ha'), replaceFrom_degree.
    rewrite (replaceFrom_plain _ _ Hsep), (replaceFrom_plain _ _ Hb').
    change (strings.replaceFrom 0 degree degree "") with "".
    now rewrite string_app_nil_r.
  - rewrite (replaceFrom_plain _ _ Ha'), (replaceFrom_plain _ _ Hsep).
    rewrite <- (string_app_nil_r b) at 1.
    rewrite (replaceFrom_plain _ _ Hb'). cbn [strings.replaceFrom].
    now rewrite string_app_nil_r.
Qed.

Lemma parsePoint_well_formed_witness :
  plainPiece "51.6503959" = true /\ plainPiece "5.0492413" = true
  /\ parsePoint exampleParseFloat ("51.6503959" ++ degree ++ ", " ++ "5.0492413" ++ degree)
     = Returned (fst (exampleParseFloat "51.6503959" 64),
                 fst (exampleParseFloat "5.0492413" 64)).
Proof.
  split; [reflexivity|]. split; [reflexivity|].
  exact (proj1 (parsePoint_well_formed exampleParseFloat "51.6503959" "5.0492413"
                  eq_refl eq_refl)).
Defined.

(** ** The Schema Normalizer: errors and panics *)

Section NormalizerOutcomes.

Variable ParseFloat : string -> Z -> float * option error.
Variable File : Type.
Variable Decode : File -> wrapper + error.

Lemma parsePoint_invalid (value : string) :
  validPoint value = false ->
  parsePoint ParseFloat value = Panicked (IndexOutOfRange 1 1).
Proof.
  intros H. unfold parsePoint, strings.Split.
  rewrite (splitFrom_no_sep _ "" _ H). cbn.
  destruct (ParseFloat _ 64). reflexivity.
Qed.

Lemma forRange_appendPathPoint_invalid (segment : semanticSegment)
    (points : list pathPoint) :
  forall result,
    forallb (fun point => validPoint (Point point)) points = false ->
    forRange (appendPathPoint ParseFloat segment) points result
    = Panicked (IndexOutOfRange 1 1).
Proof.
  induction points as [|point points IH]; intros result H; cbn [forallb] in H;
    [discriminate|].
  cbn [forRange]. unfold appendPathPoint at 1.
  destruct (validPoint (Point point)) eqn:Hp.
  - rewrite (parsePoint_valid ParseFloat _ Hp). cbn [bind]. now apply IH.
  - now rewrite (parsePoint_invalid _ Hp).
Qed.

Lemma forRange_segments_invalid (segments : list semanticSegment) :
  forall result,
    forallb validSegment segments = false ->
    forRange (fun result entry =>
                forRange (appendPathPoint ParseFloat entry) (TimelinePath entry) result)
             segments result
    = Panicked (IndexOutOfRange 1 1).
Proof.
  induction segments as [|segment segments IH]; intros result H; cbn [forallb] in H;
    [discriminate|].
  cbn [forRange]. destruct (validSegment segment) eqn:Hs.
  - rewrite (forRange_appendPathPoint ParseFloat _ _ _ Hs). cbn [bind]. now apply IH.
  - now rewrite (forRange_appendPathPoint_invalid _ _ _ Hs).
Qed.

(** The three outcomes of [ParseTimelineInput]. *)
Lemma ParseTimelineInput_cases (input : option File) :
  match decodeInput Decode input with
  | inr e =>
      ParseTimelineInput ParseFloat Decode input
      = Returned ([], Some (wrapError "decoding JSON: " e))
  | inl w =>
      match SemanticSegments w with
      | Some segments =>
          if forallb validSegment segments
          then ParseTimelineInput ParseFloat Decode input
               = Returned (flat_map (recordsOfSegment ParseFloat) segments, None)
          else ParseTimelineInput ParseFloat Decode input
               = Panicked (IndexOutOfRange 1 1)
      | None =>
          ParseTimelineInput ParseFloat Decode input
          = Returned (map recordOfVisit (placeVisits (TimelineObjects w)), None)
      end
  end.
Proof.
  destruct (decodeInput Decode input) as [w|e] eqn:Hd.
  - destruct (SemanticSegments w) as [segments|] eqn:Hs.
    + rewrite (ParseTimelineInput_variantA ParseFloat File Decode input w segments Hd Hs).
      unfold parseSemanticSegments.
      destruct (forallb validSegment segments) eqn:Hv.
      * now rewrite (forRange_segments ParseFloat _ _ Hv).
      * now rewrite (forRange_segments_invalid _ _ Hv).
    + now apply ParseTimelineInput_variantB.
  - now apply ParseTimelineInput_decode_error.
Qed.

End NormalizerOutcomes.

(** X6.  When [ParseTimelineInput] returns, it returns an error exactly
    when decoding failed; the error then wraps the decoder's error and there
    are no records, so records and an error never come together. *)
Theorem ParseTimelineInput_error_iff_decode_fails
    (ParseFloat : string -> Z -> float * option error)
    (File : Type) (Decode : File -> wrapper + error)
    (input : option File) (places : list timelinePoint) (err : option error) :
  ParseTimelineInput ParseFloat Decode input = Returned (places, err) ->
  (forall e, err = Some e ->
     places = []
     /\ exists cause, decodeInput Decode input = inr cause
                      /\ e = wrapError "decoding JSON: " cause)
  /\ (err = None -> exists w, decodeInput Decode input = inl w).
Proof.
  intros H. pose proof (ParseTimelineInput_cases ParseFloat File Decode input) as Hc.
  destruct (decodeInput Decode input) as [w|cause].
  - assert (Herr : err = None).
    { destruct (SemanticSegments w) as [segments|];
        [destruct (forallb validSegment segments)|]; congruence. }
    split; [intros e He; congruence | intros _; now exists w].
  - rewrite Hc in H. injection H as <- <-. split.
    + intros e [= <-]. split; [reflexivity|]. now exists cause.
    + discriminate.
Qed.

Lemma ParseTimelineInput_error_iff_decode_fails_witness :
  ParseTimelineInput exampleParseFloat exampleDecode (Some None)
  = Returned ([], Some (wrapError "decoding JSON: " (errorString "invalid character")))
  /\ exists cause, decodeInput exampleDecode (Some None) = inr cause
                   /\ wrapError "decoding JSON: " (errorString "invalid character")
                      = wrapError "decoding JSON: " cause.
Proof.
  assert (H : ParseTimelineInput exampleParseFloat exampleDecode (Some None)
              = Returned ([], Some (wrapError "decoding JSON: "
                                              (errorString "invalid character"))))
    by reflexivity.
  split; [exact H|].
  exact (proj2 (proj1 (ParseTimelineInput_error_iff_decode_fails exampleParseFloat
                         exampleFile exampleDecode (Some None) [] _ H) _ eq_refl)).
Defined.

(** X7.  [ParseTimelineInput] panics exactly when the document decodes, has
    a semanticSegments slice that is not nil, and one of its coordinate texts
    lacks the comma+space separator; the panic is then the index out of
    range of [parsePoint].  A Variant B document never panics. *)
Theorem ParseTimelineInput_panics_iff
    (ParseFloat : string -> Z -> float * option error)
    (File : Type) (Decode : File -> wrapper + error) (input : option File) :
  ((exists p, ParseTimelineInput ParseFloat Decode input = Panicked p)
   <-> exists w segments,
         decodeInput Decode input = inl w
         /\ SemanticSegments w = Some segments
         /\ forallb validSegment segments = false)
  /\ (forall p, ParseTimelineInput ParseFloat Decode input = Panicked p ->
        p = IndexOutOfRange 1 1).
Proof.
  pose proof (ParseTimelineInput_cases ParseFloat File Decode input) as Hc.
  destruct (decodeInput Decode input) as [w|cause] eqn:Hd.
  - destruct (SemanticSegments w) as [segments|] eqn:Hs.
    + destruct (forallb validSegment segments) eqn:Hv; rewrite Hc.
      * split; [|discriminate]. split; [intros [p Hp]; discriminate|].
        intros (w' & segments' & Hd' & Hs' & Hv').
        assert (w' = w) by congruence. subst w'.
        assert (segments' = segments) by congruence. subst segments'. congruence.
      * split; [|congruence]. split; [|eauto]. intros _. now exists w, segments.
    + rewrite Hc. split; [|discriminate]. split; [intros [p Hp]; discriminate|].
      intros (w' & segments' & Hd' & Hs' & _).
      assert (w' = w) by congruence. subst w'. congruence.
  - rewrite Hc. split; [|discriminate]. split; [intros [p Hp]; discriminate|].
    intros (w' & segments' & Hd' & _). discriminate.
Qed.

(** ** The Matching Pipeline: one file *)

Section FileFacts.

Variable ParseFloat : string -> Z -> float * option error.
Variable DistanceHaversine : orb.Point -> orb.Point -> float.
Variable localOffset : Z -> Z.
Variable File : Type.
Variable OpenFile : string -> File + error.
Variable Decode : File -> wrapper + error.
Variables (startDate endDate : time.Time).
Variables (officeLocation : orb.Point) (tolerance : float).

Local Abbreviation run := (processFile ParseFloat DistanceHaversine localOffset OpenFile
                                       Decode startDate endDate officeLocation tolerance).
Local Abbreviation starts := (matchingStarts DistanceHaversine startDate endDate
                                             officeLocation tolerance).
Local Abbreviation considered :=
  (List.filter (fun place => negb (skipped startDate endDate place))).

(** What [processFile] does once the places are read: between the entries it
    was given and the [Debugf] entry it hands over [Error] entries alone, and
    none when the file opened and the decoder returned no error. *)
Lemma processFile_returned (fileName : string) (d : dayMap) (logs : list logEntry)
    (places : list timelinePoint) (err : option error) :
  ParseTimelineInput ParseFloat Decode (openedFile OpenFile fileName)
  = Returned (places, err) ->
  exists errors,
    run fileName (d, logs)
    = Returned
        (fold_left (dayMap_Add localOffset) (starts places) d,
         logs ++ errors ++ [ debugLine fileName (length places) (length (considered places)) ])
    /\ Forall (fun entry => entryLevel entry = ErrorLevel /\ entryFile entry = fileName) errors
    /\ (errors = [] <-> (exists f, OpenFile fileName = inl f) /\ err = None).
Proof.
  intros H. unfold processFile, openedFile in *.
  destruct (OpenFile fileName) as [f|e]; rewrite H; cbn [bind fst snd];
    rewrite fold_left_processPlace; cbn [fst snd]; destruct err as [e'|].
  - exists [ {| entryLevel := ErrorLevel; entryFile := fileName;
                entryMsg := "Could not parse file"; entryErr := Some e';
                entryCounts := None |} ].
    split; [now rewrite <- !app_assoc|]. split; [repeat constructor|].
    split; [discriminate|]. now intros [_ [=]].
  - exists []. split; [reflexivity|]. split; [constructor|]. split; [eauto|reflexivity].
  - exists [ {| entryLevel := ErrorLevel; entryFile := fileName;
                entryMsg := "Could not open file"; entryErr := Some e;
                entryCounts := None |};
             {| entryLevel := ErrorLevel; entryFile := fileName;
                entryMsg := "Could not parse file"; entryErr := Some e';
                entryCounts := None |} ].
    split; [now rewrite <- !app_assoc|]. split; [repeat constructor|].
    split; [discriminate|]. now intros [_ [=]].
  - exists [ {| entryLevel := ErrorLevel; entryFile := fileName;
                entryMsg := "Could not open file"; entryErr := Some e;
                entryCounts := None |} ].
    split; [now rewrite <- !app_assoc|]. split; [repeat constructor|].
    split; [discriminate|]. now intros [[f [=]] _].
Qed.

Lemma processFile_panicked (fileName : string) (st : dayMap * list logEntry) (p : panic) :
  ParseTimelineInput ParseFloat Decode (openedFile OpenFile fileName) = Panicked p ->
  run fileName st = Panicked p.
Proof.
  intros H. destruct st as [d logs]. unfold processFile, openedFile in *.
  destruct (OpenFile fileName) as [f|e]; now rewrite H.
Qed.

(** [processFile] in terms of the start timestamps of the file. *)
Lemma processFile_fileStarts (fileName : string) (d : dayMap) (logs : list logEntry) :
  match fileStarts ParseFloat DistanceHaversine OpenFile Decode startDate endDate
                   officeLocation tolerance fileName with
  | Returned ts =>
      exists logs', run fileName (d, logs)
                    = Returned (fold_left (dayMap_Add localOffset) ts d, logs')
  | Panicked p => run fileName (d, logs) = Panicked p
  end.
Proof.
  unfold fileStarts, filePlaces.
  destruct (ParseTimelineInput ParseFloat Decode (openedFile OpenFile fileName))
    as [[places err]|p] eqn:H; cbn [bind fst].
  - destruct (processFile_returned fileName d logs places err H) as (errors & Hrun & _).
    eexists. exact Hrun.
  - now apply processFile_panicked.
Qed.

End FileFacts.

(** The logger writes [Error] entries at either level. *)
Lemma written_errors (verbose : bool) (errors : list logEntry) :
  Forall (fun entry => entryLevel entry = ErrorLevel) errors ->
  written verbose errors = errors.
Proof.
  unfold written. induction 1 as [|entry errors Hentry _ IH]; [reflexivity|].
  cbn [List.filter]. unfold enabled at 1. now rewrite Hentry, IH.
Qed.

(** X8.  When [processFile] returns, the Day Set has received the start
    timestamps of the file's records that overlap the range and pass the
    test of the loop, [distance <= tolerance] on what [geo.DistanceHaversine]
    returns for the two points as the code fills them; with the library's
    function these need not be the records within the tolerance of the
    reference point (see C4).  To the logger it hands [Error] entries about
    this file, none when the file opened and decoded, and then the [Debugf]
    entry with the number of records read and the number that overlap the
    range, whether near the reference point or not; the second number is at
    most the first.  The logger writes the [Error] entries always and the
    [Debugf] entry under [-verbose] alone. *)
Theorem processFile_effect
    (ParseFloat : string -> Z -> float * option error)
    (DistanceHaversine : orb.Point -> orb.Point -> float) (localOffset : Z -> Z)
    (File : Type) (OpenFile : string -> File + error) (Decode : File -> wrapper + error)
    (startDate endDate : time.Time) (officeLocation : orb.Point) (tolerance : float)
    (fileName : string) (d d' : dayMap) (logs logs' : list logEntry) :
  processFile ParseFloat DistanceHaversine localOffset OpenFile Decode
              startDate endDate officeLocation tolerance fileName (d, logs)
  = Returned (d', logs') ->
  exists places errors found processed,
    filePlaces ParseFloat OpenFile Decode fileName = Returned places
    /\ d' = fold_left (dayMap_Add localOffset)
              (map Start
                 (List.filter
                    (fun place =>
                       negb (skipped startDate endDate place)
                       && (DistanceHaversine officeLocation (Latitude place, Longitude place)
                           <=? tolerance)%float)
                    places))
              d
    /\ logs' = logs ++ errors ++ [ debugLine fileName found processed ]
    /\ Forall (fun entry => entryLevel entry = ErrorLevel /\ entryFile entry = fileName) errors
    /\ ((exists f w, OpenFile fileName = inl f /\ Decode f = inl w) -> errors = [])
    /\ written true logs' = written true logs ++ errors ++ [ debugLine fileName found processed ]
    /\ written false logs' = written false logs ++ errors
    /\ found = length places
    /\ processed
       = length (List.filter (fun place => negb (skipped startDate endDate place)) places)
    /\ (processed <= found)%nat.
Proof.
  intros H. unfold filePlaces.
  destruct (ParseTimelineInput ParseFloat Decode (openedFile OpenFile fileName))
    as [[places err]|p] eqn:Hparse.
  - destruct (processFile_returned ParseFloat DistanceHaversine localOffset File OpenFile
                Decode startDate endDate officeLocation tolerance fileName d logs
                places err Hparse) as (errors & Hrun & Herrors & Hnone).
    rewrite Hrun in H. injection H as <- <-.
    assert (Hlevel : Forall (fun entry => entryLevel entry = ErrorLevel) errors)
      by (eapply Forall_impl; [exact Herrors|]; now intros entry [Hentry _]).
    eexists places, errors, _, _. cbn [bind fst]. split; [reflexivity|].
    split; [reflexivity|]. split; [reflexivity|]. split; [exact Herrors|].
    split.
    { intros (f & w & Hopen & Hdecode). apply Hnone. split; [eauto|].
      unfold openedFile in Hparse. rewrite Hopen in Hparse.
      unfold ParseTimelineInput, decodeInput in Hparse. rewrite Hdecode in Hparse.
      destruct (SemanticSegments w) as [segments|].
      - destruct (parseSemanticSegments ParseFloat segments); cbn [bind] in Hparse;
          congruence.
      - congruence. }
    split.
    { unfold written at 1. rewrite !List.filter_app.
      fold (written true logs) (written true errors).
      now rewrite (written_errors true errors Hlevel). }
    split.
    { unfold written at 1. rewrite !List.filter_app.
      fold (written false logs) (written false errors).
      rewrite (written_errors false errors Hlevel). cbn. now rewrite app_nil_r. }
    split; [reflexivity|]. split; [reflexivity|]. apply List.filter_length_le.
  - rewrite (processFile_panicked ParseFloat DistanceHaversine localOffset File OpenFile
               Decode startDate endDate officeLocation tolerance fileName (d, logs) p
               Hparse) in H.
    discriminate.
Qed.

Lemma processFile_effect_witness :
  processFile exampleParseFloat (geo.DistanceHaversine exampleTrigReduce) (fun _ => 0)
              nearbyOpenFile exampleDecode (dateUTC 2022 1 1) (dateUTC 2022 12 31)
              exampleOffice 100 "takeout/nearby.json" (∅, [])
  = Returned ({[ "2022-01-04" := true ]}, [ debugLine "takeout/nearby.json" 2 2 ])
  /\ exists places errors found processed,
       filePlaces exampleParseFloat nearbyOpenFile exampleDecode "takeout/nearby.json"
       = Returned places
       /\ {[ "2022-01-04" := true ]}
          = fold_left (dayMap_Add (fun _ => 0))
              (map Start
                 (List.filter
                    (fun place =>
                       negb (skipped (dateUTC 2022 1 1) (dateUTC 2022 12 31) place)
                       && (geo.DistanceHaversine exampleTrigReduce exampleOffice
                                                 (Latitude place, Longitude place)
                           <=? 100)%float)
                    places))
              ∅
       /\ [ debugLine "takeout/nearby.json" 2 2 ]
          = [] ++ errors ++ [ debugLine "takeout/nearby.json" found processed ]
       /\ Forall (fun entry => entryLevel entry = ErrorLevel
                               /\ entryFile entry = "takeout/nearby.json") errors
       /\ ((exists f w, nearbyOpenFile "takeout/nearby.json" = inl f /\ exampleDecode f = inl w)
           -> errors = [])
       /\ written true [ debugLine "takeout/nearby.json" 2 2 ]
          = written true [] ++ errors ++ [ debugLine "takeout/nearby.json" found processed ]
       /\ written false [ debugLine "takeout/nearby.json" 2 2 ] = written false [] ++ errors
       /\ found = length places
       /\ processed
          = length (List.filter
                      (fun place => negb (skipped (dateUTC 2022 1 1) (dateUTC 2022 12 31) place))
                      places)
       /\ (processed <= found)%nat.
Proof.
  assert (H : processFile exampleParseFloat (geo.DistanceHaversine exampleTrigReduce)
                (fun _ => 0) nearbyOpenFile exampleDecode (dateUTC 2022 1 1)
                (dateUTC 2022 12 31) exampleOffice 100 "takeout/nearby.json" (∅, [])
              = Returned ({[ "2022-01-04" := true ]},
                  [ debugLine "takeout/nearby.json" 2 2 ]))
    by (vm_compute; reflexivity).
  split; [exact H|].
  exact (processFile_effect exampleParseFloat (geo.DistanceHaversine exampleTrigReduce)
           (fun _ => 0) exampleFile nearbyOpenFile exampleDecode (dateUTC 2022 1 1)
           (dateUTC 2022 12 31) exampleOffice 100 "takeout/nearby.json" ∅ _ [] _ H).
Defined.

(** ** The Matching Pipeline: the loop over the files *)

Lemma forRange_app {A S : Type} (body : S -> A -> outcome S) (xs ys : list A) (acc : S) :
  forRange body (xs ++ ys) acc = bind (forRange body xs acc) (forRange body ys).
Proof.
  revert acc. induction xs as [|x xs IH]; intros acc; [reflexivity|].
  cbn [app forRange]. destruct (body acc x) as [acc'|p]; [apply IH | reflexivity].
Qed.

Lemma Permutation_concat {A : Type} (xss yss : list (list A)) :
  Permutation xss yss -> Permutation (concat xss) (concat yss).
Proof.
  induction 1 as [|xs xss yss _ IH|xs ys xss|xss yss zss _ IH1 _ IH2]; cbn [concat].
  - apply Permutation_refl.
  - now apply Permutation_app_head.
  - rewrite !app_assoc. apply Permutation_app_tail, Permutation_app_comm.
  - now apply Permutation_trans with (concat yss).
Qed.

Section RunFacts.

Variable ParseFloat : string -> Z -> float * option error.
Variable DistanceHaversine : orb.Point -> orb.Point -> float.
Variable localOffset : Z -> Z.
Variable File : Type.
Variable OpenFile : string -> File + error.
Variable Decode : File -> wrapper + error.
Variables (startDate endDate : time.Time).
Variables (officeLocation : orb.Point) (tolerance : float).

Local Abbreviation runFile := (processFile ParseFloat DistanceHaversine localOffset
                                 OpenFile Decode startDate endDate officeLocation
                                 tolerance).
Local Abbreviation runFiles := (processFiles ParseFloat DistanceHaversine localOffset
                                  OpenFile Decode startDate endDate officeLocation
                                  tolerance).
Local Abbreviation startsOf := (fileStarts ParseFloat DistanceHaversine OpenFile Decode
                                  startDate endDate officeLocation tolerance).

Local Abbreviation allReturn := (filesReturn ParseFloat DistanceHaversine OpenFile Decode
                                   startDate endDate officeLocation tolerance).

Lemma processFiles_returned (fileNames : list string) (tss : list (list time.Time)) :
  allReturn fileNames tss ->
  forall d logs,
    exists logs',
      runFiles fileNames (d, logs)
      = Returned (fold_left (dayMap_Add localOffset) (concat tss) d, logs').
Proof.
  unfold filesReturn.
  induction 1 as [|fileName ts fileNames tss Hfile _ IH]; intros d logs.
  - exists logs. reflexivity.
  - pose proof (processFile_fileStarts ParseFloat DistanceHaversine localOffset File
                  OpenFile Decode startDate endDate officeLocation tolerance
                  fileName d logs) as Hrun.
    rewrite Hfile in Hrun. destruct Hrun as [logs1 Hrun].
    destruct (IH (fold_left (dayMap_Add localOffset) ts d) logs1) as [logs' Hrest].
    exists logs'. unfold processFiles in *. cbn [forRange concat].
    rewrite Hrun. cbn [bind]. rewrite Hrest, fold_left_app. reflexivity.
Qed.

Lemma processFiles_inv (fileNames : list string) :
  forall d logs d' logs',
    runFiles fileNames (d, logs) = Returned (d', logs') ->
    exists tss, allReturn fileNames tss
                /\ d' = fold_left (dayMap_Add localOffset) (concat tss) d.
Proof.
  induction fileNames as [|fileName fileNames IH]; intros d logs d' logs' H.
  - injection H as <- <-. exists []. split; [constructor | reflexivity].
  - unfold processFiles in H. cbn [forRange] in H.
    pose proof (processFile_fileStarts ParseFloat DistanceHaversine localOffset File
                  OpenFile Decode startDate endDate officeLocation tolerance
                  fileName d logs) as Hrun.
    destruct (startsOf fileName) as [ts|p] eqn:Hfile.
    + destruct Hrun as [logs1 Hrun]. rewrite Hrun in H. cbn [bind] in H.
      destruct (IH _ _ _ _ H) as (tss & Hall & ->).
      exists (ts :: tss). split; [now constructor|].
      cbn [concat]. now rewrite fold_left_app.
    + rewrite Hrun in H. discriminate.
Qed.

End RunFacts.

(** X9.  The Day Set after the loop over the files does not depend on the
    order of the files: if the loop returns for a list of file names, it
    returns with the same Day Set for every permutation of the list. *)
Theorem processFiles_order_independent
    (ParseFloat : string -> Z -> float * option error)
    (DistanceHaversine : orb.Point -> orb.Point -> float) (localOffset : Z -> Z)
    (File : Type) (OpenFile : string -> File + error) (Decode : File -> wrapper + error)
    (startDate endDate : time.Time) (officeLocation : orb.Point) (tolerance : float)
    (fileNames fileNames' : list string) (d d' : dayMap) (logs logs' : list logEntry) :
  Permutation fileNames fileNames' ->
  processFiles ParseFloat DistanceHaversine localOffset OpenFile Decode
               startDate endDate officeLocation tolerance fileNames (d, logs)
  = Returned (d', logs') ->
  exists logs'',
    processFiles ParseFloat DistanceHaversine localOffset OpenFile Decode
                 startDate endDate officeLocation tolerance fileNames' (d, logs)
    = Returned (d', logs'').
Proof.
  intros Hperm Hrun.
  destruct (processFiles_inv ParseFloat DistanceHaversine localOffset File OpenFile Decode
              startDate endDate officeLocation tolerance fileNames d logs d' logs' Hrun)
    as (tss & Hall & ->).
  destruct (Permutation_Forall2 Hperm Hall) as (tss' & Htss & Hall').
  destruct (processFiles_returned ParseFloat DistanceHaversine localOffset File OpenFile
              Decode startDate endDate officeLocation tolerance fileNames' tss' Hall'
              d logs) as [logs'' Hrun'].
  exists logs''. rewrite Hrun'. do 2 f_equal.
  apply fold_left_Add_Permutation, Permutation_concat, Permutation_sym, Htss.
Qed.

Lemma processFiles_order_independent_witness :
  Permutation ["a.json"; "b.json"] ["b.json"; "a.json"]
  /\ processFiles exampleParseFloat exampleDistance (fun _ => 0) exampleOpenFile
                  exampleDecode (dateUTC 2022 1 1) (dateUTC 2022 12 31) exampleOffice 100
                  ["a.json"; "b.json"] (∅, [])
     = Returned ({[ "2022-01-03" := true; "2022-01-04" := true ]},
                 [ debugLine "a.json" 1 1; debugLine "b.json" 1 1 ])
  /\ exists logs'',
       processFiles exampleParseFloat exampleDistance (fun _ => 0) exampleOpenFile
                    exampleDecode (dateUTC 2022 1 1) (dateUTC 2022 12 31) exampleOffice 100
                    ["b.json"; "a.json"] (∅, [])
       = Returned ({[ "2022-01-03" := true; "2022-01-04" := true ]}, logs'').
Proof.
  assert (Hperm : Permutation ["a.json"; "b.json"] ["b.json"; "a.json"])
    by apply perm_swap.
  assert (Hrun : processFiles exampleParseFloat exampleDistance (fun _ => 0)
                   exampleOpenFile exampleDecode (dateUTC 2022 1 1) (dateUTC 2022 12 31)
                   exampleOffice 100 ["a.json"; "b.json"] (∅, [])
                 = Returned ({[ "2022-01-03" := true; "2022-01-04" := true ]},
                     [ debugLine "a.json" 1 1; debugLine "b.json" 1 1 ]))
    by (vm_compute; reflexivity).
  split; [exact Hperm|]. split; [exact Hrun|].
  exact (processFiles_order_independent exampleParseFloat exampleDistance (fun _ => 0)
           exampleFile exampleOpenFile exampleDecode (dateUTC 2022 1 1)
           (dateUTC 2022 12 31) exampleOffice 100 _ _ ∅ _ [] _ Hperm Hrun).
Defined.

(** X10.  A file that opens and decodes to a document with a semanticSegments
    slice one of whose coordinate texts lacks the comma+space separator makes
    the loop over the files panic: the files after it are not processed and
    the run ends without a summary. *)
Theorem malformed_file_aborts_run
    (ParseFloat : string -> Z -> float * option error)
    (DistanceHaversine : orb.Point -> orb.Point -> float) (localOffset : Z -> Z)
    (File : Type) (OpenFile : string -> File + error) (Decode : File -> wrapper + error)
    (startDate endDate : time.Time) (officeLocation : orb.Point) (tolerance : float)
    (before after : list string) (fileName : string) (f : File) (w : wrapper)
    (segments : list semanticSegment) (st st' : dayMap * list logEntry) :
  OpenFile fileName = inl f ->
  Decode f = inl w ->
  SemanticSegments w = Some segments ->
  forallb validSegment segments = false ->
  processFiles ParseFloat DistanceHaversine localOffset OpenFile Decode
               startDate endDate officeLocation tolerance before st
  = Returned st' ->
  processFiles ParseFloat DistanceHaversine localOffset OpenFile Decode
               startDate endDate officeLocation tolerance (before ++ fileName :: after) st
  = Panicked (IndexOutOfRange 1 1).
Proof.
  intros Hopen Hdecode Hsegments Hinvalid Hbefore.
  unfold processFiles in *. rewrite forRange_app, Hbefore. cbn [bind forRange].
  rewrite (processFile_panicked ParseFloat DistanceHaversine localOffset File OpenFile
             Decode startDate endDate officeLocation tolerance fileName st'
             (IndexOutOfRange 1 1)); [reflexivity|].
  pose proof (ParseTimelineInput_cases ParseFloat File Decode (openedFile OpenFile fileName))
    as Hc.
  unfold openedFile in *. rewrite Hopen in *. cbn [decodeInput] in Hc.
  now rewrite Hdecode, Hsegments, Hinvalid in Hc.
Qed.

Lemma malformed_file_aborts_run_witness :
  exampleOpenFile2 "malformed.json" = inl (Some malformedDocument)
  /\ exampleDecode (Some malformedDocument) = inl malformedDocument
  /\ SemanticSegments malformedDocument = Some [malformedSegment]
  /\ forallb validSegment [malformedSegment] = false
  /\ (exists st',
        processFiles exampleParseFloat exampleDistance (fun _ => 0) exampleOpenFile2
                     exampleDecode (dateUTC 2022 1 1) (dateUTC 2022 12 31) exampleOffice 100
                     ["b.json"] (∅, [])
        = Returned st')
  /\ processFiles exampleParseFloat exampleDistance (fun _ => 0) exampleOpenFile2
                  exampleDecode (dateUTC 2022 1 1) (dateUTC 2022 12 31) exampleOffice 100
                  (["b.json"] ++ "malformed.json" :: ["a.json"]) (∅, [])
     = Panicked (IndexOutOfRange 1 1).
Proof.
  assert (Hbefore : processFiles exampleParseFloat exampleDistance (fun _ => 0)
                      exampleOpenFile2 exampleDecode (dateUTC 2022 1 1)
                      (dateUTC 2022 12 31) exampleOffice 100 ["b.json"] (∅, [])
                    = Returned ({[ "2022-01-03" := true ]}, [ debugLine "b.json" 1 1 ]))
    by (vm_compute; reflexivity).
  split; [reflexivity|]. split; [reflexivity|]. split; [reflexivity|].
  split; [reflexivity|]. split; [eexists; exact Hbefore|].
  exact (malformed_file_aborts_run exampleParseFloat exampleDistance (fun _ => 0)
           exampleFile exampleOpenFile2 exampleDecode (dateUTC 2022 1 1)
           (dateUTC 2022 12 31) exampleOffice 100 ["b.json"] ["a.json"] "malformed.json"
           (Some malformedDocument) malformedDocument [malformedSegment] (∅, []) _
           eq_refl eq_refl eq_refl eq_refl Hbefore).
Defined.

(** ** The Pipeline never removes a day *)

Section Monotone.

Variable localOffset : Z -> Z.

Lemma dayMap_Add_subseteq (d : dayMap) (t : time.Time) :
  reachable localOffset d -> d ⊆ dayMap_Add localOffset d t.
Proof.
  intros Hd. destruct (d !! time.Time_Format_date localOffset t) as [working|] eqn:H.
  - rewrite (dayMap_Add_present localOffset d t Hd) by (now exists working). reflexivity.
  - unfold dayMap_Add. now apply insert_subseteq.
Qed.

Lemma fold_left_Add_subseteq (ts : list time.Time) :
  forall d, reachable localOffset d -> d ⊆ fold_left (dayMap_Add localOffset) ts d.
Proof.
  induction ts as [|t ts IH]; intros d Hd; cbn [fold_left]; [reflexivity|].
  transitivity (dayMap_Add localOffset d t).
  - now apply dayMap_Add_subseteq.
  - apply IH. now constructor.
Qed.

End Monotone.

(** X11.  The loop over the files only adds days: started on a Day Set that
    the program built, it returns a Day Set that still holds every day it
    held, with the same flag, and so at least as many days. *)
Theorem processFiles_keeps_days
    (ParseFloat : string -> Z -> float * option error)
    (DistanceHaversine : orb.Point -> orb.Point -> float) (localOffset : Z -> Z)
    (File : Type) (OpenFile : string -> File + error) (Decode : File -> wrapper + error)
    (startDate endDate : time.Time) (officeLocation : orb.Point) (tolerance : float)
    (fileNames : list string) (d d' : dayMap) (logs logs' : list logEntry) :
  reachable localOffset d ->
  processFiles ParseFloat DistanceHaversine localOffset OpenFile Decode
               startDate endDate officeLocation tolerance fileNames (d, logs)
  = Returned (d', logs') ->
  d ⊆ d' /\ reachable localOffset d' /\ (dayMap_len d <= dayMap_len d')%nat.
Proof.
  intros Hd Hrun.
  destruct (processFiles_inv ParseFloat DistanceHaversine localOffset File OpenFile Decode
              startDate endDate officeLocation tolerance fileNames d logs d' logs' Hrun)
    as (tss & _ & ->).
  assert (Hsub : d ⊆ fold_left (dayMap_Add localOffset) (concat tss) d)
    by now apply fold_left_Add_subseteq.
  split; [exact Hsub|]. split; [now apply reachable_fold_left|].
  now apply map_subseteq_size.
Qed.

Lemma processFiles_keeps_days_witness :
  reachable (fun _ => 0) (dayMap_Add (fun _ => 0) ∅ sundayEvening)
  /\ processFiles exampleParseFloat exampleDistance (fun _ => 0) exampleOpenFile
                  exampleDecode (dateUTC 2022 1 1) (dateUTC 2022 12 31) exampleOffice 100
                  ["b.json"] (dayMap_Add (fun _ => 0) ∅ sundayEvening, [])
     = Returned ({[ "2022-01-02" := false; "2022-01-03" := true ]},
                 [ debugLine "b.json" 1 1 ])
  /\ dayMap_Add (fun _ => 0) ∅ sundayEvening
     ⊆ {[ "2022-01-02" := false; "2022-01-03" := true ]}.
Proof.
  assert (Hd : reachable (fun _ => 0) (dayMap_Add (fun _ => 0) ∅ sundayEvening))
    by (apply reachable_Add, reachable_empty).
  assert (Hrun : processFiles exampleParseFloat exampleDistance (fun _ => 0)
                   exampleOpenFile exampleDecode (dateUTC 2022 1 1) (dateUTC 2022 12 31)
                   exampleOffice 100 ["b.json"]
                   (dayMap_Add (fun _ => 0) ∅ sundayEvening, [])
                 = Returned ({[ "2022-01-02" := false; "2022-01-03" := true ]},
                             [ debugLine "b.json" 1 1 ]))
    by (vm_compute; reflexivity).
  split; [exact Hd|]. split; [exact Hrun|].
  exact (proj1 (processFiles_keeps_days exampleParseFloat exampleDistance (fun _ => 0)
                  exampleFile exampleOpenFile exampleDecode (dateUTC 2022 1 1)
                  (dateUTC 2022 12 31) exampleOffice 100 ["b.json"] _ _ [] _ Hd Hrun)).
Defined.

(** ** The tolerance test on binary64 *)

Lemma leb_nan_r (x : float) : (x <=? nan)%float = false.
Proof.
  rewrite leb_spec.
  replace (Prim2SF nan) with S754_nan by (vm_compute; reflexivity).
  unfold SFleb, SFcompare. now destruct (Prim2SF x) as [ | | |[] ? ?].
Qed.

Lemma leb_nan_l (y : float) : (nan <=? y)%float = false.
Proof.
  rewrite leb_spec.
  replace (Prim2SF nan) with S754_nan by (vm_compute; reflexivity).
  reflexivity.
Qed.

(** X12.  The comparison [distance <= tolerance] is false when either side
    is not a number: a tolerance that is NaN ([strconv.ParseFloat] accepts
    the text NaN), or a record whose distance is NaN, adds no day, while the
    record is still counted. *)
Theorem NaN_matches_nothing
    (DistanceHaversine : orb.Point -> orb.Point -> float) (localOffset : Z -> Z)
    (startDate endDate : time.Time) (officeLocation : orb.Point) (tolerance : float) :
  (forall places st,
     fold_left (processPlace DistanceHaversine localOffset startDate endDate
                             officeLocation nan) places st
     = (fst st,
        (snd st + length (List.filter (fun place => negb (skipped startDate endDate place))
                                      places))%nat))
  /\ (forall st place,
        skipped startDate endDate place = false ->
        DistanceHaversine officeLocation (Latitude place, Longitude place) = nan ->
        processPlace DistanceHaversine localOffset startDate endDate officeLocation
                     tolerance st place
        = (fst st, S (snd st))).
Proof.
  split.
  - intros places st. rewrite fold_left_processPlace. f_equal.
    replace (List.filter (matches DistanceHaversine startDate endDate officeLocation nan)
                         places)
      with (@nil timelinePoint); [reflexivity|].
    induction places as [|place places IH]; [reflexivity|].
    cbn [List.filter]. unfold matches at 1. now rewrite leb_nan_r, andb_false_r.
  - intros st place Hskip Hnan.
    now rewrite (processPlace_considered _ _ _ _ _ _ _ _ Hskip), Hnan, leb_nan_l.
Qed.

(** ** The directory walk *)

(** Induction over a tree, with the hypothesis for every entry. *)
Lemma fsNode_entries_ind (P : fsNode -> Prop) :
  P RegularFile ->
  (forall entries, Forall (fun entry => P entry.2) entries -> P (Directory entries)) ->
  (forall err, P (Unreadable err)) ->
  forall node, P node.
Proof.
  intros Hfile Hdir Herr.
  fix IH 1. intros [|entries|err]; [exact Hfile | | apply Herr].
  apply Hdir. induction entries as [|[name entry] entries IHentries]; constructor.
  - apply IH.
  - exact IHentries.
Qed.

Lemma firstFailure_app (dirs dirs' : list (string * fsNode)) :
  firstFailure (dirs ++ dirs')
  = match firstFailure dirs with
    | Some failure => Some failure
    | None => firstFailure dirs'
    end.
Proof.
  induction dirs as [|[name node] dirs IH]; [reflexivity|].
  cbn [app firstFailure]. now destruct (ReadDir name node).
Qed.

Section WalkFacts.

Variable Join : string -> string -> string.

(** The walk from a node: when [os.ReadDir] fails on none of its directories
    it appends the files under it, depth first; otherwise it ends in the
    error of the first one on which it fails. *)
Lemma readDir_firstFailure (node : fsNode) :
  forall inputDir files,
    match firstFailure (directories Join node inputDir) with
    | None => readDir Join node inputDir files = (files ++ filesUnder Join node inputDir, None)
    | Some (path, err) =>
        exists files', readDir Join node inputDir files = (files', Some (readDirError path err))
    end.
Proof.
  induction node as [|entries IH|errno] using fsNode_entries_ind; intros inputDir files.
  - cbn. eauto.
  - cbn [directories firstFailure ReadDir readDir filesUnder]. revert files.
    induction IH as [|[name entry] entries Hentry _ IHentries]; intros files.
    + now rewrite app_nil_r.
    + cbn [snd] in Hentry. rewrite firstFailure_app. destruct (IsDir entry) eqn:Hdir.
      * specialize (Hentry (Join inputDir name) files).
        destruct (firstFailure (directories Join entry (Join inputDir name)))
          as [[path err]|].
        -- destruct Hentry as [files' ->]. eauto.
        -- rewrite Hentry.
           specialize (IHentries (files ++ filesUnder Join entry (Join inputDir name))).
           match goal with
           | |- match ?failure with _ => _ end => destruct failure as [[path err]|]
           end.
           ++ exact IHentries.
           ++ now rewrite IHentries, app_assoc.
      * cbn [firstFailure]. specialize (IHentries (files ++ [Join inputDir name])).
        match goal with
        | |- match ?failure with _ => _ end => destruct failure as [[path err]|]
        end.
        -- exact IHentries.
        -- now rewrite IHentries, <- app_assoc.
  - cbn. eauto.
Qed.

(** [os.ReadDir] fails on no directory of a tree exactly when all of them
    can be read. *)
Lemma readable_firstFailure (node : fsNode) :
  IsDir node = true ->
  forall inputDir,
    readable node
    = match firstFailure (directories Join node inputDir) with
      | None => true
      | Some _ => false
      end.
Proof.
  induction node as [|entries IH|errno] using fsNode_entries_ind; intros Hdir inputDir.
  - discriminate.
  - cbn [directories firstFailure ReadDir readable]. clear Hdir.
    induction IH as [|[name entry] entries Hentry _ IHentries]; [reflexivity|].
    cbn [snd] in Hentry. rewrite firstFailure_app, IHentries.
    destruct (IsDir entry) eqn:Hdir.
    + rewrite (Hentry eq_refl (Join inputDir name)).
      now destruct (firstFailure (directories Join entry (Join inputDir name))).
    + now destruct entry.
  - reflexivity.
Qed.

(** [listFilesRecursively] by the first failure of the walk. *)
Lemma listFilesRecursively_firstFailure (inputDir : string) (root : fsNode) :
  listFilesRecursively Join inputDir root
  = match firstFailure (directories Join root inputDir) with
    | None => (filesUnder Join root inputDir, None)
    | Some (path, err) => ([], Some (readDirError path err))
    end.
Proof.
  unfold listFilesRecursively.
  pose proof (readDir_firstFailure root inputDir []) as H.
  destruct (firstFailure (directories Join root inputDir)) as [[path err]|].
  - now destruct H as [files' ->].
  - now rewrite H.
Qed.

(** Where the root is not a tree of directories that can be read, the walk
    fails. *)
Lemma firstFailure_not_readable (inputDir : string) (root : fsNode) :
  IsDir root && readable root = false ->
  exists path err, firstFailure (directories Join root inputDir) = Some (path, err).
Proof.
  intros Hroot. destruct (IsDir root) eqn:Hdir; cbn [andb] in Hroot.
  - rewrite (readable_firstFailure root Hdir inputDir) in Hroot.
    destruct (firstFailure (directories Join root inputDir)) as [[path err]|];
      [eauto|discriminate].
  - destruct root; try discriminate. cbn. eauto.
Qed.

End WalkFacts.

(** X13.  [listFilesRecursively] is all or nothing.  When the root is a
    directory and every directory under it can be read, it returns the paths
    of all regular files, depth first in the order of the entries, and no
    error.  Otherwise it returns no path at all, and the error
    [could not read directory <path>: <err>] for the first directory, in the
    order of the walk, on which [os.ReadDir] fails, with that directory's
    path and the error of [os.ReadDir]; for a root that is a regular file
    this is [could not read directory <root>: open <root>: not a
    directory]. *)
Theorem listFilesRecursively_all_or_nothing
    (Join : string -> string -> string) (inputDir : string) (root : fsNode) :
  (if IsDir root && readable root
   then firstFailure (directories Join root inputDir) = None
        /\ listFilesRecursively Join inputDir root = (filesUnder Join root inputDir, None)
   else exists path err,
          firstFailure (directories Join root inputDir) = Some (path, err)
          /\ listFilesRecursively Join inputDir root = ([], Some (readDirError path err)))
  /\ (exists err,
        listFilesRecursively Join inputDir RegularFile = ([], Some err)
        /\ Error err
           = ("could not read directory " ++ inputDir ++ ": open " ++ inputDir
              ++ ": not a directory")%string).
Proof.
  split.
  - rewrite listFilesRecursively_firstFailure.
    destruct (IsDir root && readable root) eqn:Hroot.
    + apply andb_true_iff in Hroot as [Hdir Hread].
      rewrite (readable_firstFailure Join root Hdir inputDir) in Hread.
      now destruct (firstFailure (directories Join root inputDir)).
    + destruct (firstFailure_not_readable Join inputDir root Hroot) as (path & err & ->).
      eauto.
  - eexists. split; [reflexivity|].
    cbn [Error readDirError PathError ENOTDIR].
    rewrite !string_app_assoc. reflexivity.
Qed.

Example listFilesRecursively_example :
  listFilesRecursively exampleJoin "takeout" exampleTree
  = (["takeout/2022/b.json"; "takeout/a.json"], None)
  /\ (Error <$> (listFilesRecursively exampleJoin "takeout" brokenTree).2)
     = Some "could not read directory takeout/private: open takeout/private: permission denied"
  /\ (Error <$> (listFilesRecursively exampleJoin "takeout/a.json" RegularFile).2)
     = Some "could not read directory takeout/a.json: open takeout/a.json: not a directory".
Proof. repeat split. Qed.

(** ** The report *)

Lemma sort_Strings_Sorted (x : list string) : Sorted String.le (sort.Strings x).
Proof. unfold sort.Strings. apply Sorted_merge_sort. apply _. Qed.

Lemma sort_Strings_Permutation (x : list string) : Permutation (sort.Strings x) x.
Proof. unfold sort.Strings. apply merge_sort_Permutation. Qed.

(** Sorting forgets the order of its input. *)
Lemma sort_Strings_order_independent (x y : list string) :
  Permutation x y -> sort.Strings x = sort.Strings y.
Proof.
  intros H. apply (Sorted_unique String.le); try apply sort_Strings_Sorted.
  rewrite !sort_Strings_Permutation. exact H.
Qed.

Lemma length_dayMap_ToSlice (d : dayMap) : length (dayMap_ToSlice d) = dayMap_len d.
Proof. unfold dayMap_ToSlice, dayMap_len. now rewrite length_fmap, length_map_to_list. Qed.

Lemma length_printDates (d : dayMap) (slice : list string) :
  length (printDates d slice) = length slice.
Proof.
  unfold printDates. rewrite length_map.
  apply Permutation_length, sort_Strings_Permutation.
Qed.

(** X14.  What [main] prints under [-print-dates] does not depend on the
    order in which Go iterates over the map: for every order of the keys the
    lines are those of the dates in increasing order of their bytes, one line
    per day, with the note (weekend) exactly on the days whose flag is
    false. *)
Theorem printDates_sorted (d : dayMap) (slice : list string) :
  Permutation slice (dayMap_ToSlice d) ->
  printDates d slice = printDates d (dayMap_ToSlice d)
  /\ (exists dates,
        printDates d slice = map (dateLine d) dates
        /\ Sorted String.le dates
        /\ NoDup dates
        /\ (forall date, In date dates <-> is_Some (d !! date)))
  /\ length (printDates d slice) = dayMap_len d
  /\ (forall date,
        (d !! date = Some true ->
         dateLine d date = (date ++ String (ascii_of_nat 10) "")%string)
        /\ (d !! date = Some false ->
            dateLine d date = (date ++ " (weekend)" ++ String (ascii_of_nat 10) "")%string)).
Proof.
  intros Hperm. split; [|split; [|split]].
  - unfold printDates. now rewrite (sort_Strings_order_independent _ _ Hperm).
  - exists (sort.Strings slice). split; [reflexivity|].
    split; [apply sort_Strings_Sorted|].
    assert (Hkeys : Permutation (sort.Strings slice) (dayMap_ToSlice d))
      by (now rewrite sort_Strings_Permutation).
    split.
    + rewrite Hkeys. apply NoDup_fst_map_to_list.
    + intros date. rewrite <- list_elem_of_In, Hkeys. unfold dayMap_ToSlice.
      rewrite list_elem_of_fmap. split.
      * intros ([date' working] & -> & Hin). apply elem_of_map_to_list in Hin.
        now exists working.
      * intros [working Hlookup]. exists (date, working).
        split; [reflexivity|]. now apply elem_of_map_to_list.
  - rewrite length_printDates, (Permutation_length Hperm). apply length_dayMap_ToSlice.
  - intros date. unfold dateLine. split; intros ->; reflexivity.
Qed.

Lemma printDates_sorted_witness :
  Permutation ["2022-03-05"; "2022-01-02"]
              (dayMap_ToSlice {[ "2022-01-02" := false; "2022-03-05" := false ]})
  /\ printDates {[ "2022-01-02" := false; "2022-03-05" := false ]}
                ["2022-03-05"; "2022-01-02"]
     = printDates {[ "2022-01-02" := false; "2022-03-05" := false ]}
                  (dayMap_ToSlice {[ "2022-01-02" := false; "2022-03-05" := false ]}).
Proof.
  assert (H : Permutation ["2022-03-05"; "2022-01-02"]
                (dayMap_ToSlice {[ "2022-01-02" := false; "2022-03-05" := false ]})).
  { apply NoDup_Permutation.
    - apply NoDup_cons_2; [|apply NoDup_singleton].
      rewrite list_elem_of_singleton. discriminate.
    - apply NoDup_fst_map_to_list.
    - intros date. unfold dayMap_ToSlice. rewrite list_elem_of_fmap. split.
      + intros Hin. apply elem_of_cons in Hin as [->|Hin];
          [|apply list_elem_of_singleton in Hin as ->].
        * exists ("2022-03-05", false). split; [reflexivity|].
          now apply elem_of_map_to_list.
        * exists ("2022-01-02", false). split; [reflexivity|].
          now apply elem_of_map_to_list.
      + intros ([date' working] & -> & Hin). apply elem_of_map_to_list in Hin.
        apply lookup_insert_Some in Hin as [[<- _]|[_ Hin]].
        * apply elem_of_cons. right. now apply list_elem_of_singleton.
        * apply lookup_singleton_Some in Hin as [<- _]. now apply elem_of_cons; left. }
  split; [exact H|].
  exact (proj1 (printDates_sorted _ _ H)).
Defined.

Example printDates_example :
  printDates {[ "2022-03-05" := false; "2022-01-03" := true ]}
             ["2022-03-05"; "2022-01-03"]
  = [ ("2022-01-03" ++ String (ascii_of_nat 10) "")%string;
      ("2022-03-05 (weekend)" ++ String (ascii_of_nat 10) "")%string ].
Proof. reflexivity. Qed.

(** ** [main] *)

Section MainFacts.

Variable ParseFloat : string -> Z -> float * option error.
Variable DistanceHaversine : orb.Point -> orb.Point -> float.
Variable localOffset : Z -> Z.
Variable File : Type.
Variable OpenFile : string -> File + error.
Variable Decode : File -> wrapper + error.
Variable Join : string -> string -> string.
Variable ParseInLocation : string -> string -> time.Time * option error.
Variable fileSystem : string -> fsNode.

Local Abbreviation program := (main ParseFloat DistanceHaversine localOffset OpenFile
                                    Decode Join ParseInLocation fileSystem).

(** [main] is the loop over the listed files, followed by the report. *)
Lemma main_unfold (f : flags) :
  exists logs,
    program f
    = bind (processFiles ParseFloat DistanceHaversine localOffset OpenFile Decode
              (fst (ParseInLocation RFC3339 (startDateFlag f)))
              (fst (ParseInLocation RFC3339 (endDateFlag f)))
              (fst (ParseFloat (latitudeFlag f) 64), fst (ParseFloat (longitudeFlag f) 64))
              (fst (ParseFloat (toleranceFlag f) 64))
              (fst (listFilesRecursively Join (inputDirFlag f)
                                         (fileSystem (inputDirFlag f))))
              (∅, logs ++ flagError "Could not list files"
                            (snd (listFilesRecursively Join (inputDirFlag f)
                                                       (fileSystem (inputDirFlag f))))))
           (fun st =>
              Returned {| logged := written (verboseFlag f) (snd st);
                          daysTotal := dayMap_len (fst st);
                          daysWorking := dayMap_CountWorkingDays (fst st);
                          stdout := if printDatesFlag f
                                    then printDates (fst st) (dayMap_ToSlice (fst st))
                                    else [] |}).
Proof.
  unfold main.
  destruct (ParseFloat (latitudeFlag f) 64) as [latitude e1].
  destruct (ParseFloat (longitudeFlag f) 64) as [longitude e2].
  destruct (ParseFloat (toleranceFlag f) 64) as [tolerance e3].
  destruct (ParseInLocation RFC3339 (startDateFlag f)) as [startDate e4].
  destruct (ParseInLocation RFC3339 (endDateFlag f)) as [endDate e5].
  destruct (listFilesRecursively Join (inputDirFlag f) (fileSystem (inputDirFlag f)))
    as [fileNames e6].
  eexists. reflexivity.
Qed.

End MainFacts.

(** X15.  When [main] returns, the number of working days of the summary is
    at most the number of days, and standard output holds one line per day
    under [-print-dates] and nothing without it. *)
Theorem main_report
    (ParseFloat : string -> Z -> float * option error)
    (DistanceHaversine : orb.Point -> orb.Point -> float) (localOffset : Z -> Z)
    (File : Type) (OpenFile : string -> File + error) (Decode : File -> wrapper + error)
    (Join : string -> string -> string)
    (ParseInLocation : string -> string -> time.Time * option error)
    (fileSystem : string -> fsNode) (f : flags) (r : report) :
  main ParseFloat DistanceHaversine localOffset OpenFile Decode Join ParseInLocation
       fileSystem f
  = Returned r ->
  (daysWorking r <= daysTotal r)%nat
  /\ length (stdout r) = (if printDatesFlag f then daysTotal r else 0)%nat.
Proof.
  destruct (main_unfold ParseFloat DistanceHaversine localOffset File OpenFile Decode Join
              ParseInLocation fileSystem f) as [logs ->].
  match goal with
  | |- bind ?run _ = _ -> _ => destruct run as [[d logs']|p]
  end; cbn [bind fst snd]; [|discriminate].
  intros [= <-]. cbn [daysWorking daysTotal stdout]. split.
  - rewrite CountWorkingDays_filter. unfold dayMap_len.
    apply map_subseteq_size, map_filter_subseteq.
  - destruct (printDatesFlag f); [|reflexivity].
    now rewrite length_printDates, length_dayMap_ToSlice.
Qed.

Lemma main_report_witness :
  main exampleParseFloat3 exampleDistance (fun _ => 0) exampleOpenFile3 exampleDecode
       exampleJoin (fun _ value => (exampleDate value, None)) (fun _ => exampleTree)
       exampleFlags
  = Returned exampleReport
  /\ (daysWorking exampleReport <= daysTotal exampleReport)%nat
  /\ length (stdout exampleReport) = daysTotal exampleReport.
Proof.
  assert (H : main exampleParseFloat3 exampleDistance (fun _ => 0) exampleOpenFile3
                exampleDecode exampleJoin (fun _ value => (exampleDate value, None))
                (fun _ => exampleTree) exampleFlags
              = Returned exampleReport)
    by (vm_compute; reflexivity).
  split; [exact H|].
  exact (main_report exampleParseFloat3 exampleDistance (fun _ => 0) exampleFile
           exampleOpenFile3 exampleDecode exampleJoin
           (fun _ value => (exampleDate value, None)) (fun _ => exampleTree)
           exampleFlags exampleReport H).
Defined.

(** X16.  When the input directory cannot be listed (it is not a directory,
    or a directory under it cannot be read), [main] does not stop: it logs
    the error, which the logger writes with or without [-verbose], processes
    no file and reports zero days, zero working days and no date. *)
Theorem main_listing_error
    (ParseFloat : string -> Z -> float * option error)
    (DistanceHaversine : orb.Point -> orb.Point -> float) (localOffset : Z -> Z)
    (File : Type) (OpenFile : string -> File + error) (Decode : File -> wrapper + error)
    (Join : string -> string -> string)
    (ParseInLocation : string -> string -> time.Time * option error)
    (fileSystem : string -> fsNode) (f : flags) :
  IsDir (fileSystem (inputDirFlag f)) && readable (fileSystem (inputDirFlag f)) = false ->
  exists logs entry,
    main ParseFloat DistanceHaversine localOffset OpenFile Decode Join ParseInLocation
         fileSystem f
    = Returned {| logged := logs; daysTotal := 0; daysWorking := 0; stdout := [] |}
    /\ last logs = Some entry
    /\ entryLevel entry = ErrorLevel
    /\ entryMsg entry = "Could not list files".
Proof.
  intros Hroot.
  destruct (main_unfold ParseFloat DistanceHaversine localOffset File OpenFile Decode Join
              ParseInLocation fileSystem f) as [logs ->].
  assert (Hlist : exists e, listFilesRecursively Join (inputDirFlag f)
                              (fileSystem (inputDirFlag f)) = ([], Some e)).
  { rewrite listFilesRecursively_firstFailure.
    destruct (firstFailure_not_readable Join (inputDirFlag f) _ Hroot) as (path & err & ->).
    eauto. }
  destruct Hlist as [e ->]. cbn [fst snd flagError].
  unfold processFiles. cbn [forRange bind fst snd].
  rewrite CountWorkingDays_empty. unfold dayMap_len. rewrite map_size_empty.
  assert (Hout : (if printDatesFlag f then printDates ∅ (dayMap_ToSlice ∅) else []) = [])
    by now destruct (printDatesFlag f).
  rewrite Hout. unfold written. rewrite List.filter_app. cbn [List.filter enabled entryLevel].
  eexists _, _. split; [reflexivity|].
  rewrite last_snoc. repeat split.
Qed.

Lemma main_listing_error_witness :
  IsDir brokenTree && readable brokenTree = false
  /\ exists logs entry,
       main exampleParseFloat exampleDistance (fun _ => 0) exampleOpenFile exampleDecode
            exampleJoin (fun _ value => (exampleDate value, None)) (fun _ => brokenTree)
            exampleFlags
       = Returned {| logged := logs; daysTotal := 0; daysWorking := 0; stdout := [] |}
       /\ last logs = Some entry
       /\ entryLevel entry = ErrorLevel
       /\ entryMsg entry = "Could not list files".
Proof.
  split; [reflexivity|].
  exact (main_listing_error exampleParseFloat exampleDistance (fun _ => 0) exampleFile
           exampleOpenFile exampleDecode exampleJoin
           (fun _ value => (exampleDate value, None)) (fun _ => brokenTree)
           exampleFlags eq_refl).
Defined.

(** ** Widening the time range *)

Section Range.

Variable DistanceHaversine : orb.Point -> orb.Point -> float.
Variables (officeLocation : orb.Point) (tolerance : float).

Lemma matches_wider (startDate endDate startDate' endDate' : time.Time)
    (place : timelinePoint) :
  Time_valid startDate -> Time_valid endDate ->
  Time_valid startDate' -> Time_valid endDate' ->
  Time_valid (Start place) -> Time_valid (End_ place) ->
  time.Time_UnixNano startDate' <= time.Time_UnixNano startDate ->
  time.Time_UnixNano endDate <= time.Time_UnixNano endDate' ->
  matches DistanceHaversine startDate endDate officeLocation tolerance place = true ->
  matches DistanceHaversine startDate' endDate' officeLocation tolerance place = true.
Proof.
  intros Hs He Hs' He' Hps Hpe Hstart Hend. unfold matches.
  rewrite !andb_true_iff, !negb_true_iff. intros [Hskip Hnear]. split; [|exact Hnear].
  unfold skipped in *. apply orb_false_iff in Hskip as [Hbefore Hafter].
  apply orb_false_iff. split.
  - destruct (time.Time_Before (End_ place) startDate') eqn:E; [|reflexivity].
    apply (Time_Before_lt _ _ Hpe Hs') in E.
    assert (H : time.Time_Before (End_ place) startDate = true)
      by (apply (Time_Before_lt _ _ Hpe Hs); lia).
    congruence.
  - destruct (time.Time_After (Start place) endDate') eqn:E; [|reflexivity].
    apply (Time_After_gt _ _ Hps He') in E.
    assert (H : time.Time_After (Start place) endDate = true)
      by (apply (Time_After_gt _ _ Hps He); lia).
    congruence.
Qed.

End Range.

(** X17.  Widening the time range never loses a day: for timestamps with a
    nanosecond field below one second, a range that starts no later and ends
    no earlier leads, on the same records, to a Day Set that holds every day
    of the narrower range, with the same flag. *)
Theorem wider_range_keeps_days
    (DistanceHaversine : orb.Point -> orb.Point -> float) (localOffset : Z -> Z)
    (officeLocation : orb.Point) (tolerance : float)
    (startDate endDate startDate' endDate' : time.Time) (places : list timelinePoint) :
  Time_valid startDate -> Time_valid endDate ->
  Time_valid startDate' -> Time_valid endDate' ->
  Forall (fun place => Time_valid (Start place) /\ Time_valid (End_ place)) places ->
  time.Time_UnixNano startDate' <= time.Time_UnixNano startDate ->
  time.Time_UnixNano endDate <= time.Time_UnixNano endDate' ->
  fst (fold_left (processPlace DistanceHaversine localOffset startDate endDate
                               officeLocation tolerance) places (∅, 0%nat))
  ⊆ fst (fold_left (processPlace DistanceHaversine localOffset startDate' endDate'
                                 officeLocation tolerance) places (∅, 0%nat)).
Proof.
  intros Hs He Hs' He' Hplaces Hstart Hend.
  rewrite !fold_left_processPlace. cbn [fst].
  apply map_subseteq_spec. intros date working Hlookup.
  apply fold_left_Add_lookup in Hlookup as (t & Hin & Hdate & Hflag).
  apply fold_left_Add_lookup. exists t. split; [|split; assumption].
  apply in_map_iff in Hin as (place & <- & Hin). apply in_map.
  apply filter_In in Hin as [Hin Hmatch]. apply filter_In. split; [exact Hin|].
  rewrite Forall_forall in Hplaces.
  destruct (Hplaces place ltac:(now apply list_elem_of_In)) as [Hps Hpe].
  now apply (matches_wider DistanceHaversine officeLocation tolerance
               startDate endDate startDate' endDate').
Qed.

Lemma wider_range_keeps_days_witness :
  (Time_valid (dateUTC 2022 1 2) /\ Time_valid (dateUTC 2022 1 2)
   /\ Time_valid (dateUTC 2022 1 1) /\ Time_valid (dateUTC 2022 1 5))
  /\ Forall (fun place => Time_valid (Start place) /\ Time_valid (End_ place))
            [exampleRecord; farRecord]
  /\ time.Time_UnixNano (dateUTC 2022 1 1) <= time.Time_UnixNano (dateUTC 2022 1 2)
  /\ time.Time_UnixNano (dateUTC 2022 1 2) <= time.Time_UnixNano (dateUTC 2022 1 5)
  /\ fst (fold_left (processPlace exampleDistance (fun _ => 0) (dateUTC 2022 1 2)
                                  (dateUTC 2022 1 2) exampleOffice 100)
                    [exampleRecord; farRecord] (∅, 0%nat))
     ⊆ fst (fold_left (processPlace exampleDistance (fun _ => 0) (dateUTC 2022 1 1)
                                    (dateUTC 2022 1 5) exampleOffice 100)
                      [exampleRecord; farRecord] (∅, 0%nat)).
Proof.
  assert (Hv : forall y m d, Time_valid (dateUTC y m d))
    by (intros; unfold Time_valid, dateUTC; cbn [time.nsec]; lia).
  assert (Hplaces : Forall (fun place => Time_valid (Start place) /\ Time_valid (End_ place))
                           [exampleRecord; farRecord])
    by (repeat constructor; apply Hv).
  assert (H1 : time.Time_UnixNano (dateUTC 2022 1 1) <= time.Time_UnixNano (dateUTC 2022 1 2))
    by (vm_compute; discriminate).
  assert (H2 : time.Time_UnixNano (dateUTC 2022 1 2) <= time.Time_UnixNano (dateUTC 2022 1 5))
    by (vm_compute; discriminate).
  split; [repeat split; apply Hv|]. split; [exact Hplaces|].
  split; [exact H1|]. split; [exact H2|].
  exact (wider_range_keeps_days exampleDistance (fun _ => 0) exampleOffice 100
           (dateUTC 2022 1 2) (dateUTC 2022 1 2) (dateUTC 2022 1 1) (dateUTC 2022 1 5)
           [exampleRecord; farRecord] (Hv _ _ _) (Hv _ _ _) (Hv _ _ _) (Hv _ _ _)
           Hplaces H1 H2).
Defined.

(** ** The order of the date texts *)

Lemma doe_next_year (doe : Z) :
  0 <= doe < 146097 ->
  let yoe := (doe - doe / 1460 + doe / 36524 - doe / 146096) / 365 in
  doe < 365 * (yoe + 1) + (yoe + 1) / 4 - (yoe + 1) / 100 \/ yoe = 399.
Proof. intros H yoe. subst yoe. Z.div_mod_to_equations. lia. Qed.

(** The quantities behind a civil date: era, year of the era, day of the
    year (both counted from March) and month, with their bounds. *)
Lemma civil_facts (z : Z) :
  exists era yoe doy mp,
    z + 719468 = era * 146097 + (365 * yoe + yoe / 4 - yoe / 100) + doy
    /\ 0 <= yoe < 400
    /\ 0 <= doy
    /\ (365 * yoe + yoe / 4 - yoe / 100) + doy < 146097
    /\ (yoe < 399 ->
        (365 * yoe + yoe / 4 - yoe / 100) + doy
        < 365 * (yoe + 1) + (yoe + 1) / 4 - (yoe + 1) / 100)
    /\ 0 <= mp < 12
    /\ (153 * mp + 2) / 5 <= doy < (153 * (mp + 1) + 2) / 5
    /\ time.civilFromDays z
       = (if mp <? 10 then yoe + era * 400 else yoe + era * 400 + 1,
          if mp <? 10 then mp + 3 else mp - 9,
          doy - (153 * mp + 2) / 5 + 1).
Proof.
  unfold time.civilFromDays.
  set (z' := z + 719468).
  set (era := z' / 146097).
  set (doe := z' - era * 146097).
  pose proof (doe_range z') as Hdoe. fold era in Hdoe. fold doe in Hdoe.
  pose proof (doe_next_year doe Hdoe) as Hnext. cbv zeta in Hnext.
  pose proof (yoe_range doe Hdoe) as Hyoe.
  pose proof (doy_range doe Hdoe) as Hdoy. cbv zeta in Hdoy.
  set (yoe := (doe - doe / 1460 + doe / 36524 - doe / 146096) / 365) in *.
  set (doy := doe - (365 * yoe + yoe / 4 - yoe / 100)) in *.
  set (mp := (5 * doy + 2) / 153).
  assert (Hmp : 0 <= mp < 12) by (subst mp; Z.div_mod_to_equations; lia).
  exists era, yoe, doy, mp.
  split; [subst doy doe; lia|]. split; [exact Hyoe|]. split; [lia|].
  split; [subst doy; lia|]. split; [intros; subst doy; lia|].
  split; [exact Hmp|]. split; [subst mp; Z.div_mod_to_equations; lia|].
  destruct (mp <? 10) eqn:E; [apply Z.ltb_lt in E | apply Z.ltb_ge in E].
  - replace (mp + 3 <=? 2) with false by (symmetry; apply Z.leb_gt; lia). reflexivity.
  - replace (mp - 9 <=? 2) with true by (symmetry; apply Z.leb_le; lia). reflexivity.
Qed.

Lemma yearStart_mono (a b : Z) :
  0 <= a -> a < b ->
  365 * (a + 1) + (a + 1) / 4 - (a + 1) / 100 <= 365 * b + b / 4 - b / 100.
Proof. intros. Z.div_mod_to_equations. lia. Qed.

Lemma yearStart_bound (a : Z) :
  0 <= a < 400 -> 0 <= 365 * a + a / 4 - a / 100 <= 146097.
Proof. intros. Z.div_mod_to_equations. lia. Qed.

Lemma monthStart_mono (a b : Z) :
  0 <= a -> a < b -> (153 * (a + 1) + 2) / 5 <= (153 * b + 2) / 5.
Proof. intros. Z.div_mod_to_equations. lia. Qed.

(** A later day has a later date. *)
Lemma civilFromDays_lt (z1 z2 : Z) :
  z1 < z2 -> dateKey (time.civilFromDays z1) < dateKey (time.civilFromDays z2).
Proof.
  intros H.
  destruct (civil_facts z1)
    as (era1 & yoe1 & doy1 & mp1 & Hz1 & Hy1 & Hd1 & He1 & Hn1 & Hm1 & Hq1 & ->).
  destruct (civil_facts z2)
    as (era2 & yoe2 & doy2 & mp2 & Hz2 & Hy2 & Hd2 & He2 & Hn2 & Hm2 & Hq2 & ->).
  pose proof (yearStart_bound yoe1 Hy1) as Hb1.
  pose proof (yearStart_bound yoe2 Hy2) as Hb2.
  set (s1 := 365 * yoe1 + yoe1 / 4 - yoe1 / 100) in *.
  set (s2 := 365 * yoe2 + yoe2 / 4 - yoe2 / 100) in *.
  set (q1 := (153 * mp1 + 2) / 5) in *.
  set (q2 := (153 * mp2 + 2) / 5) in *.
  assert (Hq1b : 0 <= q1 <= 337) by (subst q1; Z.div_mod_to_equations; lia).
  assert (Hq2b : 0 <= q2 <= 337) by (subst q2; Z.div_mod_to_equations; lia).
  assert (Hday1 : 1 <= doy1 - q1 + 1 <= 31).
  { destruct Hq1 as [Ha Hb]. split; [lia|]. subst q1. Z.div_mod_to_equations. lia. }
  assert (Hday2 : 1 <= doy2 - q2 + 1 <= 31).
  { destruct Hq2 as [Ha Hb]. split; [lia|]. subst q2. Z.div_mod_to_equations. lia. }
  assert (Hyear : era1 * 400 + yoe1 <= era2 * 400 + yoe2).
  { destruct (Z_lt_le_dec (era2 * 400 + yoe2) (era1 * 400 + yoe1)) as [Hlt|]; [exfalso|lia].
    destruct (Z_lt_le_dec era2 era1) as [Hera|Hera].
    - assert (era2 * 146097 + 146097 <= era1 * 146097) by lia. lia.
    - assert (era1 = era2) by lia. subst era2.
      assert (yoe2 < yoe1) by lia.
      pose proof (yearStart_mono yoe2 yoe1 ltac:(lia) ltac:(lia)) as Hm. fold s1 in Hm.
      specialize (Hn2 ltac:(lia)). lia. }
  destruct (Z.eq_dec (era1 * 400 + yoe1) (era2 * 400 + yoe2)) as [Heq|Hne].
  - assert (era1 = era2 /\ yoe1 = yoe2) as [-> ->] by lia.
    assert (Hdoy : doy1 < doy2) by (subst s1 s2; lia).
    assert (Hmp : mp1 <= mp2).
    { destruct (Z_lt_le_dec mp2 mp1) as [Hlt|]; [exfalso|lia].
      pose proof (monthStart_mono mp2 mp1 ltac:(lia) Hlt) as Hm. fold q1 in Hm. lia. }
    destruct (Z.eq_dec mp1 mp2) as [->|Hmne].
    + unfold dateKey. subst q1 q2. destruct (mp2 <? 10); lia.
    + assert (mp1 < mp2) by lia. unfold dateKey.
      destruct (mp1 <? 10) eqn:E1; [apply Z.ltb_lt in E1 | apply Z.ltb_ge in E1];
        destruct (mp2 <? 10) eqn:E2;
        [apply Z.ltb_lt in E2 | apply Z.ltb_ge in E2
        | apply Z.ltb_lt in E2 | apply Z.ltb_ge in E2]; lia.
  - assert (era1 * 400 + yoe1 < era2 * 400 + yoe2) by lia. unfold dateKey.
    destruct (mp1 <? 10) eqn:E1; [apply Z.ltb_lt in E1 | apply Z.ltb_ge in E1];
      destruct (mp2 <? 10) eqn:E2;
      [apply Z.ltb_lt in E2 | apply Z.ltb_ge in E2
      | apply Z.ltb_lt in E2 | apply Z.ltb_ge in E2]; lia.
Qed.

Lemma civilFromDays_le_iff (z1 z2 : Z) :
  z1 <= z2 <-> dateKey (time.civilFromDays z1) <= dateKey (time.civilFromDays z2).
Proof.
  split; intros H.
  - destruct (Z.eq_dec z1 z2) as [->|Hne]; [lia|].
    pose proof (civilFromDays_lt z1 z2 ltac:(lia)). lia.
  - destruct (Z_lt_le_dec z2 z1) as [Hlt|]; [|lia].
    pose proof (civilFromDays_lt z2 z1 Hlt). lia.
Qed.

Lemma Ascii_compare_digit (a b : Z) :
  0 <= a <= 9 -> 0 <= b <= 9 -> Ascii.compare (digit a) (digit b) = (a ?= b).
Proof.
  intros Ha Hb. unfold Ascii.compare, digit.
  rewrite !N_ascii_embedding by lia.
  rewrite <- N2Z.inj_compare, !N2Z.inj_add, !Z2N.id by lia.
  apply Z.add_compare_mono_l.
Qed.

(** The bytes of a decimal numeral. *)
Local Abbreviation bytesOf u := (list_ascii_of_string (NilEmpty.string_of_uint u)).

Lemma length_bytesOf (u : Decimal.uint) : length (bytesOf u) = Decimal.nb_digits u.
Proof. induction u; cbn; congruence. Qed.

Lemma bytesOf_nzhead (u : Decimal.uint) :
  (repeat "0"%char (Decimal.nb_digits u - Decimal.nb_digits (Decimal.nzhead u))
   ++ bytesOf (Decimal.nzhead u))%list
  = bytesOf u
  /\ (Decimal.nb_digits (Decimal.nzhead u) <= Decimal.nb_digits u)%nat.
Proof.
  induction u as [|u [IH Hle]| | | | | | | | |];
    try (cbn [Decimal.nzhead]; rewrite Nat.sub_diag; split; [reflexivity | lia]).
  cbn [Decimal.nzhead Decimal.nb_digits]. split; [|lia].
  rewrite Nat.sub_succ_l by exact Hle. cbn [repeat app]. rewrite IH. reflexivity.
Qed.

(** Zero padding restores the leading zeros that normalisation removes. *)
Lemma bytesOf_unorm (u : Decimal.uint) :
  u <> Decimal.Nil ->
  (repeat "0"%char (Decimal.nb_digits u - length (bytesOf (Decimal.unorm u)))
   ++ bytesOf (Decimal.unorm u))%list
  = bytesOf u.
Proof.
  intros Hu. rewrite length_bytesOf.
  destruct (bytesOf_nzhead u) as [Hpad Hle]. unfold Decimal.unorm.
  destruct (Decimal.nzhead u) eqn:Hnz; try exact Hpad.
  (* every digit is zero *)
  cbn [Decimal.nb_digits] in *. rewrite Nat.sub_0_r in Hpad. cbn [bytesOf] in Hpad.
  rewrite app_nil_r in Hpad. rewrite <- Hpad.
  destruct (Decimal.nb_digits u) as [|n] eqn:Hn.
  - destruct u; cbn in Hn; congruence.
  - cbn [repeat]. replace (S n - 1)%nat with n by lia.
    change ("0"%char :: repeat "0"%char n) with (repeat "0"%char (S n)).
    now rewrite <- repeat_cons.
Qed.

(** A numeral that is not empty is written, at its own width, digit by
    digit. *)
Lemma intField_numeral (u : Decimal.uint) :
  u <> Decimal.Nil ->
  time.intField (Z.of_N (N.of_uint u)) (Decimal.nb_digits u) = bytesOf u.
Proof.
  intros Hu. unfold time.intField.
  replace (Z.of_N (N.of_uint u) <? 0) with false by (symmetry; apply Z.ltb_ge; lia).
  rewrite Z.abs_eq, N2Z.id, DecimalN.Unsigned.to_of by lia.
  cbn [app]. now apply bytesOf_unorm.
Qed.

Ltac digit_cases a :=
  let H := fresh in
  assert (H : a = 0 \/ a = 1 \/ a = 2 \/ a = 3 \/ a = 4 \/ a = 5 \/ a = 6 \/ a = 7
              \/ a = 8 \/ a = 9) by lia;
  destruct H as [->|[->|[->|[->|[->|[->|[->|[->|[->| ->]]]]]]]]].

Lemma revapp_consDigit (a : Z) (u v : Decimal.uint) :
  0 <= a <= 9 -> Decimal.revapp (consDigit a u) v = Decimal.revapp u (consDigit a v).
Proof. intros H. digit_cases a; reflexivity. Qed.

Lemma of_lu_consDigit (a : Z) (u : Decimal.uint) :
  0 <= a <= 9 ->
  DecimalPos.Unsigned.of_lu (consDigit a u)
  = (Z.to_N a + 10 * DecimalPos.Unsigned.of_lu u)%N.
Proof. intros H. digit_cases a; reflexivity. Qed.

Lemma bytesOf_consDigit (a : Z) (u : Decimal.uint) :
  0 <= a <= 9 -> bytesOf (consDigit a u) = digit a :: bytesOf u.
Proof. intros H. digit_cases a; reflexivity. Qed.

Lemma nb_digits_consDigit (a : Z) (u : Decimal.uint) :
  0 <= a <= 9 -> Decimal.nb_digits (consDigit a u) = S (Decimal.nb_digits u).
Proof. intros H. digit_cases a; reflexivity. Qed.

Lemma consDigit_not_Nil (a : Z) (u : Decimal.uint) : consDigit a u <> Decimal.Nil.
Proof.
  unfold consDigit.
  repeat match goal with
         | |- context [match ?x with _ => _ end] => destruct x
         end; discriminate.
Qed.

(** A year from 0 to 9999 is written with its four digits. *)
Lemma intField_4_digits (y : Z) :
  0 <= y < 10000 ->
  time.intField y 4
  = [digit (y / 1000); digit (y / 100 mod 10); digit (y / 10 mod 10); digit (y mod 10)].
Proof.
  intros H.
  set (a3 := y / 1000). set (a2 := y / 100 mod 10).
  set (a1 := y / 10 mod 10). set (a0 := y mod 10).
  assert (H3 : 0 <= a3 <= 9) by (subst a3; Z.div_mod_to_equations; lia).
  assert (H2 : 0 <= a2 <= 9) by (subst a2; Z.div_mod_to_equations; lia).
  assert (H1 : 0 <= a1 <= 9) by (subst a1; Z.div_mod_to_equations; lia).
  assert (H0 : 0 <= a0 <= 9) by (subst a0; Z.div_mod_to_equations; lia).
  assert (Hy : y = 1000 * a3 + 100 * a2 + 10 * a1 + a0)
    by (subst a3 a2 a1 a0; Z.div_mod_to_equations; lia).
  pose (u := consDigit a3 (consDigit a2 (consDigit a1 (consDigit a0 Decimal.Nil)))).
  assert (Hvalue : Z.of_N (N.of_uint u) = y).
  { unfold N.of_uint. rewrite DecimalPos.Unsigned.of_uint_alt. unfold Decimal.rev, u.
    rewrite !revapp_consDigit by assumption. cbn [Decimal.revapp].
    rewrite !of_lu_consDigit by assumption. cbn [DecimalPos.Unsigned.of_lu]. lia. }
  assert (Hwidth : Decimal.nb_digits u = 4%nat)
    by (unfold u; now rewrite !nb_digits_consDigit by assumption).
  rewrite <- Hvalue, <- Hwidth, (intField_numeral u (consDigit_not_Nil _ _)).
  unfold u. now rewrite !bytesOf_consDigit by assumption.
Qed.

(** A month or a day is written with its two digits. *)
Lemma intField_2_digits (x : Z) :
  0 <= x < 100 -> time.intField x 2 = [digit (x / 10); digit (x mod 10)].
Proof.
  intros H.
  set (a1 := x / 10). set (a0 := x mod 10).
  assert (H1 : 0 <= a1 <= 9) by (subst a1; Z.div_mod_to_equations; lia).
  assert (H0 : 0 <= a0 <= 9) by (subst a0; Z.div_mod_to_equations; lia).
  assert (Hx : x = 10 * a1 + a0) by (subst a1 a0; Z.div_mod_to_equations; lia).
  pose (u := consDigit a1 (consDigit a0 Decimal.Nil)).
  assert (Hvalue : Z.of_N (N.of_uint u) = x).
  { unfold N.of_uint. rewrite DecimalPos.Unsigned.of_uint_alt. unfold Decimal.rev, u.
    rewrite !revapp_consDigit by assumption. cbn [Decimal.revapp].
    rewrite !of_lu_consDigit by assumption. cbn [DecimalPos.Unsigned.of_lu]. lia. }
  assert (Hwidth : Decimal.nb_digits u = 2%nat)
    by (unfold u; now rewrite !nb_digits_consDigit by assumption).
  rewrite <- Hvalue, <- Hwidth, (intField_numeral u (consDigit_not_Nil _ _)).
  unfold u. now rewrite !bytesOf_consDigit by assumption.
Qed.

Lemma formatDate_digits (y m d : Z) :
  0 <= y < 10000 -> 0 <= m < 100 -> 0 <= d < 100 ->
  time.formatDate y m d
  = string_of_list_ascii
      [digit (y / 1000); digit (y / 100 mod 10); digit (y / 10 mod 10); digit (y mod 10);
       "-"%char; digit (m / 10); digit (m mod 10);
       "-"%char; digit (d / 10); digit (d mod 10)].
Proof.
  intros Hy Hm Hd. unfold time.formatDate, time.appendInt.
  rewrite (intField_4_digits y Hy), (intField_2_digits m Hm), (intField_2_digits d Hd).
  reflexivity.
Qed.

(** The byte order of two date texts is the order of the dates. *)
Lemma formatDate_compare (y1 m1 d1 y2 m2 d2 : Z) :
  0 <= y1 < 10000 -> 0 <= m1 < 100 -> 0 <= d1 < 100 ->
  0 <= y2 < 10000 -> 0 <= m2 < 100 -> 0 <= d2 < 100 ->
  String.compare (time.formatDate y1 m1 d1) (time.formatDate y2 m2 d2)
  = (dateKey (y1, m1, d1) ?= dateKey (y2, m2, d2)).
Proof.
  intros Hy1 Hm1 Hd1 Hy2 Hm2 Hd2.
  rewrite (formatDate_digits y1 m1 d1), (formatDate_digits y2 m2 d2) by assumption.
  cbn [string_of_list_ascii String.compare].
  replace (Ascii.compare "-" "-") with Eq by reflexivity.
  rewrite !Ascii_compare_digit by (Z.div_mod_to_equations; lia).
  unfold dateKey. symmetry.
  repeat match goal with
         | |- context [match (?a ?= ?b) with _ => _ end] =>
             destruct (Z.compare_spec a b)
         end;
    first [ apply Z.compare_eq_iff | apply Z.compare_lt_iff | apply Z.compare_gt_iff ];
    Z.div_mod_to_equations; lia.
Qed.

(** X18.  For timestamps whose year lies between 0 and 9999, the byte order
    of the date texts, which [sort.Strings] uses for the output of
    [-print-dates], is the order of the calendar days: the dates are printed
    in chronological order. *)
Theorem date_text_order_is_chronological
    (localOffset : Z -> Z) (t u : time.Time) :
  0 <= (time.Time_Date localOffset t).1.1 <= 9999 ->
  0 <= (time.Time_Date localOffset u).1.1 <= 9999 ->
  (String.le (time.Time_Format_date localOffset t) (time.Time_Format_date localOffset u)
   <-> time.Time_days localOffset t <= time.Time_days localOffset u).
Proof.
  unfold time.Time_Format_date, time.Time_Date. intros Ht Hu.
  rewrite (civilFromDays_le_iff (time.Time_days localOffset t)
             (time.Time_days localOffset u)).
  pose proof (civilFromDays_range (time.Time_days localOffset t)) as Rt.
  pose proof (civilFromDays_range (time.Time_days localOffset u)) as Ru.
  destruct (time.civilFromDays (time.Time_days localOffset t)) as [[y1 m1] d1].
  destruct (time.civilFromDays (time.Time_days localOffset u)) as [[y2 m2] d2].
  cbn [fst] in Ht, Hu. unfold String.le, String.leb.
  rewrite (formatDate_compare y1 m1 d1 y2 m2 d2) by lia.
  destruct (Z.compare_spec (dateKey (y1, m1, d1)) (dateKey (y2, m2, d2))) as [H|H|H].
  - split; [lia | intros _; exact I].
  - split; [lia | intros _; exact I].
  - split; [intros [] | lia].
Qed.

Lemma date_text_order_is_chronological_witness :
  (0 <= (time.Time_Date (fun _ => 0) sundayEvening).1.1 <= 9999)
  /\ (0 <= (time.Time_Date (fun _ => 0) mondayMorning).1.1 <= 9999)
  /\ (time.Time_days (fun _ => 0) sundayEvening <= time.Time_days (fun _ => 0) mondayMorning)
  /\ String.le (time.Time_Format_date (fun _ => 0) sundayEvening)
               (time.Time_Format_date (fun _ => 0) mondayMorning).
Proof.
  assert (Ht : 0 <= (time.Time_Date (fun _ => 0) sundayEvening).1.1 <= 9999)
    by (vm_compute; split; discriminate).
  assert (Hu : 0 <= (time.Time_Date (fun _ => 0) mondayMorning).1.1 <= 9999)
    by (vm_compute; split; discriminate).
  assert (Hdays : time.Time_days (fun _ => 0) sundayEvening
                  <= time.Time_days (fun _ => 0) mondayMorning)
    by (vm_compute; discriminate).
  split; [exact Ht|]. split; [exact Hu|]. split; [exact Hdays|].
  exact (proj2 (date_text_order_is_chronological (fun _ => 0) sundayEvening mondayMorning
                  Ht Hu) Hdays).
Defined.

Example date_text_order_beyond_9999 :
  String.le (time.formatDate 10000 1 1) (time.formatDate 9999 12 31).
Proof. exact I. Qed.
